(** * Retrieval fusion and confidence scoring of the support bot

    A shallow embedding of the search adapters (tool/search_xyz_qa.py,
    tool/search_xyz_manual.py), the unified search engine
    (tool/__init__.py), the agent (src/agent.py) and its endpoints
    (src/api.py), followed by the properties proved about them.

    Modelling conventions.
    - A Python [str] is a list of Unicode code points ([pystr]); the
      helper [u] decodes a UTF-8 literal so that the keyword tables read
      as they do in the source.  Strategy tags and dictionary keys, which
      are ASCII literals in the source, stay [string]s.
    - A Python [float] is the rational that the double denotes ([Q]);
      doubles that are not finite are not modelled.  An arithmetic
      operation on floats is the exact operation followed by a rounding
      [rnd : Q -> Q] ([F64.add], [F64.sub], [F64.mul], [F64.div]), and a
      decimal literal that takes part in arithmetic is the rounded
      decimal ([rnd 0.6]).  The rounding is a parameter of the code that
      computes with floats: [F64.round] is the rounding of binary64 to
      nearest, ties to even, and [F64.exact] is arithmetic without
      rounding.  Comparisons of floats are exact, as they are on doubles.
      Numeric results are compared with [==] where their fractions need
      not be reduced.
    - A Python [int] is a [Z]; slices follow Python's rule for negative
      bounds.
    - A call that may raise returns a [result]; [try ... except Exception]
      is [try_except].
    - Built-ins whose tables live outside the repository ([str.lower],
      value formatting, [pathlib.Path.name]) and the external services
      (embedder, vector index, text generation) are section variables.
    - Logging has no bearing on any returned value and is left out. *)

From Stdlib Require Import ZArith NArith QArith Qminmax Qround Qpower Lqa Lia.
From Stdlib Require Import List String Ascii Bool Permutation Sorted.
From stdpp Require Import gmap strings.
Import ListNotations.

Local Open Scope Z_scope.

(** ** Python primitives *)

Module Py.

(** Exceptions that the modelled code can meet. *)
Inductive exn : Type :=
| AttributeError
| IndexError
| KeyError
| TypeError
| ValidationError
| ExternalError.

Inductive result (A : Type) : Type :=
| Ok (a : A)
| Raise (e : exn).

Arguments Ok {A} a.
Arguments Raise {A} e.

Definition bind {A B : Type} (m : result A) (k : A -> result B) : result B :=
  match m with
  | Ok a => k a
  | Raise e => Raise e
  end.

(** [try: body  except Exception: return handler]. *)
Definition try_except {A : Type} (body : result A) (handler : A) : A :=
  match body with
  | Ok a => a
  | Raise _ => handler
  end.

Definition raises {A : Type} (m : result A) : bool :=
  match m with
  | Ok _ => false
  | Raise _ => true
  end.

(** A [str] as its sequence of code points. *)
Definition pystr : Type := list N.

Fixpoint utf8_decode (bs : list N) : pystr :=
  match bs with
  | [] => []
  | b0 :: t0 =>
      if (b0 <? 128)%N then b0 :: utf8_decode t0
      else
        match t0 with
        | [] => []
        | b1 :: t1 =>
            if (b0 <? 224)%N
            then ((b0 - 192) * 64 + (b1 - 128))%N :: utf8_decode t1
            else
              match t1 with
              | [] => []
              | b2 :: t2 =>
                  if (b0 <? 240)%N
                  then ((b0 - 224) * 4096 + (b1 - 128) * 64 + (b2 - 128))%N
                         :: utf8_decode t2
                  else
                    match t2 with
                    | [] => []
                    | b3 :: t3 =>
                        ((b0 - 240) * 262144 + (b1 - 128) * 4096
                         + (b2 - 128) * 64 + (b3 - 128))%N :: utf8_decode t3
                    end
              end
        end
  end.

(** The code points of a UTF-8 literal. *)
Definition u (s : string) : pystr :=
  utf8_decode (List.map N_of_ascii (list_ascii_of_string s)).

(** Dynamically typed values, as far as the modelled code meets them. *)
Inductive pyobj : Type :=
| PNone
| PStr (s : pystr)
| PInt (z : Z)
| PFloat (q : Q).

Abbreviation pydict := (gmap string pyobj).

(** [d.get(key, default)]. *)
Definition dict_get (d : pydict) (key : string) (default : pyobj) : pyobj :=
  match d !! key with
  | Some v => v
  | None => default
  end.

(** [d[key]], raising [KeyError] on a missing key. *)
Definition getitem {V : Type} (d : gmap string V) (key : string) : result V :=
  match d !! key with
  | Some v => Ok v
  | None => Raise KeyError
  end.

(** [l[0]], raising [IndexError] on the empty list. *)
Definition index0 {A : Type} (l : list A) : result A :=
  match l with
  | [] => Raise IndexError
  | x :: _ => Ok x
  end.

(** Truth value of an object: [None], [""], [0] and [0.0] are false. *)
Definition truthy (o : pyobj) : bool :=
  match o with
  | PNone => false
  | PStr s => match s with [] => false | _ => true end
  | PInt z => negb (z =? 0)
  | PFloat q => negb (Qeq_bool q 0)
  end.

Definition Qltb (x y : Q) : bool := negb (Qle_bool y x).

(** [max(a, b)] and [min(a, b)]: the first argument is kept unless the
    second is strictly better. *)
Definition max2 (a b : Q) : Q := if Qltb a b then b else a.
Definition min2 (a b : Q) : Q := if Qltb b a then b else a.

(** [max(iterable)] over a non-empty sequence given as head and tail. *)
Definition max_of (first : Q) (rest : list Q) : Q :=
  fold_left max2 rest first.

(** [sum(iterable)] of integers, starting from 0 and adding left to
    right. *)
Definition sum_Z (l : list Z) : Z := fold_left Z.add l 0.

Definition len {A : Type} (l : list A) : Z := Z.of_nat (List.length l).

(** [l[:n]]: a negative bound counts from the end. *)
Definition slice_to {A : Type} (l : list A) (n : Z) : list A :=
  if 0 <=? n then firstn (Z.to_nat n) l
  else firstn (Z.to_nat (len l + n)) l.

(** [zip(a, b, c)] stops at the shortest argument. *)
Definition zip3 {A B C : Type} (a : list A) (b : list B) (c : list C)
  : list (A * B * C) :=
  combine (combine a b) c.

(** [l.sort(key=key, reverse=True)]: a stable sort, largest key first;
    elements with equal keys keep their relative order. *)
Fixpoint insert_desc {A : Type} (key : A -> Q) (x : A) (l : list A) : list A :=
  match l with
  | [] => [x]
  | y :: l' =>
      if Qltb (key x) (key y) then y :: insert_desc key x l'
      else x :: y :: l'
  end.

Fixpoint sort_reverse {A : Type} (key : A -> Q) (l : list A) : list A :=
  match l with
  | [] => []
  | x :: l' => insert_desc key x (sort_reverse key l')
  end.

(** [a == b] on strings. *)
Fixpoint str_eqb (a b : pystr) : bool :=
  match a, b with
  | [], [] => true
  | x :: a', y :: b' => (x =? y)%N && str_eqb a' b'
  | _, _ => false
  end.

(** [s.startswith(p)] and [p in s]. *)
Fixpoint startswith (p s : pystr) : bool :=
  match p, s with
  | [], _ => true
  | _ :: _, [] => false
  | a :: p', b :: s' => (a =? b)%N && startswith p' s'
  end.

Fixpoint contains (p s : pystr) : bool :=
  startswith p s ||
  match s with
  | [] => false
  | _ :: s' => contains p s'
  end.

(** [s.split(sep, 1)[1]] when [sep in s]: the text after the first [sep]. *)
Fixpoint after_first (sep s : pystr) : option pystr :=
  if startswith sep s then Some (skipn (List.length sep) s)
  else
    match s with
    | [] => None
    | _ :: s' => after_first sep s'
    end.

(** Code points that [str.isspace] accepts (CPython's
    [_PyUnicode_IsWhitespace]). *)
Definition isspace (c : N) : bool :=
  ((9 <=? c) && (c <=? 13) || (28 <=? c) && (c <=? 32)
   || (c =? 133) || (c =? 160) || (c =? 5760)
   || (8192 <=? c) && (c <=? 8202)
   || (c =? 8232) || (c =? 8233) || (c =? 8239) || (c =? 8287)
   || (c =? 12288))%N.

Fixpoint lstrip (s : pystr) : pystr :=
  match s with
  | [] => []
  | c :: s' => if isspace c then lstrip s' else s
  end.

Definition rstrip (s : pystr) : pystr := rev (lstrip (rev s)).

(** [s.strip()]. *)
Definition strip (s : pystr) : pystr := rstrip (lstrip s).

(** [str.lower] restricted to Basic Latin; every other code point is
    left as it is.  It agrees with [str.lower] on text whose cased
    characters are all ASCII, and serves as the instance of the [lower]
    parameter in closed examples. *)
Definition ascii_lower (s : pystr) : pystr :=
  List.map (fun c => if ((65 <=? c) && (c <=? 90))%N then (c + 32)%N else c) s.

(** [sep.join(parts)]. *)
Fixpoint join (sep : pystr) (parts : list pystr) : pystr :=
  match parts with
  | [] => []
  | [p] => p
  | p :: rest => p ++ sep ++ join sep rest
  end.

(** Effects on the external services are recorded as a trace of calls. *)
Definition embedding : Type := list Q.

Inductive event : Type :=
| Encode (texts : list pystr)
| Query (query_embeddings : list embedding) (n_results : Z) (where_type :
    string).

(** A computation that calls services and may raise. *)
Definition eff (A : Type) : Type := (list event * result A)%type.

Definition eret {A : Type} (a : A) : eff A := ([], Ok a).

Definition lift {A : Type} (r : result A) : eff A := ([], r).

Definition ebind {A B : Type} (m : eff A) (k : A -> eff B) : eff B :=
  match snd m with
  | Ok a => (fst m ++ fst (k a), snd (k a))
  | Raise e => (fst m, Raise e)
  end.

(** [try ... except Exception] around an effectful body: calls already
    made stay in the trace. *)
Definition etry {A : Type} (body : eff A) (handler : A) : list event * A :=
  (fst body, try_except (snd body) handler).

End Py.

Declare Scope py_scope.
Delimit Scope py_scope with py.
Notation "x <- m ;; k" := (Py.bind m (fun x => k))
  (at level 100, m at next level, right associativity) : py_scope.
Notation "x <~ m ;; k" := (Py.ebind m (fun x => k))
  (at level 100, m at next level, right associativity) : py_scope.


(** ** Double-precision arithmetic *)

Module F64.

(** The [e] with [2^e <= x < 2^(e+1)], for a positive [x]. *)
Definition binade (x : Q) : Z :=
  let l := Z.log2 (Qnum x) - Z.log2 (Zpos (Qden x)) in
  if Qle_bool (2 ^ l) x then l else l - 1.

(** The integer nearest to [x], the even one of the two when [x] lies
    half-way. *)
Definition nearest_even (x : Q) : Z :=
  let f := Qfloor x in
  let r := (x - inject_Z f)%Q in
  if Qle_bool (1 # 2) r
  then if Qle_bool r (1 # 2) then (if Z.even f then f else f + 1) else f + 1
  else f.

(** The exponent of the last place of the doubles around a positive [x]:
    53 significant bits, and never below [2^-1074]. *)
Definition ulp_exponent (x : Q) : Z := Z.max (binade x) (-1022) - 52.

(** [x] rounded to a multiple of [2^q]. *)
Definition round_at (q : Z) (x : Q) : Q :=
  (inject_Z (nearest_even (x * 2 ^ (- q))) * 2 ^ q)%Q.

Definition round_positive (x : Q) : Q :=
  Qred (round_at (ulp_exponent x) x).

(** The double nearest to [x], ties to even.  Overflow is not modelled:
    the modelled code stays far below [2^1024]. *)
Definition round (x : Q) : Q :=
  match Qnum x with
  | Z0 => 0%Q
  | Zpos _ => round_positive x
  | Zneg _ => (- round_positive (- x))%Q
  end.

(** Arithmetic without rounding. *)
Definition exact (x : Q) : Q := x.

Section Operations.

(** how an exact result becomes a double *)
Variable rnd : Q -> Q.

Definition add (x y : Q) : Q := rnd (x + y).
Definition sub (x y : Q) : Q := rnd (x - y).
Definition mul (x y : Q) : Q := rnd (x * y).
Definition div (x y : Q) : Q := rnd (x / y).

(** [sum(iterable)] of floats, starting from 0 and adding left to
    right. *)
Definition sum (l : list Q) : Q := fold_left add l 0%Q.

End Operations.

(** What the properties below use of a rounding: it keeps the order, and
    it keeps 0 and 1, which are doubles. *)
Record faithful (rnd : Q -> Q) : Prop := mkFaithful {
  monotone : forall x y : Q, (x <= y)%Q -> (rnd x <= rnd y)%Q;
  keeps_0 : (rnd 0 == 0)%Q;
  keeps_1 : (rnd 1 == 1)%Q
}.

(** The numbers of results up to [n] are doubles. *)
Definition keeps_counts (rnd : Q -> Q) (n : nat) : Prop :=
  forall k : nat,
    (k <= n)%nat ->
    (rnd (inject_Z (Z.of_nat k)) == inject_Z (Z.of_nat k))%Q.

End F64.


(** ** src/models.py and src/configs.py *)

Module Models.
Import Py.

Record SearchResult : Type := mkSearchResult {
  content : pystr;
  source : pystr;
  score : Q;
  metadata : option pydict
}.

(** [metadata['original_distance']], which both adapters record. *)
Definition original_distance (r : SearchResult) : option Q :=
  match metadata r with
  | Some m =>
      match m !! "original_distance" with
      | Some (PFloat d) => Some d
      | _ => None
      end
  | None => None
  end.

(** The constructor validates [score] against [ge=0.0, le=1.0]. *)
Definition SearchResult_new (content source : pystr) (score : Q)
    (metadata : option pydict) : result SearchResult :=
  if Qle_bool 0 score && Qle_bool score 1
  then Ok (mkSearchResult content source score metadata)
  else Raise ValidationError.

Record QuestionRequest : Type := mkQuestionRequest {
  question : pystr;
  context : option pydict
}.

Record AnswerResponse : Type := mkAnswerResponse {
  answer : pystr;
  confidence : Q;
  sources : list SearchResult;
  processing_time : option Q
}.

(** The constructor validates [confidence] against [ge=0.0, le=1.0]. *)
Definition AnswerResponse_new (answer : pystr) (confidence : Q)
    (sources : list SearchResult) (processing_time : option Q)
  : result AnswerResponse :=
  if Qle_bool 0 confidence && Qle_bool confidence 1
  then Ok (mkAnswerResponse answer confidence sources processing_time)
  else Raise ValidationError.

Record Config : Type := mkConfig {
  OPENAI_MODEL : pystr;
  MAX_SEARCH_RESULTS : Z;
  SIMILARITY_THRESHOLD : Q
}.

(** The values taken when the environment sets nothing; the threshold
    is the double that [float("0.7")] gives. *)
Definition default_config (rnd : Q -> Q) : Config :=
  {| OPENAI_MODEL := u "gpt-3.5-turbo";
     MAX_SEARCH_RESULTS := 5;
     SIMILARITY_THRESHOLD := rnd 0.7%Q |}.

(** What [collection.query] returns: one inner list per query vector. *)
Record QueryResult : Type := mkQueryResult {
  documents : list (list pystr);
  metadatas : list (list pydict);
  distances : list (list Q)
}.

(** [max_results or config.MAX_SEARCH_RESULTS] and
    [min_score or config.SIMILARITY_THRESHOLD]: [None] and zero both
    give way to the configured value. *)
Definition or_int (x : option Z) (default : Z) : Z :=
  match x with
  | Some z => if z =? 0 then default else z
  | None => default
  end.

Definition or_float (x : option Q) (default : Q) : Q :=
  match x with
  | Some q => if Qeq_bool q 0 then default else q
  | None => default
  end.

(** The constructor validates [question] against [min_length=1]. *)
Definition QuestionRequest_new (question : pystr) (context : option pydict)
  : result QuestionRequest :=
  match question with
  | [] => Raise ValidationError
  | _ :: _ => Ok (mkQuestionRequest question context)
  end.

Record ConfigUpdate : Type := mkConfigUpdate {
  max_search_results : option Z;
  similarity_threshold : option Q;
  openai_model : option pystr
}.

(** The constructor validates [max_search_results] against [ge=1, le=20]
    and [similarity_threshold] against [ge=0.0, le=1.0]. *)
Definition ConfigUpdate_new (max_search_results : option Z)
    (similarity_threshold : option Q) (openai_model : option pystr)
  : result ConfigUpdate :=
  let max_ok :=
    match max_search_results with
    | Some n => (1 <=? n) && (n <=? 20)
    | None => true
    end in
  let threshold_ok :=
    match similarity_threshold with
    | Some t => Qle_bool 0 t && Qle_bool t 1
    | None => true
    end in
  if max_ok && threshold_ok
  then Ok (mkConfigUpdate max_search_results similarity_threshold openai_model)
  else Raise ValidationError.

(** [SystemStatus], without its time stamp. *)
Record SystemStatus : Type := mkSystemStatus {
  status : string;
  version : string;
  uptime : Q;
  database_status : string
}.

End Models.

(** ** tool/search_xyz_qa.py *)

Module FAQSearchEngine.
Import Py Models.
Local Open Scope py_scope.

Section Engine.

(** the rounding of float arithmetic *)
Variable rnd : Q -> Q.
Variable config : Config.
(** [embedding_model.encode(texts).tolist()] *)
Variable encode : list pystr -> result (list embedding).
(** [collection.query(query_embeddings, n_results, where={"type": t})] *)
Variable collection_query : list embedding -> Z -> string -> result QueryResult.
(** how an f-string renders a value *)
Variable format_value : pyobj -> pystr.

Definition _format_faq_content (metadata : pydict) : pystr :=
  let question := dict_get metadata "question" (PStr []) in
  let answer := dict_get metadata "answer" (PStr []) in
  u "質問: " ++ format_value question ++ [10%N]
    ++ u "回答: " ++ format_value answer.

(** The result built inside the loop of [_process_search_results] for a
    row that passes the threshold. *)
Definition make_result (doc : pystr) (metadata : pydict)
    (distance similarity_score : Q) : result SearchResult :=
  let content := _format_faq_content metadata in
  SearchResult_new content
    (u "FAQ: " ++ format_value
       (dict_get metadata "question" (PStr (u "Unknown"))))
    similarity_score
    (Some (<["type" := PStr (u "faq")]>
          (<["question" := dict_get metadata "question" (PStr [])]>
          (<["answer" := dict_get metadata "answer" (PStr [])]>
          (<["original_distance" := PFloat distance]> ∅))))).

(** The loop of [_process_search_results] over the zipped rows. *)
Fixpoint collect (min_score : Q) (rows : list (pystr * pydict * Q))
  : result (list SearchResult) :=
  match rows with
  | [] => Ok []
  | (doc, metadata, distance) :: rest =>
      let similarity_score := max2 0 (F64.sub rnd 1 distance) in
      if Qle_bool min_score similarity_score then
        search_result <- make_result doc metadata distance similarity_score ;;
        search_results <- collect min_score rest ;;
        Ok (search_result :: search_results)
      else collect min_score rest
  end.

Definition _process_search_results (raw_results : QueryResult) (min_score : Q)
  : result (list SearchResult) :=
  match documents raw_results with
  | [] => Ok []
  | [] :: _ => Ok []
  | documents :: _ =>
      metadatas <- index0 (metadatas raw_results) ;;
      distances <- index0 (distances raw_results) ;;
      search_results <- collect min_score (zip3 documents metadatas distances)
          ;;
      Ok (sort_reverse score search_results)
  end.

(** The body of the [try] of [search_faq]; [query.strip()] raises on a
    query that is not a string. *)
Definition search_faq_body (query : pyobj) (max_results : option Z)
    (min_score : option Q) : eff (list SearchResult) :=
  match query with
  | PStr q =>
      match strip q with
      | [] => eret []
      | _ :: _ =>
          let max_results := or_int max_results (MAX_SEARCH_RESULTS config) in
          let min_score := or_float min_score (SIMILARITY_THRESHOLD config) in
          vectors <~ ([Encode [q]], encode [q]) ;;
          query_embedding <~ lift (index0 vectors) ;;
          results <~ ([Query [query_embedding] max_results "faq"],
                      collection_query [query_embedding] max_results "faq") ;;
          search_results <~ lift (_process_search_results results min_score) ;;
          eret search_results
      end
  | _ => lift (Raise AttributeError)
  end.

Definition search_faq (query : pyobj) (max_results : option Z)
    (min_score : option Q) : list event * list SearchResult :=
  etry (search_faq_body query max_results min_score) [].

(** [collection.count()] *)
Variable collection_count : result Z.

Definition search_by_keywords (keywords : list pystr) (max_results : option Z)
  : list event * list SearchResult :=
  let query := join (u " ") keywords in
  search_faq (PStr query) max_results None.

Definition get_random_faqs (count : Z) : list event * list SearchResult :=
  etry
    (vectors <~ ([Encode [u "サンプル"]], encode [u "サンプル"]) ;;
     query_embedding <~ lift (index0 vectors) ;;
     results <~ ([Query [query_embedding] count "faq"],
                 collection_query [query_embedding] count "faq") ;;
     lift (_process_search_results results 0.0))
    [].

Definition health_check : list event * bool :=
  etry
    (count <~ lift collection_count ;;
     if count =? 0 then eret false
     else
       let test_results := search_faq (PStr (u "テスト")) (Some 1) None in
       (fst test_results, Ok true))
    false.

End Engine.

End FAQSearchEngine.

(** ** tool/search_xyz_manual.py *)

Module ManualSearchEngine.
Import Py Models.
Local Open Scope py_scope.

Section Engine.

Variable rnd : Q -> Q.
Variable config : Config.
Variable encode : list pystr -> result (list embedding).
Variable collection_query : list embedding -> Z -> string -> result QueryResult.
Variable format_value : pyobj -> pystr.
(** [Path(file_path).name] *)
Variable path_name : pyobj -> result pystr.

Definition _format_manual_content (metadata : pydict) (document : pystr)
  : pystr :=
  let title := dict_get metadata "title" (PStr (u "不明")) in
  let page := dict_get metadata "page" (PStr []) in
  let page_info :=
    if truthy page then u " (ページ " ++ format_value page ++ u ")" else [] in
  let content :=
    if contains (u "内容: ") document
    then match after_first (u "内容: ") document with
         | Some rest => rest
         | None => document
         end
    else document in
  format_value title ++ page_info ++ [10%N] ++ content.

Definition _format_source_info (metadata : pydict) : result pystr :=
  let file_path := dict_get metadata "file_path" (PStr []) in
  let title := dict_get metadata "title" (PStr []) in
  let page := dict_get metadata "page" (PStr []) in
  source <-
    (if truthy file_path
     then file_name <- path_name file_path ;; Ok (u "マニュアル: " ++ file_name)
     else Ok (u "マニュアル")) ;;
  let source :=
    if truthy title then source ++ u " - " ++ format_value title else source in
  let source :=
    if truthy page then source ++ u " (ページ " ++ format_value page ++ u ")"
    else source in
  Ok source.

(** The result built inside the loop of [_process_search_results] for a
    row that passes the threshold. *)
Definition make_result (doc : pystr) (metadata : pydict)
    (distance similarity_score : Q) : result SearchResult :=
  let content := _format_manual_content metadata doc in
  source <- _format_source_info metadata ;;
  SearchResult_new content source similarity_score
    (Some (<["type" := PStr (u "manual")]>
          (<["title" := dict_get metadata "title" (PStr [])]>
          (<["page" := dict_get metadata "page" (PInt 0)]>
          (<["file_path" := dict_get metadata "file_path" (PStr [])]>
          (<["original_distance" := PFloat distance]> ∅)))))).

(** The loop of [_process_search_results] over the zipped rows. *)
Fixpoint collect (min_score : Q) (rows : list (pystr * pydict * Q))
  : result (list SearchResult) :=
  match rows with
  | [] => Ok []
  | (doc, metadata, distance) :: rest =>
      let similarity_score := max2 0 (F64.sub rnd 1 distance) in
      if Qle_bool min_score similarity_score then
        search_result <- make_result doc metadata distance similarity_score ;;
        search_results <- collect min_score rest ;;
        Ok (search_result :: search_results)
      else collect min_score rest
  end.

Definition _process_search_results (raw_results : QueryResult) (min_score : Q)
  : result (list SearchResult) :=
  match documents raw_results with
  | [] => Ok []
  | [] :: _ => Ok []
  | documents :: _ =>
      metadatas <- index0 (metadatas raw_results) ;;
      distances <- index0 (distances raw_results) ;;
      search_results <- collect min_score (zip3 documents metadatas distances)
          ;;
      Ok (sort_reverse score search_results)
  end.

(** The body of the [try] of [search_manual]; [query.strip()] raises on a
    query that is not a string. *)
Definition search_manual_body (query : pyobj) (max_results : option Z)
    (min_score : option Q) : eff (list SearchResult) :=
  match query with
  | PStr q =>
      match strip q with
      | [] => eret []
      | _ :: _ =>
          let max_results := or_int max_results (MAX_SEARCH_RESULTS config) in
          let min_score := or_float min_score (SIMILARITY_THRESHOLD config) in
          vectors <~ ([Encode [q]], encode [q]) ;;
          query_embedding <~ lift (index0 vectors) ;;
          results <~ ([Query [query_embedding] max_results "manual"],
                      collection_query [query_embedding] max_results "manual")
                          ;;
          search_results <~ lift (_process_search_results results min_score) ;;
          eret search_results
      end
  | _ => lift (Raise AttributeError)
  end.

Definition search_manual (query : pyobj) (max_results : option Z)
    (min_score : option Q) : list event * list SearchResult :=
  etry (search_manual_body query max_results min_score) [].

Definition _count_manual_documents : list event * Z :=
  etry
    (vectors <~ ([Encode [u "dummy"]], encode [u "dummy"]) ;;
     query_embedding <~ lift (index0 vectors) ;;
     results <~ ([Query [query_embedding] 1000 "manual"],
                 collection_query [query_embedding] 1000 "manual") ;;
     eret match metadatas results with
          | [] => 0
          | [] :: _ => 0
          | first :: _ => len first
          end)
    0.

Definition search_by_section (section_title : pyobj) (max_results : option Z)
  : list event * list SearchResult :=
  search_manual section_title max_results None.

(** [start_page <= page <= end_page] for a page taken from the metadata:
    a number is compared, anything else cannot be ordered with an [int]. *)
Definition page_in_range (start_page end_page : Z) (page : pyobj)
  : result bool :=
  match page with
  | PInt p => Ok ((start_page <=? p) && (p <=? end_page))
  | PFloat p =>
      Ok (Qle_bool (inject_Z start_page) p && Qle_bool p (inject_Z end_page))
  | _ => Raise TypeError
  end.

(** The loop of [search_by_page_range]; [filtered] is the list built so
    far and [limit] is [max_results or config.MAX_SEARCH_RESULTS]. *)
Fixpoint filter_pages (start_page end_page limit : Z)
    (all_results filtered : list SearchResult) : result (list SearchResult) :=
  match all_results with
  | [] => Ok filtered
  | r :: rest =>
      m <- match metadata r with
           | Some m => Ok m
           | None => Raise AttributeError
           end ;;
      inside <- page_in_range start_page end_page (dict_get m "page" (PInt 0))
          ;;
      if inside then
        let filtered := filtered ++ [r] in
        if len filtered >=? limit then Ok filtered
        else filter_pages start_page end_page limit rest filtered
      else filter_pages start_page end_page limit rest filtered
  end.

Definition search_by_page_range (query : pyobj) (start_page end_page : Z)
    (max_results : option Z) : list event * list SearchResult :=
  match max_results with
  | None => ([], [])
  | Some n =>
      let all_results := search_manual query (Some (n * 2)) None in
      (fst all_results,
       try_except
         (filter_pages start_page end_page
            (or_int max_results (MAX_SEARCH_RESULTS config))
            (snd all_results) [])
         [])
  end.

Definition health_check : list event * bool :=
  let manual_count := _count_manual_documents in
  if snd manual_count =? 0 then (fst manual_count, false)
  else
    let test_results := search_manual (PStr (u "テスト")) (Some 1) None in
    (fst manual_count ++ fst test_results, true).

End Engine.

End ManualSearchEngine.

(** ** tool/__init__.py *)

Module UnifiedSearchEngine.
Import Py Models.
Local Open Scope py_scope.

(** The keyword tables of [_determine_search_strategy]. *)
Definition faq_keywords : list pystr :=
  [u "ログイン"; u "申請"; u "パスワード"; u "できない"; u "エラー";
   u "アカウント"; u "ユーザー"; u "サインイン"; u "トラブル"; u "問題"].

Definition manual_keywords : list pystr :=
  [u "手順"; u "方法"; u "設定"; u "操作"; u "画面"; u "ボタン";
   u "メニュー"; u "機能"; u "使い方"; u "システム"].

Section Engine.

(** [str.lower] *)
Variable lower : pystr -> pystr.
(** [self.faq_engine.search_faq] and [self.manual_engine.search_manual],
    each free to raise *)
Variable search_faq : pyobj -> option Z -> option Q -> result (list
    SearchResult).
Variable search_manual : pyobj -> option Z -> option Q -> result (list
    SearchResult).

(** [{'faq': [], 'manual': []}] *)
Definition empty_results : gmap string (list SearchResult) :=
  <["manual" := []]> (<["faq" := []]> ∅).

(** The body of the outer [try] of [search_all]. *)
Definition search_all_body (query : pyobj) (max_results_per_source : Z)
    (min_score : option Q) : result (gmap string (list SearchResult)) :=
  let results := empty_results in
  let results :=
    match search_faq query (Some max_results_per_source) min_score with
    | Ok faq_results => <["faq" := faq_results]> results
    | Raise _ => results
    end in
  let results :=
    match search_manual query (Some max_results_per_source) min_score with
    | Ok manual_results => <["manual" := manual_results]> results
    | Raise _ => results
    end in
  faq <- getitem results "faq" ;;
  manual <- getitem results "manual" ;;
  let total_results := len faq + len manual in
  Ok results.

Definition search_all (query : pyobj) (max_results_per_source : Z)
    (min_score : option Q) : gmap string (list SearchResult) :=
  try_except (search_all_body query max_results_per_source min_score)
    empty_results.

Definition search_ranked_body (query : pyobj) (max_total_results : Z)
    (min_score : option Q) : result (list SearchResult) :=
  let search_results := search_all query max_total_results min_score in
  faq <- getitem search_results "faq" ;;
  manual <- getitem search_results "manual" ;;
  let all_results := ([] ++ faq) ++ manual in
  let all_results := sort_reverse score all_results in
  let ranked_results := slice_to all_results max_total_results in
  Ok ranked_results.

Definition search_ranked (query : pyobj) (max_total_results : Z)
    (min_score : option Q) : list SearchResult :=
  try_except (search_ranked_body query max_total_results min_score) [].

Definition _determine_search_strategy (query : pyobj) (context : pydict)
  : result string :=
  match query with
  | PStr q =>
      let query_lower := lower q in
      let faq_score :=
        sum_Z (List.map (fun _ => 1)
                 (List.filter (fun keyword => contains keyword query_lower)
                    faq_keywords)) in
      let manual_score :=
        sum_Z (List.map (fun _ => 1)
                 (List.filter (fun keyword => contains keyword query_lower)
                    manual_keywords)) in
      if faq_score >? manual_score then Ok "faq_focus"%string
      else if manual_score >? faq_score then Ok "manual_focus"%string
      else Ok "balanced"%string
  | _ => Raise AttributeError
  end.

Definition smart_search_body (query : pyobj) (context : option pydict)
  : result (list SearchResult * string) :=
  let context := match context with Some c => c | None => ∅ end in
  search_strategy <- _determine_search_strategy query context ;;
  if String.eqb search_strategy "faq_focus" then
    let results := search_all query 4 None in
    faq <- getitem results "faq" ;;
    manual <- getitem results "manual" ;;
    Ok (slice_to faq 3 ++ slice_to manual 2, search_strategy)
  else if String.eqb search_strategy "manual_focus" then
    let results := search_all query 4 None in
    manual <- getitem results "manual" ;;
    faq <- getitem results "faq" ;;
    Ok (slice_to manual 3 ++ slice_to faq 2, search_strategy)
  else
    Ok (search_ranked query 5 None, search_strategy).

Definition smart_search (query : pyobj) (context : option pydict)
  : list SearchResult * string :=
  try_except (smart_search_body query context) ([], "error"%string).

End Engine.

(** [health_check], given what each engine's own [health_check] does:
    [None] when the engine is not set, otherwise its answer or the fact
    that it raised.  The dictionary is updated in place, so the handler
    returns it as far as it got. *)
Definition health_check (faq_engine manual_engine : option (result bool))
  : gmap string bool :=
  let health_status : gmap string bool :=
    <["overall" := false]>
    (<["manual_engine" := false]> (<["faq_engine" := false]> ∅)) in
  match faq_engine with
  | Some (Raise _) => health_status
  | _ =>
      let health_status :=
        match faq_engine with
        | Some (Ok healthy) => <["faq_engine" := healthy]> health_status
        | _ => health_status
        end in
      match manual_engine with
      | Some (Raise _) => health_status
      | _ =>
          let health_status :=
            match manual_engine with
            | Some (Ok healthy) => <["manual_engine" := healthy]> health_status
            | _ => health_status
            end in
          match health_status !! "faq_engine",
                health_status !! "manual_engine" with
          | Some faq_ok, Some manual_ok =>
              <["overall" := faq_ok || manual_ok]> health_status
          | _, _ => health_status
          end
      end
  end.

End UnifiedSearchEngine.

(** ** src/prompts.py *)

Module Prompts.
Import Py.

Definition SYSTEM_ROLE : pystr := u "
あなたは会社内のサポートボットです。
以下の指針に従ってください：

基本姿勢：
- 会社内の従業員を助ける親切なアシスタント
- 正確で分かりやすい回答を心がける
- 分からないことは分からないと正直に答える

回答スタイル：
- 丁寧で親しみやすい口調
- 簡潔で要点を整理した内容
- 必要に応じて手順を番号付きで説明

注意点：
- 推測による回答は避ける
- 検索結果にない情報は「検索結果にありません」と伝える
- 機密情報に関わる質問には回答を控える
".

(** [NO_RESULTS_TEMPLATE] on either side of its [{question}] field. *)
Definition NO_RESULTS_TEMPLATE_before : pystr := u "
申し訳ございませんが、「".

Definition NO_RESULTS_TEMPLATE_after : pystr := u "」に関する情報をFAQやマニュアルから見つけることができませんでした。

以下の対応をお勧めします：

1. 質問の表現を変えて再度お試しください
2. より具体的なキーワードで検索してください
3. 直接担当者にお問い合わせください：
   - 人事関連：内線1234
   - ITサポート：内線5678
   - 総務関連：内線9012

引き続きお困りのことがございましたら、お気軽にお声がけください。
".

Definition generate_no_results_prompt (question : pystr) : pystr :=
  NO_RESULTS_TEMPLATE_before ++ question ++ NO_RESULTS_TEMPLATE_after.

End Prompts.

(** ** src/agent.py *)

Module SupportAgent.
Import Py Models.
Local Open Scope py_scope.

Section Confidence.

(** the rounding of float arithmetic *)
Variable rnd : Q -> Q.

(** The dictionary literal of [_calculate_confidence]. *)
Definition strategy_factors : gmap string Q :=
  <["faq_focus" := rnd 0.9]>
  (<["manual_focus" := rnd 0.8]>
  (<["balanced" := rnd 0.85]>
  (<["error" := rnd 0.3]> ∅))).

(** Lines 244-259 of [_calculate_confidence], once the maximum, the
    average and the number of results are known. *)
Definition adjust_confidence (max_score avg_score : Q) (n : Z)
    (search_strategy : string) : Q :=
  let result_count_factor := min2 (F64.div rnd (inject_Z n) 3.0) 1.0 in
  let strategy_factor :=
    match strategy_factors !! search_strategy with
    | Some f => f
    | None => rnd 0.7
    end in
  let confidence :=
    F64.mul rnd
      (F64.mul rnd
         (F64.add rnd (F64.mul rnd max_score (rnd 0.6))
            (F64.mul rnd avg_score (rnd 0.4)))
         result_count_factor)
      strategy_factor in
  max2 0.0 (min2 1.0 confidence).

Definition _calculate_confidence (search_results : list SearchResult)
    (search_strategy : string) : Q :=
  match search_results with
  | [] => 0.0%Q
  | first :: rest =>
      let max_score := max_of (score first) (List.map score rest) in
      let avg_score :=
        F64.div rnd (F64.sum rnd (List.map score search_results))
          (inject_Z (len search_results)) in
      adjust_confidence max_score avg_score (len search_results)
        search_strategy
  end.

End Confidence.

Section Agent.

Variable rnd : Q -> Q.
Variable config : Config.
(** [self.search_engine.smart_search] *)
Variable smart_search :
  pyobj -> pydict -> result (list SearchResult * string).
(** [openai_client.chat.completions.create(model, system, user,
    temperature, max_tokens)], returning the [message.content] of each
    choice *)
Variable chat_completions_create :
  pystr -> pystr -> pystr -> Q -> Z -> result (list (option pystr)).
(** the prompt builders of the branches that have results *)
Variable generate_faq_prompt : pystr -> list SearchResult -> pystr.
Variable generate_manual_prompt : pystr -> list SearchResult -> pystr.
Variable generate_multi_source_prompt :
  pystr -> list SearchResult -> list SearchResult -> pystr.
(** [time.time() - start_time] *)
Variable elapsed : Q.

Definition _search_knowledge_base (question : pystr) (context : pydict)
  : list SearchResult * string :=
  try_except (smart_search (PStr question) context) ([], "error"%string).

(** [response.choices[0].message.content.strip()] *)
Definition first_content (choices : list (option pystr)) : result pystr :=
  choice <- index0 choices ;;
  match choice with
  | Some text => Ok (strip text)
  | None => Raise AttributeError
  end.

(** [[r for r in search_results if r.metadata.get('type') == type]] *)
Fixpoint of_type (type : pystr) (search_results : list SearchResult)
  : result (list SearchResult) :=
  match search_results with
  | [] => Ok []
  | r :: rest =>
      match metadata r with
      | None => Raise AttributeError
      | Some m =>
          kept <- of_type type rest ;;
          match dict_get m "type" PNone with
          | PStr t => if str_eqb t type then Ok (r :: kept) else Ok kept
          | _ => Ok kept
          end
      end
  end.

Definition _generate_answer_with_sources (question : pystr)
    (search_results : list SearchResult) (search_strategy : string)
  : pystr * Q :=
  try_except
    (faq_results <- of_type (u "faq") search_results ;;
     manual_results <- of_type (u "manual") search_results ;;
     let prompt :=
       match faq_results, manual_results with
       | _ :: _, _ :: _ =>
           generate_multi_source_prompt question faq_results manual_results
       | _ :: _, [] => generate_faq_prompt question faq_results
       | [], _ :: _ => generate_manual_prompt question manual_results
       | [], [] => Prompts.generate_no_results_prompt question
       end in
     choices <- chat_completions_create (OPENAI_MODEL config)
                  Prompts.SYSTEM_ROLE prompt 0.3 800 ;;
     answer <- first_content choices ;;
     let confidence :=
       _calculate_confidence rnd search_results search_strategy in
     Ok (answer, confidence))
    (u "回答の生成中にエラーが発生しました。", 0.0%Q).

Definition _generate_no_results_answer (question : pystr) : pystr * Q :=
  try_except
    (let prompt := Prompts.generate_no_results_prompt question in
     choices <- chat_completions_create (OPENAI_MODEL config)
                  Prompts.SYSTEM_ROLE prompt 0.3 400 ;;
     answer <- first_content choices ;;
     Ok (answer, 0.1%Q))
    (Prompts.generate_no_results_prompt question, 0.0%Q).

Definition process_question (question_request : QuestionRequest)
  : AnswerResponse :=
  try_except
    (let question := question question_request in
     let context :=
       match context question_request with Some c => c | None => ∅ end in
     let '(search_results, search_strategy) :=
       _search_knowledge_base question context in
     let '(answer, confidence, search_results) :=
       match search_results with
       | _ :: _ =>
           (_generate_answer_with_sources question search_results
              search_strategy, search_results)
       | [] => (_generate_no_results_answer question, [])
       end in
     AnswerResponse_new answer confidence search_results (Some elapsed))
    (mkAnswerResponse
       (u "申し訳ございませんが、システムエラーが発生しました。しばらく待ってから再度お試しください。")
       0.0%Q [] (Some elapsed)).

End Agent.

Section Batch.

Variable rnd : Q -> Q.
Variable config : Config.
Variable smart_search :
  pyobj -> pydict -> result (list SearchResult * string).
Variable chat_completions_create :
  pystr -> pystr -> pystr -> Q -> Z -> result (list (option pystr)).
Variable generate_faq_prompt : pystr -> list SearchResult -> pystr.
Variable generate_manual_prompt : pystr -> list SearchResult -> pystr.
Variable generate_multi_source_prompt :
  pystr -> list SearchResult -> list SearchResult -> pystr.
(** the elapsed time measured for the i-th question of a batch *)
Variable elapsed_at : nat -> Q.

(** The loop of [process_batch_questions], from the i-th question on. *)
Fixpoint batch_from (i : nat) (questions : list pystr)
  : result (list AnswerResponse) :=
  match questions with
  | [] => Ok []
  | question :: rest =>
      request <- QuestionRequest_new question None ;;
      let response :=
        process_question rnd config smart_search chat_completions_create
          generate_faq_prompt generate_manual_prompt
          generate_multi_source_prompt (elapsed_at i) request in
      responses <- batch_from (S i) rest ;;
      Ok (response :: responses)
  end.

Definition process_batch_questions (questions : list pystr)
  : list AnswerResponse :=
  try_except (batch_from 0 questions) [].

End Batch.

(** The values of the dictionary that [get_system_status] returns. *)
Inductive status_value : Type :=
| SText (s : string)
| SFlag (b : bool)
| SEngine (d : gmap string bool).

Section Status.

(** [openai_client.models.list()] and [search_engine.health_check()],
    each free to raise, and [datetime.now().isoformat()] *)
Variable models_list : result unit.
Variable engine_health_check : result (gmap string bool).
Variable now : string.

Definition get_system_status : gmap string status_value :=
  let status : gmap string status_value :=
    <["agent_status" := SText "healthy"]>
    (<["timestamp" := SText now]>
    (<["openai_connection" := SFlag false]>
    (<["search_engine_status" := SEngine ∅]>
    (<["version" := SText "1.0.0"]> ∅)))) in
  let status :=
    match models_list with
    | Ok _ => <["openai_connection" := SFlag true]> status
    | Raise _ =>
        <["agent_status" := SText "degraded"]>
        (<["openai_connection" := SFlag false]> status)
    end in
  match engine_health_check with
  | Ok engine_status =>
      let status := <["search_engine_status" := SEngine engine_status]> status
          in
      match getitem engine_status "overall" with
      | Ok overall =>
          if negb overall then <["agent_status" := SText "degraded"]> status
          else status
      | Raise _ =>
          <["agent_status" := SText "degraded"]>
          (<["search_engine_status" := SEngine {["overall" := false]}]> status)
      end
  | Raise _ =>
      <["agent_status" := SText "degraded"]>
      (<["search_engine_status" := SEngine {["overall" := false]}]> status)
  end.

End Status.

End SupportAgent.

(** ** src/api.py *)

Module Api.
Import Py Models.

(** What an endpoint does: it returns a body or raises [HTTPException]
    with a status code. *)
Inductive http (A : Type) : Type :=
| Respond (body : A)
| HTTPException (status_code : Z).

Arguments Respond {A} body.
Arguments HTTPException {A} status_code.

Section Endpoints.

(** [agent.process_question] and [agent.process_batch_questions], each
    free to raise *)
Variable process_question : QuestionRequest -> result AnswerResponse.
Variable process_batch_questions : list pystr -> result (list AnswerResponse).

Definition ask_question (request : QuestionRequest) : http AnswerResponse :=
  match strip (question request) with
  | [] => HTTPException 400
  | _ :: _ =>
      if len (question request) >? 1000 then HTTPException 400
      else
        Respond
          (try_except (process_question request)
             (mkAnswerResponse
                (u "申し訳ございませんが、システムエラーが発生しました。しばらく待ってから再度お試しください。")
                0.0%Q [] (Some 0.0%Q)))
  end.

Definition batch_ask_questions (questions : list pystr)
  : http (list AnswerResponse) :=
  match questions with
  | [] => HTTPException 400
  | _ :: _ =>
      if len questions >? 10 then HTTPException 400
      else
        match process_batch_questions questions with
        | Ok responses => Respond responses
        | Raise _ => HTTPException 500
        end
  end.

End Endpoints.

(** The [/health] endpoint, given what [agent.get_system_status()]
    returned and the measured up-time.  A value of the wrong kind under
    a key makes the body raise, and the handler answers "error". *)
Definition health_check
    (agent_status : gmap string SupportAgent.status_value) (uptime : Q)
  : SystemStatus :=
  try_except
    (status <-
       match agent_status !! "agent_status" with
       | Some (SupportAgent.SText s) => Ok s
       | Some _ => Raise ValidationError
       | None => Ok "unknown"%string
       end ;;
     overall <-
       match agent_status !! "search_engine_status" with
       | Some (SupportAgent.SEngine d) =>
           Ok match d !! "overall" with
              | Some b => b
              | None => false
              end
       | Some _ => Raise AttributeError
       | None => Ok false
       end ;;
     Ok (mkSystemStatus status "1.0.0" uptime
           (if overall then "healthy" else "degraded")%string))%py
    (mkSystemStatus "error" "1.0.0" 0.0%Q "error").

(** [update_config]: every field that the update carries replaces the
    configured value. *)
Definition update_config (config : Config) (config_update : ConfigUpdate)
  : Config :=
  let config :=
    match max_search_results config_update with
    | Some n => mkConfig (OPENAI_MODEL config) n (SIMILARITY_THRESHOLD config)
    | None => config
    end in
  let config :=
    match similarity_threshold config_update with
    | Some t => mkConfig (OPENAI_MODEL config) (MAX_SEARCH_RESULTS config) t
    | None => config
    end in
  match openai_model config_update with
  | Some model =>
      mkConfig model (MAX_SEARCH_RESULTS config) (SIMILARITY_THRESHOLD config)
  | None => config
  end.

End Api.

(** ** The engines as the agent gets them

    [UnifiedSearchEngine._initialize] takes the two adapters as its
    engines and [SupportAgent._initialize] takes the unified engine as
    its search engine. *)

Module System.
Import Py Models.

Section Wiring.

Variable rnd : Q -> Q.
Variable config : Config.
Variable lower : pystr -> pystr.
Variable encode : list pystr -> result (list embedding).
Variable collection_query : list embedding -> Z -> string -> result QueryResult.
Variable format_value : pyobj -> pystr.
Variable path_name : pyobj -> result pystr.
Variable chat_completions_create :
  pystr -> pystr -> pystr -> Q -> Z -> result (list (option pystr)).
Variable generate_faq_prompt : pystr -> list SearchResult -> pystr.
Variable generate_manual_prompt : pystr -> list SearchResult -> pystr.
Variable generate_multi_source_prompt :
  pystr -> list SearchResult -> list SearchResult -> pystr.
Variable elapsed : Q.

Definition faq_engine (query : pyobj) (max_results : option Z)
    (min_score : option Q) : result (list SearchResult) :=
  Ok (snd (FAQSearchEngine.search_faq rnd config encode collection_query
             format_value query max_results min_score)).

Definition manual_engine (query : pyobj) (max_results : option Z)
    (min_score : option Q) : result (list SearchResult) :=
  Ok (snd (ManualSearchEngine.search_manual rnd config encode collection_query
             format_value path_name query max_results min_score)).

Definition search_engine (query : pyobj) (context : pydict)
  : result (list SearchResult * string) :=
  Ok (UnifiedSearchEngine.smart_search lower faq_engine manual_engine query
        (Some context)).

Definition process_question (question_request : QuestionRequest)
  : AnswerResponse :=
  SupportAgent.process_question rnd config search_engine
    chat_completions_create generate_faq_prompt generate_manual_prompt
    generate_multi_source_prompt elapsed question_request.

(** The health of the unified engine on the two adapters, whose own
    checks never raise. *)
Variable collection_count : result Z.

Definition engine_health : gmap string bool :=
  UnifiedSearchEngine.health_check
    (Some (Ok (snd (FAQSearchEngine.health_check rnd config encode
                      collection_query format_value collection_count))))
    (Some (Ok (snd (ManualSearchEngine.health_check rnd config encode
                      collection_query format_value path_name)))).

End Wiring.

End System.

(** ** The specification's own wording

    Definitions written from the prose of the specification, against
    which the code above is compared. *)

Module Spec.
Import Py.

Definition clamp (x lo hi : Q) : Q := Qmax lo (Qmin hi x).

Definition maximum (l : list Q) : Q :=
  match l with
  | [] => 0%Q
  | x :: l' => fold_right Qmax x l'
  end.

Definition mean (l : list Q) : Q :=
  (fold_right Qplus 0 l / inject_Z (Z.of_nat (List.length l)))%Q.

Definition strategy_factor (tag : string) : Q :=
  if String.eqb tag "faq_focus" then 0.9%Q
  else if String.eqb tag "manual_focus" then 0.8%Q
  else if String.eqb tag "balanced" then 0.85%Q
  else if String.eqb tag "error" then 0.3%Q
  else 0.7%Q.

Definition count_factor (n : nat) : Q :=
  Qmin (inject_Z (Z.of_nat n) / 3.0) 1.0.

Definition confidence (scores : list Q) (tag : string) : Q :=
  match scores with
  | [] => 0.0%Q
  | _ :: _ =>
      clamp ((0.6 * maximum scores + 0.4 * mean scores)
             * count_factor (List.length scores) * strategy_factor tag)
        0.0 1.0
  end.

(** The same formula as doubles evaluate it: every literal and every
    operation is rounded, and the mean adds the scores in their order. *)
Section Doubles.

Variable rnd : Q -> Q.

Definition mean_f64 (l : list Q) : Q :=
  F64.div rnd (F64.sum rnd l) (inject_Z (Z.of_nat (List.length l))).

Definition strategy_factor_f64 (tag : string) : Q :=
  if String.eqb tag "faq_focus" then rnd 0.9
  else if String.eqb tag "manual_focus" then rnd 0.8
  else if String.eqb tag "balanced" then rnd 0.85
  else if String.eqb tag "error" then rnd 0.3
  else rnd 0.7.

Definition count_factor_f64 (n : nat) : Q :=
  Qmin (F64.div rnd (inject_Z (Z.of_nat n)) 3.0) 1.0.

(** [0.6 * max + 0.4 * mean]. *)
Definition base_f64 (max_score mean_score : Q) : Q :=
  F64.add rnd (F64.mul rnd (rnd 0.6) max_score)
    (F64.mul rnd (rnd 0.4) mean_score).

(** [clamp(base * count_factor * strategy_factor, 0.0, 1.0)] for a
    maximum, a mean and a number of results. *)
Definition confidence_f64 (max_score mean_score : Q) (n : nat)
    (tag : string) : Q :=
  clamp
    (F64.mul rnd
       (F64.mul rnd (base_f64 max_score mean_score) (count_factor_f64 n))
       (strategy_factor_f64 tag))
    0.0 1.0.

End Doubles.

(** [a] may stand before [b] in a sequence ordered by [key], largest
    first. *)
Definition desc {A : Type} (key : A -> Q) (a b : A) : Prop :=
  (key b <= key a)%Q.

(** The elements whose key equals [q]. *)
Definition tied {A : Type} (key : A -> Q) (q : Q) (x : A) : bool :=
  Qeq_bool (key x) q.

(** The rows of an index response: its first documents, metadatas and
    distances side by side. *)
Definition rows (raw : Models.QueryResult) : list (pystr * pydict * Q) :=
  zip3 (hd [] (Models.documents raw)) (hd [] (Models.metadatas raw))
    (hd [] (Models.distances raw)).

(** [similarity = max(0, 1 - distance)], the difference being the
    doubles'. *)
Definition similarity (rnd : Q -> Q) (distance : Q) : Q :=
  Qmax 0 (F64.sub rnd 1 distance).

(** The results answer the rows of an index response: one result per
    row whose similarity reaches the threshold, then sorted by score. *)
Definition answers_rows (rnd : Q -> Q) (threshold : Q)
    (rows : list (pystr * pydict * Q)) (rs : list Models.SearchResult)
  : Prop :=
  exists collected : list Models.SearchResult,
    Forall2
      (fun r row =>
         (Models.score r == similarity rnd (snd row))%Q
         /\ Models.original_distance r = Some (snd row))
      collected
      (List.filter
         (fun row => Qle_bool threshold (similarity rnd (snd row))) rows)
    /\ rs = sort_reverse Models.score collected.

(** Every result carries the similarity of its recorded distance, a score
    between 0 and 1 and at least the threshold; the results come largest
    score first. *)
Definition well_scored (rnd : Q -> Q) (threshold : Q)
    (rs : list Models.SearchResult) : Prop :=
  Forall
    (fun r =>
       (exists d : Q,
           Models.original_distance r = Some d
           /\ (Models.score r == similarity rnd d)%Q)
       /\ (0 <= Models.score r <= 1)%Q
       /\ (threshold <= Models.score r)%Q)
    rs
  /\ StronglySorted (desc Models.score) rs.

(** The FAQ keyword set as the specification lists it: login,
    application, password, error, account, user, sign-in, trouble,
    problem. *)
Definition listed_faq_keywords : list pystr :=
  [u "ログイン"; u "申請"; u "パスワード"; u "エラー";
   u "アカウント"; u "ユーザー"; u "サインイン"; u "トラブル"; u "問題"].

(** The Manual keyword set as the specification lists it: procedure,
    method, setting, operation, screen, button, menu, feature, usage,
    system. *)
Definition listed_manual_keywords : list pystr :=
  [u "手順"; u "方法"; u "設定"; u "操作"; u "画面"; u "ボタン";
   u "メニュー"; u "機能"; u "使い方"; u "システム"].

(** How many keywords of a set occur in the text. *)
Definition hits (keywords : list pystr) (text : pystr) : nat :=
  List.length (List.filter (fun k => contains k text) keywords).

Definition classify (faq_set manual_set : list pystr) (lowered : pystr)
  : string :=
  if (hits manual_set lowered <? hits faq_set lowered)%nat then "faq_focus"
  else if (hits faq_set lowered <? hits manual_set lowered)%nat
       then "manual_focus"
       else "balanced".

(** A result carries the metadata entry ['type': t]. *)
Definition typed (t : pystr) (r : Models.SearchResult) : Prop :=
  exists m : pydict,
    Models.metadata r = Some m /\ m !! "type" = Some (PStr t).

(** What an engine's [health_check] contributes: its answer when it is
    set and answers, [false] otherwise. *)
Definition healthy (engine : option (result bool)) : bool :=
  match engine with
  | Some (Ok b) => b
  | _ => false
  end.

(** The page recorded with a result is a number between the bounds; a
    result without a page counts as page 0. *)
Definition page_within (start_page end_page : Z) (r : Models.SearchResult)
  : Prop :=
  exists m : pydict,
    Models.metadata r = Some m
    /\ ((exists p : Z,
            dict_get m "page" (PInt 0) = PInt p
            /\ start_page <= p <= end_page)
        \/ (exists p : Q,
               dict_get m "page" (PInt 0) = PFloat p
               /\ (inject_Z start_page <= p <= inject_Z end_page)%Q)).

End Spec.

(** ** Sample collaborators

    Concrete adapters, services and results on which the properties below
    are exercised. *)

Module Samples.
Import Py Models.

Definition hit (label : string) (s : Q) : SearchResult :=
  mkSearchResult (u label) (u label) s None.

(** An adapter that returns three FAQ results whatever it is asked. *)
Definition faq_adapter (_ : pyobj) (_ : option Z) (_ : option Q)
  : result (list SearchResult) :=
  Ok [hit "faq-a" 0.9; hit "faq-b" 0.8; hit "faq-c" 0.7].

(** An adapter that returns three Manual results, one of them tied with
    an FAQ result. *)
Definition manual_adapter (_ : pyobj) (_ : option Z) (_ : option Q)
  : result (list SearchResult) :=
  Ok [hit "manual-a" 0.95; hit "manual-b" 0.8; hit "manual-c" 0.75].

(** An adapter whose call fails. *)
Definition broken_adapter (_ : pyobj) (_ : option Z) (_ : option Q)
  : result (list SearchResult) :=
  Raise ExternalError.

Definition encode (texts : list pystr) : result (list embedding) :=
  Ok (List.map (fun _ => [1%Q; 0%Q]) texts).

(** An index response of three rows at distances 0.1, 0.5 and 0.2. *)
Definition response : QueryResult :=
  {| documents := [[u "one"; u "two"; u "three"]];
     metadatas :=
       [[ {["question" := PStr (u "q1")]};
          {["question" := PStr (u "q2")]};
          {["question" := PStr (u "q3")]} ]];
     distances := [[0.1%Q; 0.5%Q; 0.2%Q]] |}.

Definition collection_query (_ : list embedding) (_ : Z) (_ : string)
  : result QueryResult :=
  Ok response.

(** The same response with the doubles 0.1, 0.5 and 0.2 as its
    distances. *)
Definition response_f64 : QueryResult :=
  {| documents := documents response;
     metadatas := metadatas response;
     distances := [List.map F64.round [0.1%Q; 0.5%Q; 0.2%Q]] |}.

Definition collection_query_f64 (_ : list embedding) (_ : Z) (_ : string)
  : result QueryResult :=
  Ok response_f64.

Definition format_value (o : pyobj) : pystr :=
  match o with
  | PStr s => s
  | _ => []
  end.

Definition path_name (o : pyobj) : result pystr :=
  match o with
  | PStr s => Ok s
  | _ => Raise TypeError
  end.

(** A search engine that finds nothing, and a generation service that
    answers, and one that fails. *)
Definition empty_search (_ : pyobj) (_ : pydict)
  : result (list SearchResult * string) :=
  Ok ([], "balanced"%string).

Definition chat_answers (_ _ _ : pystr) (_ : Q) (_ : Z)
  : result (list (option pystr)) :=
  Ok [Some (u " 担当者にお問い合わせください。 ")].

Definition chat_fails (_ _ _ : pystr) (_ : Q) (_ : Z)
  : result (list (option pystr)) :=
  Raise ExternalError.

Definition no_prompt (_ : pystr) (_ : list SearchResult) : pystr := [].

Definition no_multi_prompt (_ : pystr) (_ _ : list SearchResult) : pystr := [].

(** A result stamped with a type, as an adapter stamps it. *)
Definition typed_hit (label type : string) (s : Q) : SearchResult :=
  mkSearchResult (u label) (u label) s (Some {["type" := PStr (u type)]}).

(** An embedder whose call fails. *)
Definition broken_encode (_ : list pystr) : result (list embedding) :=
  Raise ExternalError.

(** An index response of two rows, the second one too far for any
    similarity. *)
Definition far_response : QueryResult :=
  {| documents := [[u "near"; u "far"]];
     metadatas :=
       [[ {["question" := PStr (u "q1")]};
          {["question" := PStr (u "q2")]} ]];
     distances := [[0.2%Q; 1.5%Q]] |}.

Definition far_collection_query (_ : list embedding) (_ : Z) (_ : string)
  : result QueryResult :=
  Ok far_response.

Definition no_elapsed (_ : nat) : Q := 0%Q.

End Samples.

(** * Properties *)

Import Py Models.

(** ** Facts about the rounding of doubles *)

Lemma pow2_pos (z : Z) : (0 < 2 ^ z)%Q.
Proof. apply Qpower_0_lt. reflexivity. Qed.

Lemma pow2_le (a b : Z) : (a <= b)%Z -> (2 ^ a <= 2 ^ b)%Q.
Proof. intros H. apply Qpower_le_compat_l; [exact H | discriminate]. Qed.

Lemma pow2_lt_inv (a b : Z) : (2 ^ a < 2 ^ b)%Q -> (a < b)%Z.
Proof. intros H. apply (Qpower_lt_compat_l_inv 2); [exact H | reflexivity]. Qed.

Lemma pow2_plus (a b : Z) : (2 ^ (a + b) == 2 ^ a * 2 ^ b)%Q.
Proof. apply Qpower_plus. discriminate. Qed.

Lemma pow2_inject (n : Z) : (0 <= n)%Z -> (inject_Z (2 ^ n) == 2 ^ n)%Q.
Proof. intros H. now rewrite Zpower_Qpower. Qed.

Lemma log2_bounds (n : positive) :
  (2 ^ Z.log2 (Zpos n) <= inject_Z (Zpos n) < 2 ^ (Z.log2 (Zpos n) + 1))%Q.
Proof.
  assert (H0 : (0 <= Z.log2 (Zpos n))%Z) by apply Z.log2_nonneg.
  destruct (Z.log2_spec (Zpos n)) as [H1 H2]; [reflexivity|].
  rewrite <- !pow2_inject by lia. split.
  - now rewrite <- Zle_Qle.
  - rewrite <- Zlt_Qlt. now rewrite <- Z.add_1_r in H2.
Qed.

Lemma Qnum_positive (x : Q) : (0 < x)%Q -> exists n, Qnum x = Zpos n.
Proof.
  destruct x as [[|n|n] d]; intros H; try discriminate H.
  now exists n.
Qed.

Lemma Qnum_Qden (x : Q) : (x * inject_Z (Zpos (Qden x)) == inject_Z (Qnum x))%Q.
Proof.
  destruct x as [n d]. unfold Qeq, Qmult, inject_Z. simpl. lia.
Qed.

Lemma binade_spec (x : Q) :
  (0 < x)%Q -> (2 ^ F64.binade x <= x < 2 ^ (F64.binade x + 1))%Q.
Proof.
  intros Hx. destruct (Qnum_positive x Hx) as [n Hn].
  unfold F64.binade. rewrite Hn.
  set (ln := Z.log2 (Zpos n)). set (ld := Z.log2 (Zpos (Qden x))).
  destruct (log2_bounds n) as [N1 N2]. fold ln in N1, N2.
  destruct (log2_bounds (Qden x)) as [D1 D2]. fold ld in D1, D2.
  assert (C := Qnum_Qden x). rewrite Hn in C.
  assert (HD : (0 < inject_Z (Zpos (Qden x)))%Q)
    by (change 0%Q with (inject_Z 0); rewrite <- Zlt_Qlt; reflexivity).
  set (D := inject_Z (Zpos (Qden x))) in *.
  set (N := inject_Z (Zpos n)) in *.
  assert (Hup : forall e, (N < 2 ^ e * D)%Q -> (x < 2 ^ e)%Q).
  { intros e H. rewrite <- C in H.
    apply Qmult_lt_r in H; assumption. }
  assert (Hlow : forall e, (2 ^ e * D <= N)%Q -> (2 ^ e <= x)%Q).
  { intros e H. rewrite <- C in H.
    apply Qmult_le_r in H; assumption. }
  assert (U : (x < 2 ^ (ln - ld + 1))%Q).
  { apply Hup. apply Qlt_le_trans with (2 ^ (ln + 1))%Q; [exact N2|].
    replace (ln + 1)%Z with ((ln - ld + 1) + ld)%Z by lia.
    rewrite pow2_plus. apply Qmult_le_l; [apply pow2_pos | exact D1]. }
  assert (L : (2 ^ (ln - ld - 1) <= x)%Q).
  { apply Hlow. apply Qle_trans with (2 ^ ln)%Q; [|exact N1].
    replace ln with ((ln - ld - 1) + (ld + 1))%Z at 2 by lia.
    rewrite pow2_plus. apply Qmult_le_l; [apply pow2_pos|].
    apply Qlt_le_weak, D2. }
  destruct (Qle_bool (2 ^ (ln - ld)) x) eqn:E.
  - apply Qle_bool_iff in E. split; assumption.
  - split; [exact L|].
    replace (ln - ld - 1 + 1)%Z with (ln - ld)%Z by lia.
    apply Qnot_le_lt. intros H. apply Qle_bool_iff in H. congruence.
Qed.

Lemma binade_le (x y : Q) :
  (0 < x)%Q -> (x <= y)%Q -> (F64.binade x <= F64.binade y)%Z.
Proof.
  intros Hx Hxy.
  assert (Hy : (0 < y)%Q) by lra.
  destruct (binade_spec x Hx) as [X1 _].
  destruct (binade_spec y Hy) as [_ Y2].
  assert (H : (2 ^ F64.binade x < 2 ^ (F64.binade y + 1))%Q) by lra.
  apply pow2_lt_inv in H. lia.
Qed.

Lemma nearest_even_bounds (x : Q) :
  (Qfloor x <= F64.nearest_even x <= Qfloor x + 1)%Z.
Proof.
  unfold F64.nearest_even.
  repeat match goal with
         | |- context [if ?b then _ else _] => destruct b
         end; lia.
Qed.

Lemma nearest_even_le (x y : Q) :
  (x <= y)%Q -> (F64.nearest_even x <= F64.nearest_even y)%Z.
Proof.
  intros H.
  assert (Hf := Qfloor_resp_le x y H).
  destruct (Z.eq_dec (Qfloor x) (Qfloor y)) as [E|E].
  - unfold F64.nearest_even. rewrite <- E.
    set (f := Qfloor x).
    destruct (Qle_bool (1 # 2) (x - inject_Z f)) eqn:X1;
      destruct (Qle_bool (x - inject_Z f) (1 # 2)) eqn:X2;
      destruct (Qle_bool (1 # 2) (y - inject_Z f)) eqn:Y1;
      destruct (Qle_bool (y - inject_Z f) (1 # 2)) eqn:Y2;
      destruct (Z.even f); try lia;
      repeat match goal with
             | H : Qle_bool _ _ = true |- _ => apply Qle_bool_iff in H
             | H : Qle_bool ?a ?b = false |- _ =>
                 assert (b < a)%Q
                   by (apply Qnot_le_lt; intros K; apply Qle_bool_iff in K;
                       congruence);
                 clear H
             end; exfalso; lra.
  - destruct (nearest_even_bounds x) as [_ X].
    destruct (nearest_even_bounds y) as [Y _]. lia.
Qed.

Lemma nearest_even_Z (k : Z) : F64.nearest_even (inject_Z k) = k.
Proof.
  unfold F64.nearest_even. rewrite Qfloor_Z.
  destruct (Qle_bool (1 # 2) (inject_Z k - inject_Z k)) eqn:E; [|reflexivity].
  apply Qle_bool_iff in E. exfalso. lra.
Qed.

Lemma nearest_even_eq (x : Q) (k : Z) :
  (x == inject_Z k)%Q -> F64.nearest_even x = k.
Proof.
  intros E. apply Z.le_antisymm.
  - apply Z.le_trans with (F64.nearest_even (inject_Z k));
      [apply nearest_even_le; lra | rewrite nearest_even_Z; lia].
  - apply Z.le_trans with (F64.nearest_even (inject_Z k));
      [rewrite nearest_even_Z; lia | apply nearest_even_le; lra].
Qed.

Lemma round_positive_unreduced (x : Q) :
  (F64.round_positive x == F64.round_at (F64.ulp_exponent x) x)%Q.
Proof. unfold F64.round_positive. apply Qred_correct. Qed.

Lemma round_at_le (x y : Q) (q : Z) :
  (x <= y)%Q -> (F64.round_at q x <= F64.round_at q y)%Q.
Proof.
  intros H. unfold F64.round_at.
  apply Qmult_le_compat_r; [|apply Qlt_le_weak, pow2_pos].
  rewrite <- Zle_Qle. apply nearest_even_le.
  apply Qmult_le_compat_r; [exact H | apply Qlt_le_weak, pow2_pos].
Qed.

Lemma pow2_cancel (a b : Z) : (2 ^ a * 2 ^ (- b) == 2 ^ (a - b))%Q.
Proof. rewrite <- pow2_plus. now replace (a + - b)%Z with (a - b)%Z by lia. Qed.

(** Below a power of two, the rounded value stays below it. *)
Lemma round_at_upper (x : Q) (q e : Z) :
  (q <= e)%Z -> (x <= 2 ^ e)%Q -> (F64.round_at q x <= 2 ^ e)%Q.
Proof.
  intros Hq Hx. unfold F64.round_at.
  assert (E : (2 ^ e * 2 ^ (- q) == inject_Z (2 ^ (e - q)))%Q).
  { rewrite pow2_cancel. now rewrite pow2_inject by lia. }
  assert (H : (F64.nearest_even (x * 2 ^ (- q)) <= 2 ^ (e - q))%Z).
  { rewrite <- (nearest_even_eq _ _ E). apply nearest_even_le.
    apply Qmult_le_compat_r; [exact Hx | apply Qlt_le_weak, pow2_pos]. }
  rewrite Zle_Qle in H. rewrite pow2_inject in H by lia.
  apply Qle_trans with (2 ^ (e - q) * 2 ^ q)%Q.
  - apply Qmult_le_compat_r; [exact H | apply Qlt_le_weak, pow2_pos].
  - rewrite <- pow2_plus. replace (e - q + q)%Z with e by lia. apply Qle_refl.
Qed.

Lemma round_at_lower (x : Q) (q e : Z) :
  (q <= e)%Z -> (2 ^ e <= x)%Q -> (2 ^ e <= F64.round_at q x)%Q.
Proof.
  intros Hq Hx. unfold F64.round_at.
  assert (E : (2 ^ e * 2 ^ (- q) == inject_Z (2 ^ (e - q)))%Q).
  { rewrite pow2_cancel. now rewrite pow2_inject by lia. }
  assert (H : (2 ^ (e - q) <= F64.nearest_even (x * 2 ^ (- q)))%Z).
  { rewrite <- (nearest_even_eq _ _ E). apply nearest_even_le.
    apply Qmult_le_compat_r; [exact Hx | apply Qlt_le_weak, pow2_pos]. }
  rewrite Zle_Qle in H. rewrite pow2_inject in H by lia.
  apply Qle_trans with (2 ^ (e - q) * 2 ^ q)%Q.
  - rewrite <- pow2_plus. replace (e - q + q)%Z with e by lia. apply Qle_refl.
  - apply Qmult_le_compat_r; [exact H | apply Qlt_le_weak, pow2_pos].
Qed.

Lemma round_positive_le (x y : Q) :
  (0 < x)%Q -> (x <= y)%Q ->
  (F64.round_positive x <= F64.round_positive y)%Q.
Proof.
  intros Hx Hxy. rewrite !round_positive_unreduced.
  assert (Hy : (0 < y)%Q) by lra.
  assert (Hb := binade_le x y Hx Hxy).
  destruct (binade_spec x Hx) as [_ X2].
  destruct (binade_spec y Hy) as [Y1 _].
  unfold F64.ulp_exponent.
  destruct (Z.eq_dec (Z.max (F64.binade x) (-1022))
              (Z.max (F64.binade y) (-1022))) as [E|E].
  - rewrite E. now apply round_at_le.
  - assert (Hlt : (Z.max (F64.binade x) (-1022) < F64.binade y)%Z) by lia.
    assert (Ey : Z.max (F64.binade y) (-1022) = F64.binade y) by lia.
    rewrite Ey.
    apply Qle_trans with (2 ^ F64.binade y)%Q.
    + apply round_at_upper; [lia|].
      apply Qle_trans with (2 ^ (F64.binade x + 1))%Q;
        [now apply Qlt_le_weak | apply pow2_le; lia].
    + apply round_at_lower; [lia | exact Y1].
Qed.

Lemma round_positive_nonneg (x : Q) :
  (0 < x)%Q -> (0 <= F64.round_positive x)%Q.
Proof.
  intros Hx. rewrite round_positive_unreduced. unfold F64.round_at.
  apply Qmult_le_0_compat; [|apply Qlt_le_weak, pow2_pos].
  change 0%Q with (inject_Z 0). rewrite <- Zle_Qle.
  rewrite <- (nearest_even_Z 0). apply nearest_even_le.
  apply Qmult_le_0_compat; [lra | apply Qlt_le_weak, pow2_pos].
Qed.

Lemma round_cases (x : Q) :
  ((x == 0)%Q /\ F64.round x = 0%Q)
  \/ ((0 < x)%Q /\ F64.round x = F64.round_positive x)
  \/ ((x < 0)%Q /\ F64.round x = (- F64.round_positive (- x))%Q).
Proof.
  unfold F64.round. destruct x as [[|n|n] d]; cbn [Qnum].
  - left. split; reflexivity.
  - right. left. split; reflexivity.
  - right. right. split; reflexivity.
Qed.

Lemma round_le (x y : Q) : (x <= y)%Q -> (F64.round x <= F64.round y)%Q.
Proof.
  intros H.
  destruct (round_cases x) as [[X ->]|[[X ->]|[X ->]]];
    destruct (round_cases y) as [[Y ->]|[[Y ->]|[Y ->]]];
    try (exfalso; lra).
  - apply Qle_refl.
  - now apply round_positive_nonneg.
  - now apply round_positive_le.
  - assert (K := round_positive_nonneg (- x)). lra.
  - assert (K := round_positive_nonneg (- x)).
    assert (K' := round_positive_nonneg y). lra.
  - assert (K := round_positive_le (- y) (- x)). lra.
Qed.

(** Some doubles: the one nearest to 0.1 and to 1/3, ties going to the
    even neighbour, and the smallest doubles, which are multiples of
    [2^-1074]. *)
Lemma round_examples :
  F64.round 0.1 = (3602879701896397 # 36028797018963968)%Q
  /\ F64.round (- 0.1) = (- 3602879701896397 # 36028797018963968)%Q
  /\ F64.round (1 # 3) = (6004799503160661 # 18014398509481984)%Q
  /\ F64.round (inject_Z (2 ^ 53 + 1)) = inject_Z (2 ^ 53)
  /\ F64.round (inject_Z (2 ^ 53 + 3)) = inject_Z (2 ^ 53 + 4)
  /\ (F64.round (2 ^ (-1075)) == 0)%Q
  /\ (F64.round (3 * 2 ^ (-1075)) == 2 ^ (-1073))%Q.
Proof.
  repeat split; vm_compute; reflexivity.
Qed.

(** The rounding of binary64 keeps the order, 0 and 1. *)
Lemma round_faithful : F64.faithful F64.round.
Proof.
  constructor.
  - apply round_le.
  - reflexivity.
  - vm_compute. reflexivity.
Qed.

Lemma exact_faithful : F64.faithful F64.exact.
Proof.
  constructor; unfold F64.exact.
  - intros x y H. exact H.
  - reflexivity.
  - reflexivity.
Qed.

(** ** Facts about the Python primitives *)

Lemma Qltb_true (x y : Q) : Qltb x y = true <-> (x < y)%Q.
Proof.
  unfold Qltb. rewrite negb_true_iff.
  split; intros H.
  - apply Qnot_le_lt. intros Hle. apply Qle_bool_iff in Hle. congruence.
  - destruct (Qle_bool y x) eqn:E; [|reflexivity].
    apply Qle_bool_iff in E. apply Qle_not_lt in E. contradiction.
Qed.

Lemma Qltb_false (x y : Q) : Qltb x y = false <-> (y <= x)%Q.
Proof.
  unfold Qltb. rewrite negb_false_iff. apply Qle_bool_iff.
Qed.

Lemma max2_Qmax (a b : Q) : (max2 a b == Qmax a b)%Q.
Proof.
  unfold max2. destruct (Qltb a b) eqn:E.
  - apply Qltb_true in E. symmetry. apply Q.max_r. lra.
  - apply Qltb_false in E. symmetry. apply Q.max_l. exact E.
Qed.

Lemma min2_Qmin (a b : Q) : (min2 a b == Qmin a b)%Q.
Proof.
  unfold min2. destruct (Qltb b a) eqn:E.
  - apply Qltb_true in E. symmetry. apply Q.min_r. lra.
  - apply Qltb_false in E. symmetry. apply Q.min_l. exact E.
Qed.

Lemma max2_cases (a b : Q) :
  ((a < b)%Q /\ max2 a b = b) \/ ((b <= a)%Q /\ max2 a b = a).
Proof.
  unfold max2. destruct (Qltb a b) eqn:E.
  - left. split; [now apply Qltb_true | reflexivity].
  - right. split; [now apply Qltb_false | reflexivity].
Qed.

Lemma min2_cases (a b : Q) :
  ((b < a)%Q /\ min2 a b = b) \/ ((a <= b)%Q /\ min2 a b = a).
Proof.
  unfold min2. destruct (Qltb b a) eqn:E.
  - left. split; [now apply Qltb_true | reflexivity].
  - right. split; [now apply Qltb_false | reflexivity].
Qed.

#[local] Instance max2_proper : Proper (Qeq ==> Qeq ==> Qeq) max2.
Proof.
  intros a a' Ha b b' Hb. rewrite !max2_Qmax. now rewrite Ha, Hb.
Qed.

#[local] Instance min2_proper : Proper (Qeq ==> Qeq ==> Qeq) min2.
Proof.
  intros a a' Ha b b' Hb. rewrite !min2_Qmin. now rewrite Ha, Hb.
Qed.


Lemma fold_right_Qmax_proper (l : list Q) (a b : Q) :
  (a == b)%Q -> (fold_right Qmax a l == fold_right Qmax b l)%Q.
Proof.
  intros Hab. induction l as [|x l IH]; simpl.
  - exact Hab.
  - now rewrite IH.
Qed.

Lemma fold_right_Qmax_push (l : list Q) (a x : Q) :
  (fold_right Qmax (Qmax a x) l == Qmax x (fold_right Qmax a l))%Q.
Proof.
  induction l as [|y l IH]; simpl.
  - apply Q.max_comm.
  - rewrite IH. rewrite !Q.max_assoc. now rewrite (Q.max_comm y x).
Qed.

Lemma max_of_maximum (first : Q) (rest : list Q) :
  (max_of first rest == Spec.maximum (first :: rest))%Q.
Proof.
  unfold max_of, Spec.maximum. revert first.
  induction rest as [|x rest IH]; intros first; simpl.
  - reflexivity.
  - rewrite IH.
    rewrite (fold_right_Qmax_proper rest _ _ (max2_Qmax first x)).
    apply fold_right_Qmax_push.
Qed.

Lemma maximum_upper_bound (l : list Q) :
  Forall (fun y => (y <= Spec.maximum l)%Q) l.
Proof.
  destruct l as [|x l]; [constructor|].
  unfold Spec.maximum.
  assert (Hx : (x <= fold_right Qmax x l)%Q).
  { induction l as [|y l IH]; simpl; [lra|].
    eapply Qle_trans; [exact IH | apply Q.le_max_r]. }
  constructor; [exact Hx|].
  clear Hx. induction l as [|y l IH]; simpl; constructor.
  - apply Q.le_max_l.
  - eapply Forall_impl; [exact IH|].
    intros z Hz. simpl in Hz. eapply Qle_trans; [exact Hz | apply Q.le_max_r].
Qed.

Lemma maximum_attained (x : Q) (l : list Q) :
  Exists (fun y => (y == Spec.maximum (x :: l))%Q) (x :: l).
Proof.
  unfold Spec.maximum.
  induction l as [|y l IH]; simpl.
  - constructor. reflexivity.
  - destruct (Q.max_dec y (fold_right Qmax x l)) as [E|E].
    + apply Exists_cons_tl. constructor. now rewrite E.
    + inversion IH as [z l0 Hz | z l0 Hz]; subst.
      * constructor. now rewrite E.
      * apply Exists_cons_tl, Exists_cons_tl.
        eapply Exists_impl; [exact Hz|].
        intros a Ha. simpl in Ha. now rewrite E.
Qed.

Lemma fold_left_Qplus_acc (l : list Q) (a : Q) :
  (fold_left Qplus l a == a + fold_right Qplus 0 l)%Q.
Proof.
  revert a. induction l as [|x l IH]; intros a; simpl.
  - ring.
  - rewrite IH. ring.
Qed.

Lemma sum_exact_mean (l : list Q) :
  (F64.sum F64.exact l / inject_Z (len l) == Spec.mean l)%Q.
Proof.
  unfold Spec.mean, len.
  change (F64.sum F64.exact l) with (fold_left Qplus l 0%Q).
  rewrite fold_left_Qplus_acc. now rewrite Qplus_0_l.
Qed.

(** The built-ins [max] and [min] of two numbers pick the same argument
    as [Qmax] and [Qmin]. *)
Lemma max2_eq_Qmax (a b : Q) : max2 a b = Qmax a b.
Proof.
  unfold max2, Qltb, Qle_bool, Qmax, GenericMinMax.gmax, Qcompare.
  destruct (Z.leb_spec (Qnum b * QDen a) (Qnum a * QDen b));
    destruct (Z.compare_spec (Qnum a * QDen b) (Qnum b * QDen a));
    simpl; try reflexivity; lia.
Qed.

Lemma min2_eq_Qmin (a b : Q) : min2 a b = Qmin a b.
Proof.
  unfold min2, Qltb, Qle_bool, Qmin, GenericMinMax.gmin, Qcompare.
  destruct (Z.leb_spec (Qnum a * QDen b) (Qnum b * QDen a));
    destruct (Z.compare_spec (Qnum a * QDen b) (Qnum b * QDen a));
    simpl; try reflexivity; lia.
Qed.

Lemma Qmult_swap (x y : Q) : (x * y)%Q = (y * x)%Q.
Proof.
  unfold Qmult. f_equal; [apply Z.mul_comm | apply Pos.mul_comm].
Qed.

Lemma max_of_In (first : Q) (rest : list Q) :
  In (max_of first rest) (first :: rest).
Proof.
  unfold max_of. revert first.
  induction rest as [|x rest IH]; intros first; simpl.
  - now left.
  - specialize (IH (max2 first x)).
    destruct (max2_cases first x) as [[_ Hm]|[_ Hm]]; rewrite Hm in IH |- *;
      destruct IH as [E|Hin].
    + right. left. exact E.
    + right. right. exact Hin.
    + left. exact E.
    + right. right. exact Hin.
Qed.

Lemma max_of_le_acc (first : Q) (rest : list Q) :
  (first <= max_of first rest)%Q.
Proof.
  unfold max_of. revert first.
  induction rest as [|x rest IH]; intros first; simpl.
  - apply Qle_refl.
  - eapply Qle_trans; [|apply IH].
    destruct (max2_cases first x) as [[Hlt Hm]|[_ Hm]]; rewrite Hm; lra.
Qed.

Lemma max_of_upper (first : Q) (rest : list Q) :
  Forall (fun s => (s <= max_of first rest)%Q) (first :: rest).
Proof.
  constructor; [apply max_of_le_acc|].
  unfold max_of. revert first.
  induction rest as [|x rest IH]; intros first; simpl; constructor.
  - eapply Qle_trans; [|apply (max_of_le_acc (max2 first x) rest)].
    destruct (max2_cases first x) as [[Hlt Hm]|[Hle Hm]]; rewrite Hm; lra.
  - apply IH.
Qed.

Lemma strategy_factor_lookup (rnd : Q -> Q) (tag : string) :
  match SupportAgent.strategy_factors rnd !! tag with
  | Some f => f
  | None => rnd 0.7%Q
  end = Spec.strategy_factor_f64 rnd tag.
Proof.
  unfold SupportAgent.strategy_factors, Spec.strategy_factor_f64.
  destruct (String.eqb_spec tag "faq_focus") as [->|H1]; [reflexivity|].
  rewrite lookup_insert_ne by congruence.
  destruct (String.eqb_spec tag "manual_focus") as [->|H2]; [reflexivity|].
  rewrite lookup_insert_ne by congruence.
  destruct (String.eqb_spec tag "balanced") as [->|H3]; [reflexivity|].
  rewrite lookup_insert_ne by congruence.
  destruct (String.eqb_spec tag "error") as [->|H4]; [reflexivity|].
  rewrite lookup_insert_ne by congruence.
  now rewrite lookup_empty.
Qed.

Lemma strategy_factor_positive (tag : string) :
  (0 < Spec.strategy_factor tag)%Q.
Proof.
  unfold Spec.strategy_factor.
  repeat match goal with |- context [String.eqb ?a ?b] =>
    destruct (String.eqb a b) end; reflexivity.
Qed.

(** Lines 244-259 of the estimator are the formula, whatever the
    rounding. *)
Lemma adjust_confidence_f64 (rnd : Q -> Q) (m a : Q) (n : nat)
    (tag : string) :
  SupportAgent.adjust_confidence rnd m a (Z.of_nat n) tag
  = Spec.confidence_f64 rnd m a n tag.
Proof.
  unfold SupportAgent.adjust_confidence, Spec.confidence_f64, Spec.clamp,
    Spec.count_factor_f64.
  rewrite strategy_factor_lookup, max2_eq_Qmax, !min2_eq_Qmin.
  unfold F64.mul. rewrite (Qmult_swap m), (Qmult_swap a). reflexivity.
Qed.

Lemma calculate_confidence_f64 (rnd : Q -> Q) (first : SearchResult)
    (rest : list SearchResult) (tag : string) :
  let scores := List.map score (first :: rest) in
  SupportAgent._calculate_confidence rnd (first :: rest) tag
  = Spec.confidence_f64 rnd (max_of (score first) (List.map score rest))
      (Spec.mean_f64 rnd scores) (List.length scores) tag.
Proof.
  intros scores. unfold SupportAgent._calculate_confidence, len.
  rewrite adjust_confidence_f64. unfold Spec.mean_f64, scores.
  now rewrite length_map.
Qed.

(** *** Without rounding *)

Lemma clamp_monotone (x y : Q) :
  (x <= y)%Q -> (Spec.clamp x 0.0 1.0 <= Spec.clamp y 0.0 1.0)%Q.
Proof.
  intros H. unfold Spec.clamp.
  apply Q.max_le_compat_l, Q.min_le_compat_l, H.
Qed.

Lemma clamp_nonpositive (x : Q) :
  (x <= 0)%Q -> (Spec.clamp x 0.0 1.0 == 0)%Q.
Proof.
  intros H. unfold Spec.clamp.
  rewrite Q.max_l; [reflexivity|].
  eapply Qle_trans; [apply Q.le_min_r|]. lra.
Qed.

Lemma clamp_range (x : Q) : (0 <= Spec.clamp x 0.0 1.0 <= 1)%Q.
Proof.
  unfold Spec.clamp. split.
  - eapply Qle_trans; [|apply Q.le_max_l]. lra.
  - apply Q.max_lub; [lra|].
    eapply Qle_trans; [apply Q.le_min_l|]. lra.
Qed.

Lemma clamp_proper (x y : Q) :
  (x == y)%Q -> (Spec.clamp x 0.0 1.0 == Spec.clamp y 0.0 1.0)%Q.
Proof.
  intros H. unfold Spec.clamp.
  apply Q.max_compat; [reflexivity|].
  apply Q.min_compat; [reflexivity|exact H].
Qed.

Lemma div_three (x : Q) : (x / 3.0 == x * (1 # 3))%Q.
Proof. unfold Qdiv. apply Qmult_comp; reflexivity. Qed.

Lemma count_factor_range (n : nat) : (0 <= Spec.count_factor n <= 1)%Q.
Proof.
  unfold Spec.count_factor.
  assert (H : (0 <= inject_Z (Z.of_nat n))%Q).
  { change 0%Q with (inject_Z 0). rewrite <- Zle_Qle. lia. }
  split.
  - apply Q.min_glb; [rewrite div_three|]; lra.
  - eapply Qle_trans; [apply Q.le_min_r|]. lra.
Qed.

Lemma adjust_confidence_spec (m a : Q) (n : nat) (tag : string) :
  (SupportAgent.adjust_confidence F64.exact m a (Z.of_nat n) tag ==
   Spec.clamp ((0.6 * m + 0.4 * a) * Spec.count_factor n
               * Spec.strategy_factor tag) 0.0 1.0)%Q.
Proof.
  rewrite adjust_confidence_f64. reflexivity.
Qed.

Lemma calculate_confidence_nonempty (first : SearchResult)
    (rest : list SearchResult) (tag : string) :
  let scores := List.map score (first :: rest) in
  (SupportAgent._calculate_confidence F64.exact (first :: rest) tag ==
   Spec.clamp ((0.6 * Spec.maximum scores + 0.4 * Spec.mean scores)
               * Spec.count_factor (List.length scores)
               * Spec.strategy_factor tag) 0.0 1.0)%Q.
Proof.
  intros scores. unfold SupportAgent._calculate_confidence.
  unfold len at 2.
  rewrite adjust_confidence_spec.
  apply clamp_proper.
  assert (Hmax := max_of_maximum (score first) (List.map score rest)).
  assert (Hmean := sum_exact_mean (List.map score (first :: rest))).
  unfold len in Hmean. rewrite length_map in Hmean.
  subst scores. simpl List.map in *.
  unfold F64.div, F64.exact at 1. unfold len.
  rewrite Hmax, Hmean.
  simpl List.length. rewrite length_map. reflexivity.
Qed.

Lemma calculate_confidence_spec (rs : list SearchResult) (tag : string) :
  (SupportAgent._calculate_confidence F64.exact rs tag ==
   Spec.confidence (List.map score rs) tag)%Q.
Proof.
  destruct rs as [|first rest]; [reflexivity|].
  rewrite calculate_confidence_nonempty. reflexivity.
Qed.

(** *** With a rounding that keeps the order *)

Section Rounded.

Variable rnd : Q -> Q.
Hypothesis rnd_faithful : F64.faithful rnd.

Lemma rnd_le (x y : Q) : (x <= y)%Q -> (rnd x <= rnd y)%Q.
Proof using rnd_faithful. apply (F64.monotone rnd rnd_faithful). Qed.

Lemma rnd_eq (x y : Q) : (x == y)%Q -> (rnd x == rnd y)%Q.
Proof using rnd_faithful.
  intros E. apply Qle_antisym; apply rnd_le; rewrite E; apply Qle_refl.
Qed.

Lemma rnd_nonneg (x : Q) : (0 <= x)%Q -> (0 <= rnd x)%Q.
Proof using rnd_faithful.
  intros H. rewrite <- (F64.keeps_0 rnd rnd_faithful). now apply rnd_le.
Qed.

Lemma rnd_nonpos (x : Q) : (x <= 0)%Q -> (rnd x <= 0)%Q.
Proof using rnd_faithful.
  intros H. rewrite <- (F64.keeps_0 rnd rnd_faithful). now apply rnd_le.
Qed.

Lemma rnd_le_1 (x : Q) : (x <= 1)%Q -> (rnd x <= 1)%Q.
Proof using rnd_faithful.
  intros H. rewrite <- (F64.keeps_1 rnd rnd_faithful). now apply rnd_le.
Qed.

Lemma rnd_ge_1 (x : Q) : (1 <= x)%Q -> (1 <= rnd x)%Q.
Proof using rnd_faithful.
  intros H. rewrite <- (F64.keeps_1 rnd rnd_faithful). now apply rnd_le.
Qed.

Lemma mul_le_r (a b c : Q) :
  (0 <= c)%Q -> (a <= b)%Q -> (F64.mul rnd a c <= F64.mul rnd b c)%Q.
Proof using rnd_faithful.
  intros Hc Hab. apply rnd_le. now apply Qmult_le_compat_r.
Qed.

Lemma mul_le_l (a b c : Q) :
  (0 <= c)%Q -> (a <= b)%Q -> (F64.mul rnd c a <= F64.mul rnd c b)%Q.
Proof using rnd_faithful.
  intros Hc Hab. apply rnd_le. rewrite !(Qmult_comm c).
  now apply Qmult_le_compat_r.
Qed.

Lemma mul_nonpos (a b : Q) :
  (a <= 0)%Q -> (0 <= b)%Q -> (F64.mul rnd a b <= 0)%Q.
Proof using rnd_faithful.
  intros Ha Hb. apply rnd_nonpos.
  assert (H : (0 <= (- a) * b)%Q) by (apply Qmult_le_0_compat; lra).
  lra.
Qed.

Lemma strategy_factor_f64_nonneg (tag : string) :
  (0 <= Spec.strategy_factor_f64 rnd tag)%Q.
Proof using rnd_faithful.
  unfold Spec.strategy_factor_f64.
  repeat match goal with |- context [String.eqb ?a ?b] =>
    destruct (String.eqb a b) end; apply rnd_nonneg; discriminate.
Qed.

Lemma count_factor_f64_range (n : nat) :
  (0 <= Spec.count_factor_f64 rnd n <= 1)%Q.
Proof using rnd_faithful.
  unfold Spec.count_factor_f64.
  assert (H : (0 <= inject_Z (Z.of_nat n))%Q).
  { change 0%Q with (inject_Z 0). rewrite <- Zle_Qle. lia. }
  split.
  - apply Q.min_glb; [|lra]. apply rnd_nonneg. rewrite div_three. lra.
  - eapply Qle_trans; [apply Q.le_min_r|]. lra.
Qed.

Lemma count_factor_f64_monotone (n1 n2 : nat) :
  (n1 <= n2)%nat ->
  (Spec.count_factor_f64 rnd n1 <= Spec.count_factor_f64 rnd n2)%Q.
Proof using rnd_faithful.
  intros H. unfold Spec.count_factor_f64.
  apply Q.min_le_compat_r. apply rnd_le.
  assert (H' : (inject_Z (Z.of_nat n1) <= inject_Z (Z.of_nat n2))%Q).
  { rewrite <- Zle_Qle. lia. }
  rewrite !div_three. lra.
Qed.

Lemma count_factor_f64_saturates (n : nat) :
  (3 <= n)%nat -> (Spec.count_factor_f64 rnd n == 1)%Q.
Proof using rnd_faithful.
  intros H. unfold Spec.count_factor_f64.
  assert (H' : (inject_Z 3 <= inject_Z (Z.of_nat n))%Q).
  { rewrite <- Zle_Qle. lia. }
  rewrite Q.min_r; [reflexivity|].
  apply Qle_trans with 1%Q; [discriminate|].
  unfold F64.div. apply rnd_ge_1.
  change (inject_Z 3) with 3%Q in H'. rewrite div_three. lra.
Qed.

Lemma base_f64_le (m1 m2 a : Q) :
  (m1 <= m2)%Q -> (Spec.base_f64 rnd m1 a <= Spec.base_f64 rnd m2 a)%Q.
Proof using rnd_faithful.
  intros H. unfold Spec.base_f64, F64.add. apply rnd_le.
  apply Qplus_le_compat; [|apply Qle_refl].
  apply mul_le_l; [apply rnd_nonneg; discriminate | exact H].
Qed.

Lemma base_f64_eq (m1 m2 a1 a2 : Q) :
  (m1 == m2)%Q -> (a1 == a2)%Q -> (Spec.base_f64 rnd m1 a1 == Spec.base_f64 rnd
      m2 a2)%Q.
Proof using rnd_faithful.
  intros Hm Ha. unfold Spec.base_f64, F64.add, F64.mul.
  apply rnd_eq. apply Qplus_comp; apply rnd_eq; apply Qmult_comp;
    (reflexivity || assumption).
Qed.

Lemma scaled_f64_le (b1 b2 c1 c2 s : Q) :
  (b1 <= b2)%Q -> (0 <= c1 <= c2)%Q -> (0 <= s)%Q ->
  (Spec.clamp (F64.mul rnd (F64.mul rnd b1 c1) s) 0.0 1.0
   <= Spec.clamp (F64.mul rnd (F64.mul rnd b2 c2) s) 0.0 1.0)%Q.
Proof using rnd_faithful.
  intros Hb [Hc1 Hc] Hs.
  destruct (Qlt_le_dec b1 0) as [Hneg|Hpos].
  - assert (E : (Spec.clamp (F64.mul rnd (F64.mul rnd b1 c1) s) 0.0 1.0
                 == 0)%Q).
    { apply clamp_nonpositive. apply mul_nonpos; [|exact Hs].
      apply mul_nonpos; [lra | exact Hc1]. }
    rewrite E. apply clamp_range.
  - apply clamp_monotone. apply mul_le_r; [exact Hs|].
    apply Qle_trans with (F64.mul rnd b1 c2).
    + apply mul_le_l; assumption.
    + apply mul_le_r; [lra | exact Hb].
Qed.

Lemma scaled_f64_eq (b1 b2 c1 c2 s : Q) :
  (b1 == b2)%Q -> (c1 == c2)%Q ->
  (Spec.clamp (F64.mul rnd (F64.mul rnd b1 c1) s) 0.0 1.0
   == Spec.clamp (F64.mul rnd (F64.mul rnd b2 c2) s) 0.0 1.0)%Q.
Proof using rnd_faithful.
  intros Hb Hc. apply clamp_proper. unfold F64.mul.
  apply rnd_eq. apply Qmult_comp; [|reflexivity].
  apply rnd_eq. now apply Qmult_comp.
Qed.

Lemma maximum_max_of (first : SearchResult) (rest : list SearchResult) :
  (max_of (score first) (List.map score rest)
   == Spec.maximum (List.map score (first :: rest)))%Q.
Proof. apply max_of_maximum. Qed.

(** The estimator on two result lists whose averages, as computed, are
    the same: it follows the maximum and the number of results. *)
Lemma calculate_confidence_le (rs1 rs2 : list SearchResult) (tag : string) :
  let scores1 := List.map score rs1 in
  let scores2 := List.map score rs2 in
  (Spec.mean_f64 rnd scores1 == Spec.mean_f64 rnd scores2)%Q ->
  (Spec.maximum scores1 <= Spec.maximum scores2)%Q ->
  (List.length rs1 <= List.length rs2)%nat ->
  (SupportAgent._calculate_confidence rnd rs1 tag
   <= SupportAgent._calculate_confidence rnd rs2 tag)%Q.
Proof using rnd_faithful.
  intros scores1 scores2 Hmean Hmax Hlen.
  destruct rs2 as [|f2 r2].
  { destruct rs1; [apply Qle_refl | simpl in Hlen; lia]. }
  rewrite (calculate_confidence_f64 rnd f2 r2).
  destruct rs1 as [|f1 r1].
  { unfold Spec.confidence_f64.
    apply Qle_trans with 0%Q; [simpl; lra | apply clamp_range]. }
  rewrite (calculate_confidence_f64 rnd f1 r1).
  unfold Spec.confidence_f64.
  apply scaled_f64_le.
  - apply Qle_trans
      with (Spec.base_f64 rnd (max_of (score f1) (List.map score r1))
              (Spec.mean_f64 rnd (List.map score (f2 :: r2)))).
    + apply Qle_lteq. right. apply base_f64_eq; [reflexivity | exact Hmean].
    + apply base_f64_le. rewrite !maximum_max_of. exact Hmax.
  - split; [apply count_factor_f64_range|].
    apply count_factor_f64_monotone. now rewrite !length_map.
  - apply strategy_factor_f64_nonneg.
Qed.

Lemma calculate_confidence_flat (rs1 rs2 : list SearchResult) (tag : string) :
  let scores1 := List.map score rs1 in
  let scores2 := List.map score rs2 in
  (Spec.mean_f64 rnd scores1 == Spec.mean_f64 rnd scores2)%Q ->
  (Spec.maximum scores1 == Spec.maximum scores2)%Q ->
  (3 <= List.length rs1)%nat -> (3 <= List.length rs2)%nat ->
  (SupportAgent._calculate_confidence rnd rs1 tag
   == SupportAgent._calculate_confidence rnd rs2 tag)%Q.
Proof using rnd_faithful.
  intros scores1 scores2 Hmean Hmax H1 H2.
  destruct rs1 as [|f1 r1]; [simpl in H1; lia|].
  destruct rs2 as [|f2 r2]; [simpl in H2; lia|].
  rewrite (calculate_confidence_f64 rnd f1 r1).
  rewrite (calculate_confidence_f64 rnd f2 r2).
  unfold Spec.confidence_f64.
  apply scaled_f64_eq.
  - apply base_f64_eq; [|exact Hmean]. rewrite !maximum_max_of. exact Hmax.
  - rewrite !count_factor_f64_saturates; [reflexivity| |];
      rewrite length_map; assumption.
Qed.

End Rounded.

(** C1.  For a non-empty result sequence the confidence estimator
    returns clamp((0.6 * max(score) + 0.4 * mean(score))
    * min(len / 3.0, 1.0) * strategy_factor, 0.0, 1.0), where the factor is
    0.9 for faq_focus, 0.8 for manual_focus, 0.85 for balanced, 0.3 for
    error and 0.7 for every other tag; for the empty sequence it returns
    0.0 whatever the strategy.  The formula is evaluated as the code
    evaluates it: max(score) is a score of the sequence that no score
    exceeds, the mean is the sum of the scores, added in their order,
    divided by their number, and each literal and each operation is
    rounded by [rnd]; the equality is then exact, for every rounding. *)
Theorem calculate_confidence_formula (rnd : Q -> Q) :
  (forall (first : SearchResult) (rest : list SearchResult) (tag : string),
      let results := first :: rest in
      let scores := List.map score results in
      exists max_score : Q,
        In max_score scores
        /\ Forall (fun s => (s <= max_score)%Q) scores
        /\ SupportAgent._calculate_confidence rnd results tag
           = Spec.clamp
               (F64.mul rnd
                  (F64.mul rnd
                     (F64.add rnd (F64.mul rnd (rnd 0.6%Q) max_score)
                        (F64.mul rnd (rnd 0.4%Q)
                           (F64.div rnd (F64.sum rnd scores)
                              (inject_Z (len results)))))
                     (Qmin (F64.div rnd (inject_Z (len results)) 3.0) 1.0))
                  (Spec.strategy_factor_f64 rnd tag))
               0.0 1.0)
  /\ (forall tag : string,
        SupportAgent._calculate_confidence rnd [] tag = 0.0%Q)
  /\ Spec.strategy_factor_f64 rnd "faq_focus" = rnd 0.9%Q
  /\ Spec.strategy_factor_f64 rnd "manual_focus" = rnd 0.8%Q
  /\ Spec.strategy_factor_f64 rnd "balanced" = rnd 0.85%Q
  /\ Spec.strategy_factor_f64 rnd "error" = rnd 0.3%Q
  /\ (forall tag : string,
        tag <> "faq_focus"%string -> tag <> "manual_focus"%string ->
        tag <> "balanced"%string -> tag <> "error"%string ->
        Spec.strategy_factor_f64 rnd tag = rnd 0.7%Q).
Proof.
  split; [|split; [|repeat split]].
  - intros first rest tag results scores.
    exists (max_of (score first) (List.map score rest)).
    split; [apply (max_of_In (score first) (List.map score rest))|].
    split; [apply (max_of_upper (score first) (List.map score rest))|].
    unfold results. rewrite calculate_confidence_f64.
    unfold Spec.confidence_f64, Spec.mean_f64, Spec.count_factor_f64, len.
    now rewrite length_map.
  - reflexivity.
  - intros tag H1 H2 H3 H4. unfold Spec.strategy_factor_f64.
    apply String.eqb_neq in H1, H2, H3, H4.
    now rewrite H1, H2, H3, H4.
Qed.

(** C9.  With the average score, as the estimator computes it from the
    scores in their order, and the strategy held fixed, the confidence
    does not decrease when max(score) grows at equal result count, and
    does not decrease when the result count grows at equal max(score);
    the count factor min(len / 3.0, 1.0) is 1 from three results on, so
    that two result sets of three or more results with the same maximum
    and the same computed average get the same confidence.  This holds
    for every rounding that keeps the order and keeps 0 and 1. *)
Theorem confidence_monotone (rnd : Q -> Q) (rs1 rs2 : list SearchResult)
    (tag : string) :
  let scores1 := List.map score rs1 in
  let scores2 := List.map score rs2 in
  F64.faithful rnd ->
  (Spec.mean_f64 rnd scores1 == Spec.mean_f64 rnd scores2)%Q ->
  (List.length rs1 = List.length rs2 ->
   (Spec.maximum scores1 <= Spec.maximum scores2)%Q ->
   (SupportAgent._calculate_confidence rnd rs1 tag <=
    SupportAgent._calculate_confidence rnd rs2 tag)%Q)
  /\ ((Spec.maximum scores1 == Spec.maximum scores2)%Q ->
      (List.length rs1 <= List.length rs2)%nat ->
      (SupportAgent._calculate_confidence rnd rs1 tag <=
       SupportAgent._calculate_confidence rnd rs2 tag)%Q)
  /\ ((Spec.maximum scores1 == Spec.maximum scores2)%Q ->
      (3 <= List.length rs1)%nat -> (3 <= List.length rs2)%nat ->
      (SupportAgent._calculate_confidence rnd rs1 tag ==
       SupportAgent._calculate_confidence rnd rs2 tag)%Q)
  /\ (forall n : nat, (3 <= n)%nat ->
        (min2 (F64.div rnd (inject_Z (Z.of_nat n)) 3.0) 1.0 == 1)%Q).
Proof.
  intros scores1 scores2 Hrnd Hmean.
  repeat split.
  - intros Hlen Hmax. apply calculate_confidence_le; trivial. lia.
  - intros Hmax Hlen. apply calculate_confidence_le; trivial.
    fold scores1 scores2. rewrite Hmax. apply Qle_refl.
  - intros Hmax H1 H2. now apply calculate_confidence_flat.
  - intros n Hn. rewrite min2_eq_Qmin.
    now apply (count_factor_f64_saturates rnd Hrnd).
Qed.

(** ** The strategy classifier *)

Lemma startswith_spec (p s : pystr) :
  startswith p s = true <-> exists post, s = p ++ post.
Proof.
  revert s. induction p as [|a p IH]; intros s; simpl.
  - split; [intros _; now exists s | reflexivity].
  - destruct s as [|b s].
    + split; [discriminate | intros [post H]; discriminate].
    + rewrite andb_true_iff, N.eqb_eq, IH. split.
      * intros [-> [post ->]]. now exists post.
      * intros [post H]. injection H as -> ->. split; [reflexivity|now exists
          post].
Qed.

(** [contains p s] holds exactly when [p] is a substring of [s]. *)
Lemma contains_spec (p s : pystr) :
  contains p s = true <-> exists pre post, s = pre ++ p ++ post.
Proof.
  induction s as [|b s IH].
  - simpl. rewrite orb_false_r, startswith_spec. split.
    + intros [post H]. now exists [], post.
    + intros [pre [post H]]. destruct pre as [|c pre]; [|discriminate].
      now exists post.
  - cbn [contains]. rewrite orb_true_iff, startswith_spec, IH. split.
    + intros [[post H] | [pre [post H]]].
      * now exists [], post.
      * exists (b :: pre), post. simpl. now rewrite H.
    + intros [pre [post H]]. destruct pre as [|c pre].
      * left. now exists post.
      * right. simpl in H. injection H as _ H. now exists pre, post.
Qed.

Lemma sum_Z_ones {A : Type} (l : list A) :
  sum_Z (List.map (fun _ => 1) l) = Z.of_nat (List.length l).
Proof.
  unfold sum_Z.
  assert (H : forall acc, fold_left Z.add (List.map (fun _ : A => 1) l) acc
                          = acc + Z.of_nat (List.length l)).
  { induction l as [|x l IH]; intros acc; simpl List.length; simpl fold_left.
    - lia.
    - rewrite IH. lia. }
  now rewrite H.
Qed.

Lemma determine_search_strategy_classify (lower : pystr -> pystr)
    (q : pystr) (context : pydict) :
  UnifiedSearchEngine._determine_search_strategy lower (PStr q) context
  = Ok (Spec.classify UnifiedSearchEngine.faq_keywords
          UnifiedSearchEngine.manual_keywords (lower q)).
Proof.
  unfold UnifiedSearchEngine._determine_search_strategy, Spec.classify.
  rewrite !sum_Z_ones. fold (Spec.hits UnifiedSearchEngine.faq_keywords (lower
      q)).
  fold (Spec.hits UnifiedSearchEngine.manual_keywords (lower q)).
  set (f := Spec.hits _ _). set (m := Spec.hits _ _).
  destruct (Z.gtb_spec (Z.of_nat f) (Z.of_nat m)) as [H|H];
    destruct (Nat.ltb_spec m f) as [H'|H']; try lia; [reflexivity|].
  destruct (Z.gtb_spec (Z.of_nat m) (Z.of_nat f)) as [H2|H2];
    destruct (Nat.ltb_spec f m) as [H2'|H2']; try lia; reflexivity.
Qed.

(** C3, as the code has it.  The classifier lower-cases the query, counts
    how many keywords of the FAQ table and of the Manual table occur in it
    as substrings, and answers faq_focus exactly when the FAQ count is the
    larger, manual_focus exactly when the Manual count is the larger and
    balanced exactly on a tie.  The FAQ table holds the nine keywords that
    the specification lists and, in fourth place, the keyword "cannot";
    the Manual table is the listed one.  The answer depends on the query
    text alone: the context argument plays no part. *)
Theorem determine_search_strategy_spec (lower : pystr -> pystr)
    (q : pystr) (context : pydict) :
  let faq_count := Spec.hits UnifiedSearchEngine.faq_keywords (lower q) in
  let manual_count := Spec.hits UnifiedSearchEngine.manual_keywords (lower q) in
  let answer :=
    UnifiedSearchEngine._determine_search_strategy lower (PStr q) context in
  ((manual_count < faq_count)%nat <-> answer = Ok "faq_focus"%string)
  /\ ((faq_count < manual_count)%nat <-> answer = Ok "manual_focus"%string)
  /\ (faq_count = manual_count <-> answer = Ok "balanced"%string)
  /\ UnifiedSearchEngine.faq_keywords
     = firstn 3 Spec.listed_faq_keywords ++ [u "できない"]
       ++ skipn 3 Spec.listed_faq_keywords
  /\ UnifiedSearchEngine.manual_keywords = Spec.listed_manual_keywords
  /\ (forall context' : pydict,
        UnifiedSearchEngine._determine_search_strategy lower (PStr q) context'
        = answer).
Proof.
  intros faq_count manual_count answer. subst answer.
  rewrite determine_search_strategy_classify.
  unfold Spec.classify. fold faq_count manual_count.
  repeat split.
  - intros H. apply Nat.ltb_lt in H. now rewrite H.
  - destruct (Nat.ltb_spec manual_count faq_count); [trivial|].
    destruct (manual_count <? faq_count)%nat eqn:E; [apply Nat.ltb_lt in E;
        lia|].
    destruct (faq_count <? manual_count)%nat; discriminate.
  - intros H.
    destruct (Nat.ltb_spec manual_count faq_count); [lia|].
    apply Nat.ltb_lt in H. now rewrite H.
  - destruct (Nat.ltb_spec manual_count faq_count); [discriminate|].
    destruct (Nat.ltb_spec faq_count manual_count); [trivial|discriminate].
  - intros H. rewrite H, Nat.ltb_irrefl. reflexivity.
  - destruct (Nat.ltb_spec manual_count faq_count); [discriminate|].
    destruct (Nat.ltb_spec faq_count manual_count); [discriminate|lia].
  - intros context'. apply determine_search_strategy_classify.
Qed.

(** C3 as stated fails: with the nine listed FAQ keywords the query
    "印刷できない" would be a tie, but the code counts the keyword
    "できない" and answers faq_focus. *)
Lemma determine_search_strategy_listed_keywords_differ :
  UnifiedSearchEngine._determine_search_strategy ascii_lower
    (PStr (u "印刷できない")) ∅ = Ok "faq_focus"%string
  /\ Spec.classify Spec.listed_faq_keywords Spec.listed_manual_keywords
       (ascii_lower (u "印刷できない")) = "balanced"%string.
Proof. split; vm_compute; reflexivity. Qed.

(** ** The stable descending sort *)

Section SortFacts.

Context {A : Type} (key : A -> Q).

Abbreviation desc := (Spec.desc key).
Abbreviation tied := (Spec.tied key).

Lemma insert_desc_perm (x : A) (l : list A) :
  Permutation (insert_desc key x l) (x :: l).
Proof.
  induction l as [|y l IH]; simpl.
  - reflexivity.
  - destruct (Qltb (key x) (key y)).
    + rewrite IH. apply perm_swap.
    + reflexivity.
Qed.

Lemma sort_reverse_perm (l : list A) : Permutation (sort_reverse key l) l.
Proof.
  induction l as [|x l IH]; simpl.
  - reflexivity.
  - rewrite insert_desc_perm. now rewrite IH.
Qed.

Lemma insert_desc_sorted (x : A) (l : list A) :
  StronglySorted desc l -> StronglySorted desc (insert_desc key x l).
Proof.
  induction l as [|y l IH]; intros Hs; simpl.
  - repeat constructor.
  - inversion Hs as [|? ? Hl Hy]; subst.
    destruct (Qltb (key x) (key y)) eqn:E.
    + apply Qltb_true in E. constructor; [now apply IH|].
      apply List.Forall_forall. intros z Hz.
      apply (Permutation_in _ (insert_desc_perm x l)) in Hz.
      destruct Hz as [<-|Hz].
      * unfold Spec.desc. lra.
      * rewrite List.Forall_forall in Hy. now apply Hy.
    + apply Qltb_false in E. constructor; [exact Hs|].
      constructor; [exact E|].
      eapply Forall_impl; [exact Hy|].
      intros z Hz. unfold Spec.desc in *. lra.
Qed.

Lemma sort_reverse_sorted (l : list A) : StronglySorted desc (sort_reverse key
    l).
Proof.
  induction l as [|x l IH]; simpl.
  - constructor.
  - now apply insert_desc_sorted.
Qed.

Lemma insert_desc_tied (q : Q) (x : A) (l : list A) :
  List.filter (tied q) (insert_desc key x l) = List.filter (tied q) (x :: l).
Proof.
  induction l as [|y l IH]; [reflexivity|].
  cbn [insert_desc]. destruct (Qltb (key x) (key y)) eqn:E; [|reflexivity].
  apply Qltb_true in E.
  cbn [List.filter] in *. rewrite IH.
  destruct (tied q x) eqn:Ex, (tied q y) eqn:Ey; try reflexivity.
  unfold Spec.tied in Ex, Ey. apply Qeq_bool_iff in Ex, Ey. lra.
Qed.

(** Stability: among the elements of one key the order is unchanged. *)
Lemma sort_reverse_stable (q : Q) (l : list A) :
  List.filter (tied q) (sort_reverse key l) = List.filter (tied q) l.
Proof.
  induction l as [|x l IH]; [reflexivity|].
  cbn [sort_reverse]. rewrite insert_desc_tied.
  cbn [List.filter]. now rewrite IH.
Qed.

Lemma firstn_sorted (n : nat) (l : list A) :
  StronglySorted desc l -> StronglySorted desc (firstn n l).
Proof.
  revert n. induction l as [|x l IH]; intros n Hs.
  - now rewrite firstn_nil.
  - destruct n as [|n]; [constructor|].
    inversion Hs as [|? ? Hl Hx]; subst. simpl. constructor; [now apply IH|].
    apply List.Forall_forall. intros z Hz.
    rewrite List.Forall_forall in Hx. apply Hx.
    rewrite <- (firstn_skipn n l). apply in_or_app. now left.
Qed.

End SortFacts.

Lemma slice_to_nonneg {A : Type} (l : list A) (n : Z) :
  0 <= n -> slice_to l n = firstn (Z.to_nat n) l.
Proof.
  intros H. unfold slice_to.
  destruct (Z.leb_spec 0 n); [reflexivity|lia].
Qed.

Lemma slice_to_length {A : Type} (l : list A) (n : Z) :
  0 <= n -> len (slice_to l n) <= n.
Proof.
  intros H. rewrite slice_to_nonneg by exact H.
  unfold len. rewrite length_firstn. lia.
Qed.

(** ** The fusion engine *)

Section Fusion.

Variable lower : pystr -> pystr.
Variable search_faq : pyobj -> option Z -> option Q -> result (list
    SearchResult).
Variable search_manual : pyobj -> option Z -> option Q -> result (list
    SearchResult).

Abbreviation search_all :=
  (UnifiedSearchEngine.search_all search_faq search_manual).
Abbreviation search_all_body :=
  (UnifiedSearchEngine.search_all_body search_faq search_manual).
Abbreviation search_ranked :=
  (UnifiedSearchEngine.search_ranked search_faq search_manual).
Abbreviation smart_search :=
  (UnifiedSearchEngine.smart_search lower search_faq search_manual).
Abbreviation smart_search_body :=
  (UnifiedSearchEngine.smart_search_body lower search_faq search_manual).
Abbreviation _determine_search_strategy :=
  (UnifiedSearchEngine._determine_search_strategy lower).

Lemma search_all_body_ok (query : pyobj) (n : Z) (min_score : option Q) :
  search_all_body query n min_score =
  Ok (<["manual" := try_except (search_manual query (Some n) min_score) []]>
      (<["faq" := try_except (search_faq query (Some n) min_score) []]> ∅)).
Proof.
  unfold UnifiedSearchEngine.search_all_body, UnifiedSearchEngine.empty_results.
  destruct (search_faq query (Some n) min_score) as [faq|e1];
    destruct (search_manual query (Some n) min_score) as [manual|e2];
    cbn [try_except]; unfold getitem; simplify_map_eq; cbn [bind];
    f_equal; apply map_eq; intros k;
    (destruct (decide (k = "manual")) as [->|?];
     [|destruct (decide (k = "faq")) as [->|?]]); now simplify_map_eq.
Qed.

Lemma search_all_eq (query : pyobj) (n : Z) (min_score : option Q) :
  search_all query n min_score =
  <["manual" := try_except (search_manual query (Some n) min_score) []]>
    (<["faq" := try_except (search_faq query (Some n) min_score) []]> ∅).
Proof.
  unfold UnifiedSearchEngine.search_all. now rewrite search_all_body_ok.
Qed.

Lemma search_all_faq (query : pyobj) (n : Z) (min_score : option Q) :
  search_all query n min_score !! "faq"
  = Some (try_except (search_faq query (Some n) min_score) []).
Proof.
  rewrite search_all_eq. now rewrite lookup_insert_ne, lookup_insert_eq by done.
Qed.

Lemma search_all_manual (query : pyobj) (n : Z) (min_score : option Q) :
  search_all query n min_score !! "manual"
  = Some (try_except (search_manual query (Some n) min_score) []).
Proof.
  rewrite search_all_eq. now rewrite lookup_insert_eq.
Qed.

(** C7.  Whatever the two adapters do, the body of [search_all] does not
    raise, so the outer handler is never needed; an adapter that raises
    leaves the empty list under its key and the other adapter's results
    are returned as they came; the returned dictionary has exactly the
    keys 'faq' and 'manual'. *)
Theorem search_all_never_raises (query : pyobj) (n : Z) (min_score : option Q) :
  let found := search_all query n min_score in
  search_all_body query n min_score = Ok found
  /\ found !! "faq"
     = Some (match search_faq query (Some n) min_score with
             | Ok faq_results => faq_results
             | Raise _ => []
             end)
  /\ found !! "manual"
     = Some (match search_manual query (Some n) min_score with
             | Ok manual_results => manual_results
             | Raise _ => []
             end)
  /\ dom found = {["faq"; "manual"]}.
Proof.
  intros found. subst found. repeat split.
  - rewrite search_all_body_ok, search_all_eq. reflexivity.
  - apply search_all_faq.
  - apply search_all_manual.
  - rewrite search_all_eq. rewrite !dom_insert_L, dom_empty_L. set_solver.
Qed.

Lemma search_ranked_eq (query : pyobj) (n : Z) (min_score : option Q) :
  search_ranked query n min_score =
  slice_to
    (sort_reverse score
       (try_except (search_faq query (Some n) min_score) []
        ++ try_except (search_manual query (Some n) min_score) []))
    n.
Proof.
  unfold UnifiedSearchEngine.search_ranked,
    UnifiedSearchEngine.search_ranked_body, getitem.
  now rewrite search_all_faq, search_all_manual.
Qed.

(** C4, for a non-negative bound.  [search_ranked] asks [search_all] for up
    to [max_total_results] per source, puts the FAQ results before the
    Manual results, sorts by score, largest first, leaving results of
    equal score in that order, and keeps the first [max_total_results]
    of them. *)
Theorem search_ranked_spec (query : pyobj) (max_total_results : Z)
    (min_score : option Q) :
  0 <= max_total_results ->
  let found := search_all query max_total_results min_score in
  let faq := match search_faq query (Some max_total_results) min_score with
             | Ok faq_results => faq_results
             | Raise _ => []
             end in
  let manual :=
    match search_manual query (Some max_total_results) min_score with
    | Ok manual_results => manual_results
    | Raise _ => []
    end in
  let sorted := sort_reverse score (faq ++ manual) in
  let ranked := search_ranked query max_total_results min_score in
  found !! "faq" = Some faq
  /\ found !! "manual" = Some manual
  /\ Permutation sorted (faq ++ manual)
  /\ StronglySorted (Spec.desc score) sorted
  /\ (forall s : Q,
        List.filter (Spec.tied score s) sorted
        = List.filter (Spec.tied score s) faq
          ++ List.filter (Spec.tied score s) manual)
  /\ ranked = firstn (Z.to_nat max_total_results) sorted
  /\ StronglySorted (Spec.desc score) ranked
  /\ len ranked <= max_total_results.
Proof.
  intros Hn found faq manual sorted ranked.
  subst found ranked sorted.
  rewrite search_all_faq, search_all_manual, search_ranked_eq.
  change (try_except (search_faq query (Some max_total_results) min_score) [])
    with faq.
  change (try_except (search_manual query (Some max_total_results) min_score)
      [])
    with manual.
  split; [reflexivity|]. split; [reflexivity|].
  split; [apply sort_reverse_perm|].
  split; [apply sort_reverse_sorted|].
  split; [intros s; now rewrite sort_reverse_stable, List.filter_app|].
  split; [now apply slice_to_nonneg|].
  split; [|now apply slice_to_length].
  rewrite slice_to_nonneg by exact Hn.
  apply firstn_sorted, sort_reverse_sorted.
Qed.

Lemma determine_search_strategy_tags (query : pyobj) (context : pydict)
    (tag : string) :
  _determine_search_strategy query context = Ok tag ->
  tag = "faq_focus"%string \/ tag = "manual_focus"%string
  \/ tag = "balanced"%string.
Proof.
  unfold UnifiedSearchEngine._determine_search_strategy.
  destruct query; try discriminate.
  repeat match goal with |- context [if ?b then _ else _] => destruct b end;
    intros [= <-]; auto.
Qed.

(** C2.  When the classifier answers faq_focus, [smart_search] asks each
    source for up to 4 results and returns the first 3 FAQ results
    followed by the first 2 Manual results; when it answers manual_focus,
    the first 3 Manual results followed by the first 2 FAQ results; when
    it answers balanced, the output of [search_ranked] with a cap of 5.
    The classifier has no other answer.  When the body raises, the result
    is the empty list with the tag "error". *)
Theorem smart_search_spec (query : pyobj) (context : option pydict) :
  let context' := match context with Some c => c | None => ∅ end in
  let faq4 := match search_faq query (Some 4) None with
              | Ok faq_results => faq_results
              | Raise _ => []
              end in
  let manual4 := match search_manual query (Some 4) None with
                 | Ok manual_results => manual_results
                 | Raise _ => []
                 end in
  (_determine_search_strategy query context' = Ok "faq_focus"%string ->
   smart_search query context
   = (firstn 3 faq4 ++ firstn 2 manual4, "faq_focus"%string))
  /\ (_determine_search_strategy query context' = Ok "manual_focus"%string ->
      smart_search query context
      = (firstn 3 manual4 ++ firstn 2 faq4, "manual_focus"%string))
  /\ (_determine_search_strategy query context' = Ok "balanced"%string ->
      smart_search query context
      = (search_ranked query 5 None, "balanced"%string))
  /\ (forall tag : string,
        _determine_search_strategy query context' = Ok tag ->
        tag = "faq_focus"%string \/ tag = "manual_focus"%string
        \/ tag = "balanced"%string)
  /\ (raises (smart_search_body query context) = true ->
      smart_search query context = ([], "error"%string))
  /\ (raises (_determine_search_strategy query context') = true ->
      raises (smart_search_body query context) = true).
Proof.
  intros context' faq4 manual4.
  unfold UnifiedSearchEngine.smart_search,
    UnifiedSearchEngine.smart_search_body.
  fold context'. unfold getitem.
  rewrite search_all_faq, search_all_manual. cbn [bind].
  repeat split.
  - intros ->. reflexivity.
  - intros ->. reflexivity.
  - intros ->. reflexivity.
  - apply determine_search_strategy_tags.
  - destruct (_determine_search_strategy query context') as [tag|e];
      cbn [bind]; [|reflexivity].
    repeat match goal with |- context [if ?b then _ else _] => destruct b end;
      discriminate.
  - destruct (_determine_search_strategy query context'); [discriminate|].
    reflexivity.
Qed.

End Fusion.

(** ** The search adapters *)

(** What the two adapters share: the loop over the rows of the index
    response, up to the way a result is built from a row. *)
Section CollectFacts.

Variable rnd : Q -> Q.

Variable build : pystr -> pydict -> Q -> result SearchResult.
Variable collect : Q -> list (pystr * pydict * Q) -> result (list SearchResult).

Hypothesis collect_nil : forall min_score, collect min_score [] = Ok [].
Hypothesis collect_cons :
  forall min_score doc metadata distance rest,
    collect min_score ((doc, metadata, distance) :: rest) =
    if Qle_bool min_score (max2 0 (F64.sub rnd 1 distance))
    then Py.bind (build doc metadata distance)
           (fun r => Py.bind (collect min_score rest)
                       (fun rs => Ok (r :: rs)))
    else collect min_score rest.
Hypothesis build_sound :
  forall doc metadata distance r,
    build doc metadata distance = Ok r ->
    score r = max2 0 (F64.sub rnd 1 distance)
    /\ original_distance r = Some distance
    /\ (0 <= score r <= 1)%Q.

(** A row passes the threshold. *)
Abbreviation kept min_score :=
  (fun row : pystr * pydict * Q => Qle_bool min_score (max2 0 (F64.sub rnd 1
      (snd row)))).

(** A result was built from a row. *)
Abbreviation built_from :=
  (fun (r : SearchResult) (row : pystr * pydict * Q) =>
     score r = max2 0 (F64.sub rnd 1 (snd row)) /\ original_distance r = Some
         (snd row)).

Lemma collect_rows (min_score : Q) (rows : list (pystr * pydict * Q))
    (rs : list SearchResult) :
  collect min_score rows = Ok rs ->
  Forall2 built_from rs (List.filter (kept min_score) rows)
  /\ Forall (fun r => (0 <= score r <= 1)%Q) rs
  /\ Forall (fun r => (min_score <= score r)%Q) rs
  /\ Forall (fun r => exists d, original_distance r = Some d
                                /\ score r = max2 0 (F64.sub rnd 1 d)) rs.
Proof using collect_nil collect_cons build_sound.
  revert rs. induction rows as [|[[doc metadata] distance] rows IH]; intros rs
      H.
  - rewrite collect_nil in H. injection H as <-. repeat constructor.
  - rewrite collect_cons in H. cbn [List.filter snd].
    destruct (Qle_bool min_score (max2 0 (F64.sub rnd 1 distance))) eqn:E.
    + destruct (build doc metadata distance) as [r|e] eqn:B; [|discriminate].
      cbn [Py.bind] in H.
      destruct (collect min_score rows) as [rs'|e] eqn:C; [|discriminate].
      cbn [Py.bind] in H. injection H as <-.
      destruct (IH rs' eq_refl) as (H1 & H2 & H3 & H4).
      destruct (build_sound _ _ _ _ B) as (S1 & S2 & S3).
      repeat split; constructor; eauto.
      rewrite S1. now apply Qle_bool_iff.
    + now apply IH.
Qed.

Lemma collect_below_threshold (min_score : Q)
    (rows : list (pystr * pydict * Q)) :
  Forall (fun row => (max2 0 (F64.sub rnd 1 (snd row)) < min_score)%Q) rows ->
  collect min_score rows = Ok [].
Proof using collect_nil collect_cons.
  induction 1 as [|[[doc metadata] distance] rows Hlt _ IH].
  - apply collect_nil.
  - rewrite collect_cons. cbn [snd] in Hlt.
    destruct (Qle_bool min_score (max2 0 (F64.sub rnd 1 distance))) eqn:E;
        [|exact IH].
    apply Qle_bool_iff in E. lra.
Qed.

Lemma collect_total (min_score : Q) (rows : list (pystr * pydict * Q)) :
  Forall (fun row => exists r, build (fst (fst row)) (snd (fst row)) (snd row)
                               = Ok r)
         (List.filter (kept min_score) rows) ->
  exists rs, collect min_score rows = Ok rs.
Proof using collect_nil collect_cons.
  induction rows as [|[[doc metadata] distance] rows IH]; intros H.
  - exists []. apply collect_nil.
  - rewrite collect_cons. cbn [List.filter snd] in H.
    destruct (Qle_bool min_score (max2 0 (F64.sub rnd 1 distance))) eqn:E.
    + inversion H as [|? ? [r Hr] Hrest]; subst. cbn [fst snd] in Hr.
      destruct (IH Hrest) as [rs Hrs].
      exists (r :: rs). now rewrite Hr, Hrs.
    + now apply IH.
Qed.

End CollectFacts.

Lemma Qle_bool_max2 (rnd : Q -> Q) (min_score distance : Q) :
  Qle_bool min_score (max2 0 (F64.sub rnd 1 distance))
  = Qle_bool min_score (Spec.similarity rnd distance).
Proof.
  unfold Spec.similarity.
  assert (E := max2_Qmax 0 (F64.sub rnd 1 distance)).
  destruct (Qle_bool min_score (Qmax 0 (F64.sub rnd 1 distance))) eqn:H.
  - apply Qle_bool_iff in H. apply Qle_bool_iff. now rewrite E.
  - destruct (Qle_bool min_score (max2 0 (F64.sub rnd 1 distance))) eqn:H';
      [|reflexivity].
    apply Qle_bool_iff in H'. rewrite E in H'. apply Qle_bool_iff in H'.
    congruence.
Qed.

Lemma sorted_Forall {A : Type} (key : A -> Q) (P : A -> Prop) (l : list A) :
  Forall P l -> Forall P (sort_reverse key l).
Proof.
  intros H. apply List.Forall_forall. intros x Hx.
  rewrite List.Forall_forall in H. apply H.
  now apply (Permutation_in _ (sort_reverse_perm key l)).
Qed.

(** What the two [_process_search_results] share. *)
Section ProcessFacts.

Variable rnd : Q -> Q.

Variable build : pystr -> pydict -> Q -> result SearchResult.
Variable collect : Q -> list (pystr * pydict * Q) -> result (list SearchResult).
Variable process : QueryResult -> Q -> result (list SearchResult).

Hypothesis collect_nil : forall min_score, collect min_score [] = Ok [].
Hypothesis collect_cons :
  forall min_score doc metadata distance rest,
    collect min_score ((doc, metadata, distance) :: rest) =
    if Qle_bool min_score (max2 0 (F64.sub rnd 1 distance))
    then Py.bind (build doc metadata distance)
           (fun r => Py.bind (collect min_score rest)
                       (fun rs => Ok (r :: rs)))
    else collect min_score rest.
Hypothesis build_sound :
  forall doc metadata distance r,
    build doc metadata distance = Ok r ->
    score r = max2 0 (F64.sub rnd 1 distance)
    /\ original_distance r = Some distance
    /\ (0 <= score r <= 1)%Q.
Hypothesis process_def :
  forall raw min_score,
    process raw min_score =
    match documents raw with
    | [] => Ok []
    | [] :: _ => Ok []
    | docs :: _ =>
        Py.bind (index0 (metadatas raw)) (fun metas =>
        Py.bind (index0 (distances raw)) (fun dists =>
        Py.bind (collect min_score (zip3 docs metas dists)) (fun rs =>
        Ok (sort_reverse score rs))))
    end.

Lemma process_sound (raw : QueryResult) (min_score : Q)
    (rs : list SearchResult) :
  process raw min_score = Ok rs ->
  Spec.answers_rows rnd min_score (Spec.rows raw) rs
  /\ Spec.well_scored rnd min_score rs.
Proof using collect_nil collect_cons build_sound process_def.
  rewrite process_def. unfold Spec.rows, Spec.answers_rows, Spec.well_scored.
  assert (Hnil : forall l, @zip3 pystr pydict Q [] l (hd [] (distances raw)) =
      [])
    by reflexivity.
  destruct (documents raw) as [|[|doc docs] ?]; cbn [hd].
  1,2: intros [= <-]; rewrite ?Hnil;
    (split; [exists []; split; [constructor|reflexivity]
            |split; constructor]).
  destruct (metadatas raw) as [|metas ?]; [discriminate|].
  destruct (distances raw) as [|dists ?]; [discriminate|].
  cbn [index0 Py.bind hd].
  destruct (collect min_score (zip3 (doc :: docs) metas dists)) as [cs|e] eqn:C;
    [|discriminate].
  cbn [Py.bind]. intros [= <-].
  destruct (collect_rows rnd build collect collect_nil collect_cons build_sound
              _ _ _ C) as (H1 & H2 & H3 & H4).
  split.
  - exists cs. split; [|reflexivity].
    erewrite List.filter_ext; [|intros row; symmetry; apply Qle_bool_max2].
    eapply Forall2_impl; [exact H1|].
    intros r row [S1 S2]. split; [|exact S2].
    rewrite S1. apply max2_Qmax.
  - split; [|apply sort_reverse_sorted].
    apply sorted_Forall.
    apply List.Forall_forall. intros r Hr.
    rewrite List.Forall_forall in H2, H3, H4.
    repeat split; try (now apply H2); try (now apply H3).
    destruct (H4 r Hr) as (d & D1 & D2).
    exists d. split; [exact D1|]. rewrite D2. apply max2_Qmax.
Qed.

Lemma process_below_threshold (raw : QueryResult) (min_score : Q) :
  length (metadatas raw) = length (documents raw) ->
  length (distances raw) = length (documents raw) ->
  Forall (fun row => (Spec.similarity rnd (snd row) < min_score)%Q)
    (Spec.rows raw) ->
  process raw min_score = Ok [].
Proof using collect_nil collect_cons process_def.
  intros Hm Hd Hlow. rewrite process_def. unfold Spec.rows in Hlow.
  destruct (documents raw) as [|[|doc docs] ?]; try reflexivity.
  destruct (metadatas raw) as [|metas ?]; [discriminate|].
  destruct (distances raw) as [|dists ?]; [discriminate|].
  cbn [index0 Py.bind hd] in *.
  rewrite (collect_below_threshold rnd build collect collect_nil collect_cons).
  - reflexivity.
  - eapply Forall_impl; [exact Hlow|].
    intros row Hrow. cbn beta in Hrow. unfold Spec.similarity in Hrow.
    now rewrite max2_Qmax.
Qed.

Lemma process_total (raw : QueryResult) (min_score : Q) :
  length (metadatas raw) = length (documents raw) ->
  length (distances raw) = length (documents raw) ->
  Forall (fun row => exists r, build (fst (fst row)) (snd (fst row)) (snd row)
                               = Ok r)
    (Spec.rows raw) ->
  exists rs, process raw min_score = Ok rs.
Proof using collect_nil collect_cons process_def.
  intros Hm Hd Hb. rewrite process_def. unfold Spec.rows in Hb.
  destruct (documents raw) as [|[|doc docs] ?]; try (now exists []).
  destruct (metadatas raw) as [|metas ?]; [discriminate|].
  destruct (distances raw) as [|dists ?]; [discriminate|].
  cbn [index0 Py.bind hd] in *.
  destruct (collect_total rnd build collect collect_nil collect_cons min_score
              (zip3 (doc :: docs) metas dists)) as [cs Hcs].
  - apply List.Forall_forall. intros row Hrow.
    rewrite List.Forall_forall in Hb. apply Hb.
    now apply List.filter_In in Hrow.
  - exists (sort_reverse score cs). now rewrite Hcs.
Qed.

End ProcessFacts.

Lemma answers_rows_below_threshold (rnd : Q -> Q) (threshold : Q)
    (rows : list (pystr * pydict * Q)) (rs : list SearchResult) :
  Spec.answers_rows rnd threshold rows rs ->
  Forall (fun row => (Spec.similarity rnd (snd row) < threshold)%Q) rows ->
  rs = [].
Proof.
  intros (collected & Hc & ->) Hlow.
  assert (E : List.filter
                (fun row : pystr * pydict * Q =>
                   Qle_bool threshold (Spec.similarity rnd (snd row))) rows =
                       []).
  { clear Hc. induction Hlow as [|row rows Hrow _ IH]; [reflexivity|].
    cbn [List.filter].
    destruct (Qle_bool threshold (Spec.similarity rnd (snd row))) eqn:E; [|exact
        IH].
    apply Qle_bool_iff in E. lra. }
  rewrite E in Hc. inversion Hc. reflexivity.
Qed.

Lemma well_scored_nil (rnd : Q -> Q) (threshold : Q) :
  Spec.well_scored rnd threshold [].
Proof. split; constructor. Qed.

Lemma strip_blank (q : pystr) : forallb isspace q = true -> strip q = [].
Proof.
  intros H. unfold strip.
  assert (E : lstrip q = []).
  { induction q as [|c q IH]; [reflexivity|].
    cbn [forallb] in H. apply andb_true_iff in H as [Hc Hq].
    cbn [lstrip]. rewrite Hc. now apply IH. }
  now rewrite E.
Qed.

(** *** The FAQ adapter *)

Section FAQFacts.

Variable rnd : Q -> Q.

Variable config : Config.
Variable encode : list pystr -> result (list embedding).
Variable collection_query : list embedding -> Z -> string -> result QueryResult.
Variable format_value : pyobj -> pystr.

Abbreviation search_faq :=
  (FAQSearchEngine.search_faq rnd config encode collection_query format_value).
Abbreviation search_faq_body :=
  (FAQSearchEngine.search_faq_body rnd config encode collection_query
      format_value).
Abbreviation faq_process :=
  (FAQSearchEngine._process_search_results rnd format_value).
Abbreviation faq_build :=
  (fun doc metadata distance =>
     FAQSearchEngine.make_result format_value doc metadata distance
       (max2 0 (F64.sub rnd 1 distance))).

Lemma faq_build_sound (doc : pystr) (meta : pydict) (distance : Q)
    (r : SearchResult) :
  faq_build doc meta distance = Ok r ->
  score r = max2 0 (F64.sub rnd 1 distance)
  /\ original_distance r = Some distance
  /\ (0 <= score r <= 1)%Q.
Proof.
  unfold FAQSearchEngine.make_result, SearchResult_new.
  destruct (Qle_bool 0 (max2 0 (F64.sub rnd 1 distance))
            && Qle_bool (max2 0 (F64.sub rnd 1 distance)) 1) eqn:E;
                [|discriminate].
  intros [= <-]. apply andb_true_iff in E as [E1 E2].
  apply Qle_bool_iff in E1, E2.
  unfold original_distance. cbn [score metadata].
  now simplify_map_eq.
Qed.

Lemma similarity_le_1 (distance : Q) :
  F64.faithful rnd -> (0 <= distance)%Q ->
  Qle_bool 0 (max2 0 (F64.sub rnd 1 distance))
  && Qle_bool (max2 0 (F64.sub rnd 1 distance)) 1 = true.
Proof.
  intros Hrnd Hd.
  assert (Hs : (F64.sub rnd 1 distance <= 1)%Q)
    by (unfold F64.sub; apply (rnd_le_1 rnd Hrnd); lra).
  apply andb_true_iff. split; apply Qle_bool_iff;
    destruct (max2_cases 0 (F64.sub rnd 1 distance)) as [[? ->]|[? ->]]; lra.
Qed.

Lemma faq_build_total (doc : pystr) (metadata : pydict) (distance : Q) :
  F64.faithful rnd -> (0 <= distance)%Q ->
  exists r, faq_build doc metadata distance = Ok r.
Proof.
  intros Hrnd Hd. unfold FAQSearchEngine.make_result, SearchResult_new.
  rewrite (similarity_le_1 distance Hrnd Hd). eauto.
Qed.

Lemma faq_process_sound (raw : QueryResult) (min_score : Q)
    (rs : list SearchResult) :
  faq_process raw min_score = Ok rs ->
  Spec.answers_rows rnd min_score (Spec.rows raw) rs
  /\ Spec.well_scored rnd min_score rs.
Proof.
  apply (process_sound rnd faq_build (FAQSearchEngine.collect rnd format_value)
           faq_process); try reflexivity.
  apply faq_build_sound.
Qed.

Lemma faq_process_total (raw : QueryResult) (min_score : Q) :
  F64.faithful rnd ->
  length (metadatas raw) = length (documents raw) ->
  length (distances raw) = length (documents raw) ->
  Forall (fun row => (0 <= snd row)%Q) (Spec.rows raw) ->
  exists rs, faq_process raw min_score = Ok rs.
Proof.
  intros Hrnd Hm Hd Hpos.
  apply (process_total rnd faq_build (FAQSearchEngine.collect rnd format_value)
           faq_process); try reflexivity; trivial.
  eapply Forall_impl; [exact Hpos|].
  intros row Hrow. now apply faq_build_total.
Qed.

Lemma search_faq_run (q : pystr) (max_results : option Z)
    (min_score : option Q) (e : embedding) (vs : list embedding)
    (raw : QueryResult) :
  strip q <> [] ->
  encode [q] = Ok (e :: vs) ->
  collection_query [e] (or_int max_results (MAX_SEARCH_RESULTS config)) "faq"
  = Ok raw ->
  search_faq (PStr q) max_results min_score
  = ([Encode [q];
      Query [e] (or_int max_results (MAX_SEARCH_RESULTS config)) "faq"],
     try_except
       (faq_process raw (or_float min_score (SIMILARITY_THRESHOLD config)))
       []).
Proof.
  intros Hq He Hc.
  unfold FAQSearchEngine.search_faq, FAQSearchEngine.search_faq_body.
  destruct (strip q) as [|c s]; [congruence|].
  unfold etry, ebind, lift, eret. cbn [fst snd]. rewrite He. cbn [fst snd
      index0].
  rewrite Hc. cbn [fst snd].
  destruct (faq_process raw _); reflexivity.
Qed.

Lemma search_faq_outcome (query : pyobj) (max_results : option Z)
    (min_score : option Q) :
  snd (search_faq query max_results min_score) = []
  \/ exists raw,
      faq_process raw (or_float min_score (SIMILARITY_THRESHOLD config))
      = Ok (snd (search_faq query max_results min_score)).
Proof.
  unfold FAQSearchEngine.search_faq, FAQSearchEngine.search_faq_body.
  destruct query as [|q| |]; try (now left).
  destruct (strip q) as [|c s]; [now left|].
  unfold etry, ebind, lift, eret. cbn [fst snd].
  destruct (encode [q]) as [[|e vs]|err]; cbn [fst snd index0]; try (now left).
  destruct (collection_query [e] _ "faq") as [raw|err]; cbn [fst snd];
    try (now left).
  destruct (faq_process raw _) as [rs|err] eqn:P; cbn [fst snd try_except];
    try (now left).
  right. exists raw. exact P.
Qed.

Lemma search_faq_blank (q : pystr) (max_results : option Z)
    (min_score : option Q) :
  forallb isspace q = true ->
  search_faq_body (PStr q) max_results min_score = ([], Ok []).
Proof.
  intros H. unfold FAQSearchEngine.search_faq_body.
  now rewrite (strip_blank q H).
Qed.

End FAQFacts.

(** *** The Manual adapter *)

Section ManualFacts.

Variable rnd : Q -> Q.

Variable config : Config.
Variable encode : list pystr -> result (list embedding).
Variable collection_query : list embedding -> Z -> string -> result QueryResult.
Variable format_value : pyobj -> pystr.
Variable path_name : pyobj -> result pystr.

Abbreviation search_manual :=
  (ManualSearchEngine.search_manual rnd config encode collection_query
      format_value
     path_name).
Abbreviation search_manual_body :=
  (ManualSearchEngine.search_manual_body rnd config encode collection_query
     format_value path_name).
Abbreviation manual_process :=
  (ManualSearchEngine._process_search_results rnd format_value path_name).
Abbreviation manual_build :=
  (fun doc metadata distance =>
     ManualSearchEngine.make_result format_value path_name doc metadata distance
       (max2 0 (F64.sub rnd 1 distance))).

Lemma manual_build_sound (doc : pystr) (meta : pydict) (distance : Q)
    (r : SearchResult) :
  manual_build doc meta distance = Ok r ->
  score r = max2 0 (F64.sub rnd 1 distance)
  /\ original_distance r = Some distance
  /\ (0 <= score r <= 1)%Q.
Proof.
  unfold ManualSearchEngine.make_result, SearchResult_new.
  destruct (ManualSearchEngine._format_source_info format_value path_name meta)
    as [src|err]; [|discriminate].
  cbn [Py.bind].
  destruct (Qle_bool 0 (max2 0 (F64.sub rnd 1 distance))
            && Qle_bool (max2 0 (F64.sub rnd 1 distance)) 1) eqn:E;
                [|discriminate].
  intros [= <-]. apply andb_true_iff in E as [E1 E2].
  apply Qle_bool_iff in E1, E2.
  unfold original_distance. cbn [score metadata].
  now simplify_map_eq.
Qed.

Lemma manual_build_total (doc : pystr) (meta : pydict) (distance : Q) :
  F64.faithful rnd -> (0 <= distance)%Q ->
  raises (ManualSearchEngine._format_source_info format_value path_name meta)
  = false ->
  exists r, manual_build doc meta distance = Ok r.
Proof.
  intros Hrnd Hd Hsrc.
  unfold ManualSearchEngine.make_result, SearchResult_new.
  destruct (ManualSearchEngine._format_source_info format_value path_name meta)
    as [src|err]; [|discriminate].
  cbn [Py.bind].
  rewrite (similarity_le_1 rnd distance Hrnd Hd). eauto.
Qed.

Lemma manual_process_sound (raw : QueryResult) (min_score : Q)
    (rs : list SearchResult) :
  manual_process raw min_score = Ok rs ->
  Spec.answers_rows rnd min_score (Spec.rows raw) rs
  /\ Spec.well_scored rnd min_score rs.
Proof.
  apply (process_sound rnd manual_build (ManualSearchEngine.collect rnd
      format_value path_name)
           manual_process); try reflexivity.
  apply manual_build_sound.
Qed.

Lemma manual_process_total (raw : QueryResult) (min_score : Q) :
  F64.faithful rnd ->
  length (metadatas raw) = length (documents raw) ->
  length (distances raw) = length (documents raw) ->
  Forall
    (fun row =>
       (0 <= snd row)%Q
       /\ raises (ManualSearchEngine._format_source_info format_value
                    path_name (snd (fst row))) = false)
    (Spec.rows raw) ->
  exists rs, manual_process raw min_score = Ok rs.
Proof.
  intros Hrnd Hm Hd Hpos.
  apply (process_total rnd manual_build (ManualSearchEngine.collect rnd
      format_value path_name)
           manual_process); try reflexivity; trivial.
  eapply Forall_impl; [exact Hpos|].
  intros row [Hrow Hsrc]. now apply manual_build_total.
Qed.

Lemma search_manual_run (q : pystr) (max_results : option Z)
    (min_score : option Q) (e : embedding) (vs : list embedding)
    (raw : QueryResult) :
  strip q <> [] ->
  encode [q] = Ok (e :: vs) ->
  collection_query [e] (or_int max_results (MAX_SEARCH_RESULTS config)) "manual"
  = Ok raw ->
  search_manual (PStr q) max_results min_score
  = ([Encode [q];
      Query [e] (or_int max_results (MAX_SEARCH_RESULTS config)) "manual"],
     try_except
       (manual_process raw (or_float min_score (SIMILARITY_THRESHOLD config)))
       []).
Proof.
  intros Hq He Hc.
  unfold ManualSearchEngine.search_manual,
      ManualSearchEngine.search_manual_body.
  destruct (strip q) as [|c s]; [congruence|].
  unfold etry, ebind, lift, eret. cbn [fst snd]. rewrite He. cbn [fst snd
      index0].
  rewrite Hc. cbn [fst snd].
  destruct (manual_process raw _); reflexivity.
Qed.

Lemma search_manual_outcome (query : pyobj) (max_results : option Z)
    (min_score : option Q) :
  snd (search_manual query max_results min_score) = []
  \/ exists raw,
      manual_process raw (or_float min_score (SIMILARITY_THRESHOLD config))
      = Ok (snd (search_manual query max_results min_score)).
Proof.
  unfold ManualSearchEngine.search_manual,
      ManualSearchEngine.search_manual_body.
  destruct query as [|q| |]; try (now left).
  destruct (strip q) as [|c s]; [now left|].
  unfold etry, ebind, lift, eret. cbn [fst snd].
  destruct (encode [q]) as [[|e vs]|err]; cbn [fst snd index0]; try (now left).
  destruct (collection_query [e] _ "manual") as [raw|err]; cbn [fst snd];
    try (now left).
  destruct (manual_process raw _) as [rs|err] eqn:P; cbn [fst snd try_except];
    try (now left).
  right. exists raw. exact P.
Qed.

Lemma search_manual_blank (q : pystr) (max_results : option Z)
    (min_score : option Q) :
  forallb isspace q = true ->
  search_manual_body (PStr q) max_results min_score = ([], Ok []).
Proof.
  intros H. unfold ManualSearchEngine.search_manual_body.
  now rewrite (strip_blank q H).
Qed.

End ManualFacts.

(** *** Both adapters *)

Section AdapterClaims.

Variable rnd : Q -> Q.

Variable config : Config.
Variable encode : list pystr -> result (list embedding).
Variable collection_query : list embedding -> Z -> string -> result QueryResult.
Variable format_value : pyobj -> pystr.
Variable path_name : pyobj -> result pystr.

Abbreviation search_faq :=
  (FAQSearchEngine.search_faq rnd config encode collection_query format_value).
Abbreviation search_faq_body :=
  (FAQSearchEngine.search_faq_body rnd config encode collection_query
      format_value).
Abbreviation search_manual :=
  (ManualSearchEngine.search_manual rnd config encode collection_query
      format_value
     path_name).
Abbreviation search_manual_body :=
  (ManualSearchEngine.search_manual_body rnd config encode collection_query
     format_value path_name).
Abbreviation source_info :=
  (ManualSearchEngine._format_source_info format_value path_name).

Lemma search_faq_well_scored (query : pyobj) (max_results : option Z)
    (min_score : option Q) :
  Spec.well_scored rnd (or_float min_score (SIMILARITY_THRESHOLD config))
    (snd (search_faq query max_results min_score)).
Proof.
  destruct (search_faq_outcome rnd config encode collection_query format_value
              query max_results min_score) as [->|[raw Hraw]].
  - apply well_scored_nil.
  - now apply faq_process_sound in Hraw.
Qed.

Lemma search_manual_well_scored (query : pyobj) (max_results : option Z)
    (min_score : option Q) :
  Spec.well_scored rnd (or_float min_score (SIMILARITY_THRESHOLD config))
    (snd (search_manual query max_results min_score)).
Proof.
  destruct (search_manual_outcome rnd config encode collection_query
              format_value path_name query max_results min_score)
    as [->|[raw Hraw]].
  - apply well_scored_nil.
  - now apply manual_process_sound in Hraw.
Qed.

(** What a search returns for a query that reaches the index. *)
Lemma search_faq_rows (q : pystr) (max_results : option Z)
    (min_score : option Q) (e : embedding) (vs : list embedding)
    (raw : QueryResult) :
  let threshold := or_float min_score (SIMILARITY_THRESHOLD config) in
  let results := snd (search_faq (PStr q) max_results min_score) in
  strip q <> [] -> encode [q] = Ok (e :: vs) ->
  collection_query [e] (or_int max_results (MAX_SEARCH_RESULTS config)) "faq"
  = Ok raw ->
  (Forall (fun row => (Spec.similarity rnd (snd row) < threshold)%Q)
     (Spec.rows raw) ->
   results = [])
  /\ (F64.faithful rnd ->
      length (metadatas raw) = length (documents raw) ->
      length (distances raw) = length (documents raw) ->
      Forall (fun row => (0 <= snd row)%Q) (Spec.rows raw) ->
      Spec.answers_rows rnd threshold (Spec.rows raw) results).
Proof.
  intros threshold results Hq He Hc. subst results.
  rewrite (search_faq_run rnd config encode collection_query format_value q
             max_results min_score e vs raw Hq He Hc). cbn [snd].
  fold threshold.
  destruct (FAQSearchEngine._process_search_results rnd format_value raw
              threshold) as [rs|err] eqn:P; cbn [try_except].
  - apply faq_process_sound in P as [P _].
    split; [now apply answers_rows_below_threshold|trivial].
  - split; [reflexivity|]. intros Hrnd Hm Hd Hpos.
    destruct (faq_process_total rnd format_value raw threshold Hrnd Hm Hd Hpos)
      as [rs Hrs]. congruence.
Qed.

Lemma search_manual_rows (q : pystr) (max_results : option Z)
    (min_score : option Q) (e : embedding) (vs : list embedding)
    (raw : QueryResult) :
  let threshold := or_float min_score (SIMILARITY_THRESHOLD config) in
  let results := snd (search_manual (PStr q) max_results min_score) in
  strip q <> [] -> encode [q] = Ok (e :: vs) ->
  collection_query [e] (or_int max_results (MAX_SEARCH_RESULTS config))
    "manual" = Ok raw ->
  (Forall (fun row => (Spec.similarity rnd (snd row) < threshold)%Q)
     (Spec.rows raw) ->
   results = [])
  /\ (F64.faithful rnd ->
      length (metadatas raw) = length (documents raw) ->
      length (distances raw) = length (documents raw) ->
      Forall
        (fun row =>
           (0 <= snd row)%Q
           /\ raises (source_info (snd (fst row))) = false)
        (Spec.rows raw) ->
      Spec.answers_rows rnd threshold (Spec.rows raw) results).
Proof.
  intros threshold results Hq He Hc. subst results.
  rewrite (search_manual_run rnd config encode collection_query format_value
             path_name q max_results min_score e vs raw Hq He Hc). cbn [snd].
  fold threshold.
  destruct (ManualSearchEngine._process_search_results rnd format_value
              path_name raw threshold) as [rs|err] eqn:P; cbn [try_except].
  - apply manual_process_sound in P as [P _].
    split; [now apply answers_rows_below_threshold|trivial].
  - split; [reflexivity|]. intros Hrnd Hm Hd Hpos.
    destruct (manual_process_total rnd format_value path_name raw threshold
                Hrnd Hm Hd Hpos) as [rs Hrs]. congruence.
Qed.

Lemma well_scored_floor (threshold : Q) (rs : list SearchResult) :
  Spec.well_scored rnd threshold rs ->
  Forall (fun r => (threshold <= score r)%Q) rs.
Proof.
  intros [H _]. eapply Forall_impl; [exact H|].
  intros r (_ & _ & Hr). exact Hr.
Qed.

(** C5.  Every result that an adapter search returns has the score
    max(0, 1 - distance) of the distance recorded with it, the difference
    being the doubles', a score between 0 and 1 and not below the
    threshold in force, and the results come sorted by score, largest
    first.  The threshold in force is the caller's min_score, or the
    configured one when the caller passes none or zero; so no returned
    result lies below a min_score that the caller passed.  For a query
    that reaches the index: when every row of the response is below the
    threshold the search returns the empty list; when the response is
    aligned and its distances are non-negative (and, for the Manual
    adapter, the source label of each row can be built), the search
    returns one result per row that reaches the threshold, in sorted
    order. *)
Theorem adapter_results_scored (query : pyobj) (max_results : option Z)
    (min_score : option Q) :
  let threshold :=
    match min_score with
    | Some m => if Qeq_bool m 0 then SIMILARITY_THRESHOLD config else m
    | None => SIMILARITY_THRESHOLD config
    end in
  let n :=
    match max_results with
    | Some k => if k =? 0 then MAX_SEARCH_RESULTS config else k
    | None => MAX_SEARCH_RESULTS config
    end in
  let faq_results := snd (search_faq query max_results min_score) in
  let manual_results := snd (search_manual query max_results min_score) in
  Spec.well_scored rnd threshold faq_results
  /\ Spec.well_scored rnd threshold manual_results
  /\ (forall m : Q,
        min_score = Some m -> ~ (m == 0)%Q ->
        Forall (fun r => (m <= score r)%Q) faq_results
        /\ Forall (fun r => (m <= score r)%Q) manual_results)
  /\ (forall q e vs raw,
        query = PStr q -> strip q <> [] -> encode [q] = Ok (e :: vs) ->
        collection_query [e] n "faq" = Ok raw ->
        (Forall (fun row => (Spec.similarity rnd (snd row) < threshold)%Q)
           (Spec.rows raw) ->
         faq_results = [])
        /\ (F64.faithful rnd ->
            length (metadatas raw) = length (documents raw) ->
            length (distances raw) = length (documents raw) ->
            Forall (fun row => (0 <= snd row)%Q) (Spec.rows raw) ->
            Spec.answers_rows rnd threshold (Spec.rows raw) faq_results))
  /\ (forall q e vs raw,
        query = PStr q -> strip q <> [] -> encode [q] = Ok (e :: vs) ->
        collection_query [e] n "manual" = Ok raw ->
        (Forall (fun row => (Spec.similarity rnd (snd row) < threshold)%Q)
           (Spec.rows raw) ->
         manual_results = [])
        /\ (F64.faithful rnd ->
            length (metadatas raw) = length (documents raw) ->
            length (distances raw) = length (documents raw) ->
            Forall
              (fun row =>
                 (0 <= snd row)%Q
                 /\ raises (source_info (snd (fst row))) = false)
              (Spec.rows raw) ->
            Spec.answers_rows rnd threshold (Spec.rows raw) manual_results)).
Proof.
  intros threshold n faq_results manual_results.
  assert (Wf := search_faq_well_scored query max_results min_score).
  assert (Wm := search_manual_well_scored query max_results min_score).
  change (or_float min_score (SIMILARITY_THRESHOLD config)) with threshold
    in Wf, Wm.
  split; [exact Wf|]. split; [exact Wm|]. split; [|split].
  - intros m -> Hm.
    assert (E : threshold = m).
    { unfold threshold. destruct (Qeq_bool m 0) eqn:Em; [|reflexivity].
      apply Qeq_bool_iff in Em. contradiction. }
    rewrite E in Wf, Wm. split; now apply well_scored_floor.
  - intros q e vs raw -> Hq He Hc.
    exact (search_faq_rows q max_results min_score e vs raw Hq He Hc).
  - intros q e vs raw -> Hq He Hc.
    exact (search_manual_rows q max_results min_score e vs raw Hq He Hc).
Qed.

(** C8.  For an empty or whitespace-only query the body of each adapter
    search returns the empty list: no exception is raised, and neither
    the embedder nor the index is called. *)
Theorem blank_query_returns_empty (q : pystr) (max_results : option Z)
    (min_score : option Q) :
  forallb isspace q = true ->
  search_faq_body (PStr q) max_results min_score = ([], Ok [])
  /\ search_faq (PStr q) max_results min_score = ([], [])
  /\ search_manual_body (PStr q) max_results min_score = ([], Ok [])
  /\ search_manual (PStr q) max_results min_score = ([], []).
Proof.
  intros H.
  unfold FAQSearchEngine.search_faq, ManualSearchEngine.search_manual.
  rewrite (search_faq_blank rnd config encode collection_query format_value q
             max_results min_score H).
  rewrite (search_manual_blank rnd config encode collection_query format_value
             path_name q max_results min_score H).
  repeat split.
Qed.

(** The calls that a search makes for a query that reaches the
    embedder. *)
Lemma search_faq_calls (q : pystr) (max_results : option Z)
    (min_score : option Q) (e : embedding) (vs : list embedding) :
  strip q <> [] -> encode [q] = Ok (e :: vs) ->
  fst (search_faq (PStr q) max_results min_score)
  = [Encode [q];
     Query [e] (or_int max_results (MAX_SEARCH_RESULTS config)) "faq"].
Proof.
  intros Hq He.
  unfold FAQSearchEngine.search_faq, FAQSearchEngine.search_faq_body.
  destruct (strip q) as [|c s]; [congruence|].
  unfold etry, ebind, lift, eret. cbn [fst snd]. rewrite He.
  cbn [fst snd index0].
  destruct (collection_query [e] _ "faq") as [raw|err]; cbn [fst snd];
    [|reflexivity].
  destruct (FAQSearchEngine._process_search_results rnd format_value raw _);
    reflexivity.
Qed.

Lemma search_manual_calls (q : pystr) (max_results : option Z)
    (min_score : option Q) (e : embedding) (vs : list embedding) :
  strip q <> [] -> encode [q] = Ok (e :: vs) ->
  fst (search_manual (PStr q) max_results min_score)
  = [Encode [q];
     Query [e] (or_int max_results (MAX_SEARCH_RESULTS config)) "manual"].
Proof.
  intros Hq He.
  unfold ManualSearchEngine.search_manual,
    ManualSearchEngine.search_manual_body.
  destruct (strip q) as [|c s]; [congruence|].
  unfold etry, ebind, lift, eret. cbn [fst snd]. rewrite He.
  cbn [fst snd index0].
  destruct (collection_query [e] _ "manual") as [raw|err]; cbn [fst snd];
    [|reflexivity].
  destruct (ManualSearchEngine._process_search_results rnd format_value
              path_name raw _); reflexivity.
Qed.

(** C10.  An adapter search called with [max_results = 0] behaves as the
    same call with [max_results] left unset, and one called with
    [min_score = 0.0] as the same call with [min_score] left unset: the
    configured value (5 and 0.7 unless the environment says otherwise)
    takes the place of the zero.  With [max_results = 0] the index is
    asked for [MAX_SEARCH_RESULTS] rows.  With [min_score = 0.0] every
    result returned still reaches the configured similarity threshold,
    and an aligned response with non-negative distances gives one result
    per row that reaches that threshold, and no other. *)
Theorem zero_arguments_fall_back (query : pyobj) (max_results : option Z)
    (min_score : option Q) (zero : Q) :
  (zero == 0)%Q ->
  search_faq query (Some 0) min_score = search_faq query None min_score
  /\ search_faq query max_results (Some zero)
     = search_faq query max_results None
  /\ search_manual query (Some 0) min_score = search_manual query None min_score
  /\ search_manual query max_results (Some zero)
     = search_manual query max_results None
  /\ (forall q e vs,
        query = PStr q -> strip q <> [] -> encode [q] = Ok (e :: vs) ->
        fst (search_faq query (Some 0) min_score)
        = [Encode [q]; Query [e] (MAX_SEARCH_RESULTS config) "faq"]
        /\ fst (search_manual query (Some 0) min_score)
           = [Encode [q]; Query [e] (MAX_SEARCH_RESULTS config) "manual"])
  /\ Spec.well_scored rnd (SIMILARITY_THRESHOLD config)
       (snd (search_faq query max_results (Some zero)))
  /\ Spec.well_scored rnd (SIMILARITY_THRESHOLD config)
       (snd (search_manual query max_results (Some zero)))
  /\ (forall q e vs raw,
        query = PStr q -> strip q <> [] -> encode [q] = Ok (e :: vs) ->
        collection_query [e] (MAX_SEARCH_RESULTS config) "faq" = Ok raw ->
        F64.faithful rnd ->
        length (metadatas raw) = length (documents raw) ->
        length (distances raw) = length (documents raw) ->
        Forall (fun row => (0 <= snd row)%Q) (Spec.rows raw) ->
        Spec.answers_rows rnd (SIMILARITY_THRESHOLD config) (Spec.rows raw)
          (snd (search_faq query (Some 0) (Some zero))))
  /\ (forall q e vs raw,
        query = PStr q -> strip q <> [] -> encode [q] = Ok (e :: vs) ->
        collection_query [e] (MAX_SEARCH_RESULTS config) "manual" = Ok raw ->
        F64.faithful rnd ->
        length (metadatas raw) = length (documents raw) ->
        length (distances raw) = length (documents raw) ->
        Forall
          (fun row =>
             (0 <= snd row)%Q /\ raises (source_info (snd (fst row))) = false)
          (Spec.rows raw) ->
        Spec.answers_rows rnd (SIMILARITY_THRESHOLD config) (Spec.rows raw)
          (snd (search_manual query (Some 0) (Some zero))))
  /\ MAX_SEARCH_RESULTS (default_config rnd) = 5
  /\ SIMILARITY_THRESHOLD (default_config rnd) = rnd 0.7%Q.
Proof.
  intros Hz.
  assert (E : forall c, or_float (Some zero) c = c).
  { intros c. unfold or_float. apply Qeq_bool_iff in Hz. now rewrite Hz. }
  assert (Ef : forall mr, search_faq query mr (Some zero)
                          = search_faq query mr None).
  { intros mr.
    unfold FAQSearchEngine.search_faq, FAQSearchEngine.search_faq_body.
    now rewrite E. }
  assert (Em : forall mr, search_manual query mr (Some zero)
                          = search_manual query mr None).
  { intros mr.
    unfold ManualSearchEngine.search_manual,
      ManualSearchEngine.search_manual_body.
    now rewrite E. }
  assert (Wf := search_faq_well_scored query max_results (Some zero)).
  assert (Wm := search_manual_well_scored query max_results (Some zero)).
  rewrite E in Wf, Wm.
  split; [reflexivity|]. split; [apply Ef|].
  split; [reflexivity|]. split; [apply Em|].
  split.
  { intros q e vs -> Hq He. split.
    - apply (search_faq_calls q (Some 0) min_score e vs Hq He).
    - apply (search_manual_calls q (Some 0) min_score e vs Hq He). }
  split; [exact Wf|]. split; [exact Wm|].
  split.
  { intros q e vs raw -> Hq He Hc Hrnd Hm Hd Hpos.
    destruct (search_faq_rows q (Some 0) (Some zero) e vs raw Hq He Hc)
      as [_ H].
    rewrite E in H. now apply H. }
  split.
  { intros q e vs raw -> Hq He Hc Hrnd Hm Hd Hpos.
    destruct (search_manual_rows q (Some 0) (Some zero) e vs raw Hq He Hc)
      as [_ H].
    rewrite E in H. now apply H. }
  split; reflexivity.
Qed.

End AdapterClaims.

(** ** The agent *)

Section AgentClaims.

Variable rnd : Q -> Q.

Variable config : Config.
Variable smart_search : pyobj -> pydict -> result (list SearchResult * string).
Variable chat_completions_create :
  pystr -> pystr -> pystr -> Q -> Z -> result (list (option pystr)).
Variable generate_faq_prompt : pystr -> list SearchResult -> pystr.
Variable generate_manual_prompt : pystr -> list SearchResult -> pystr.
Variable generate_multi_source_prompt :
  pystr -> list SearchResult -> list SearchResult -> pystr.
Variable elapsed : Q.

Abbreviation process_question :=
  (SupportAgent.process_question rnd config smart_search chat_completions_create
     generate_faq_prompt generate_manual_prompt generate_multi_source_prompt
     elapsed).
Abbreviation _search_knowledge_base :=
  (SupportAgent._search_knowledge_base smart_search).

(** C6.  When the fused search of a request comes back empty, the agent
    sends the no-results prompt to the text generation service.  If an
    answer text comes back, the response carries it with the fixed
    confidence 0.1; if the call or the reading of its answer fails, the
    response carries the no-results text itself with confidence 0.0.  In
    both cases the response lists no sources, and the confidence is 0.0
    only in the second case. *)
Theorem no_results_confidence (request : QuestionRequest) :
  let q := question request in
  let ctx := match context request with Some c => c | None => ∅ end in
  let prompt := Prompts.generate_no_results_prompt q in
  let synthesis :=
    Py.bind
      (chat_completions_create (OPENAI_MODEL config) Prompts.SYSTEM_ROLE
         prompt 0.3%Q 400)
      SupportAgent.first_content in
  let response := process_question request in
  fst (_search_knowledge_base q ctx) = [] ->
  (forall text : pystr,
      synthesis = Ok text ->
      response = mkAnswerResponse text 0.1%Q [] (Some elapsed))
  /\ (raises synthesis = true ->
      response = mkAnswerResponse prompt 0.0%Q [] (Some elapsed))
  /\ ((confidence response == 0.1)%Q <-> raises synthesis = false)
  /\ ((confidence response == 0)%Q <-> raises synthesis = true)
  /\ sources response = [].
Proof.
  intros q ctx prompt synthesis response Hempty.
  subst response. unfold SupportAgent.process_question.
  fold q ctx. destruct (_search_knowledge_base q ctx) as [rs tag].
  cbn [fst] in Hempty. subst rs.
  unfold SupportAgent._generate_no_results_answer. fold prompt.
  assert (E : Py.bind (chat_completions_create (OPENAI_MODEL config)
                         Prompts.SYSTEM_ROLE prompt 0.3%Q 400)
                (fun choices =>
                   Py.bind (SupportAgent.first_content choices)
                     (fun answer => Ok (answer, 0.1%Q)))
              = Py.bind synthesis (fun answer => Ok (answer, 0.1%Q))).
  { subst synthesis.
    now destruct (chat_completions_create _ _ _ _ _). }
  rewrite E. clearbody synthesis. clear E.
  destruct synthesis as [text|err]; cbn [Py.bind try_except raises].
  - repeat split; try discriminate; try reflexivity.
    intros t [= <-]. reflexivity.
  - repeat split; try discriminate; reflexivity.
Qed.

End AgentClaims.

(** ** The properties on the sample collaborators *)

(** The estimator on the scores 0.9 and 0.6 of an FAQ-focused search, in
    doubles: the formula gives the double 0.5040000000000001, one place
    above the double nearest to 0.504; without rounding it gives 0.504. *)
Lemma calculate_confidence_formula_witness :
  let results :=
    [Samples.hit "a" (F64.round 0.9); Samples.hit "b" (F64.round 0.6)] in
  Spec.strategy_factor_f64 F64.round "keyword" = F64.round 0.7%Q
  /\ (SupportAgent._calculate_confidence F64.round results "faq_focus"
      == 4539628424389461 # 9007199254740992)%Q
  /\ (F64.round 0.504 == 1134907106097365 # 2251799813685248)%Q
  /\ (SupportAgent._calculate_confidence F64.exact
        [Samples.hit "a" 0.9; Samples.hit "b" 0.6] "faq_focus" == 0.504)%Q.
Proof.
  destruct (calculate_confidence_formula F64.round)
    as (Hformula & _ & _ & _ & _ & _ & Hother).
  split; [apply Hother; discriminate|].
  split; [|split; vm_compute; reflexivity].
  destruct (Hformula (Samples.hit "a" (F64.round 0.9))
              [Samples.hit "b" (F64.round 0.6)] "faq_focus")
    as (m & Hin & Hall & Heq).
  cbv zeta. rewrite Heq. clear Heq.
  destruct Hin as [<- | [<- | []]].
  - vm_compute. reflexivity.
  - exfalso. inversion Hall as [|? ? Hle _]. vm_compute in Hle.
    apply Hle. reflexivity.
Defined.

Lemma confidence_monotone_witness :
  let hits := List.map (fun s => Samples.hit "r" (F64.round s)) in
  (SupportAgent._calculate_confidence F64.round (hits [0.8; 0.2]%Q) "balanced"
   <= SupportAgent._calculate_confidence F64.round (hits [0.9; 0.1]%Q)
        "balanced")%Q.
Proof.
  refine (proj1 (confidence_monotone F64.round
                   (List.map (fun s => Samples.hit "r" (F64.round s))
                      [0.8; 0.2]%Q)
                   (List.map (fun s => Samples.hit "r" (F64.round s))
                      [0.9; 0.1]%Q)
                   "balanced" round_faithful _)
            _ _).
  - vm_compute. reflexivity.
  - reflexivity.
  - vm_compute. discriminate.
Defined.

(** C9 as stated fails in doubles, where the mean score held fixed is
    the mean of the scores themselves.  Five results of score 0.87 have
    the maximum and the mean of three such results, and a lower
    confidence (0.7394999999999999 against 0.7395, balanced); the scores
    0.12, 0.83, 0.42 have the maximum, the mean and the number of the
    scores 0.12, 0.42, 0.83, and a lower confidence (0.6125999999999999
    against 0.6126, faq_focus).  In both pairs the averages that the
    estimator computes differ in their last place. *)
Lemma confidence_not_monotone_in_doubles :
  let hits := List.map (fun s => Samples.hit "r" (F64.round s)) in
  let confidence := SupportAgent._calculate_confidence F64.round in
  let three := hits [0.87; 0.87; 0.87]%Q in
  let five := hits [0.87; 0.87; 0.87; 0.87; 0.87]%Q in
  let sorted := hits [0.12; 0.42; 0.83]%Q in
  let mixed := hits [0.12; 0.83; 0.42]%Q in
  ((Spec.maximum (List.map score three)
    == Spec.maximum (List.map score five))%Q
   /\ (Spec.mean (List.map score three) == Spec.mean (List.map score five))%Q
   /\ (List.length three <= List.length five)%nat
   /\ (confidence three "balanced" == 1665205962220241 # 2251799813685248)%Q
   /\ (confidence five "balanced" == 6660823848880963 # 9007199254740992)%Q
   /\ ~ (confidence three "balanced" <= confidence five "balanced")%Q)
  /\ ((Spec.maximum (List.map score sorted)
       <= Spec.maximum (List.map score mixed))%Q
      /\ (Spec.mean (List.map score sorted)
          == Spec.mean (List.map score mixed))%Q
      /\ List.length sorted = List.length mixed
      /\ ~ (confidence sorted "faq_focus" <= confidence mixed "faq_focus")%Q)
  /\ ~ (Spec.mean_f64 F64.round (List.map score three)
        == Spec.mean_f64 F64.round (List.map score five))%Q
  /\ ~ (Spec.mean_f64 F64.round (List.map score sorted)
        == Spec.mean_f64 F64.round (List.map score mixed))%Q.
Proof.
  cbv zeta.
  repeat match goal with
         | |- _ /\ _ => split
         end;
    try (vm_compute; reflexivity);
    try (vm_compute; discriminate);
    try (cbn [List.map List.length]; lia);
    try (intros H; vm_compute in H; apply H; reflexivity);
    try (intros H; vm_compute in H; discriminate H).
Qed.

Lemma search_ranked_spec_witness :
  0 <= 2
  /\ UnifiedSearchEngine.search_ranked Samples.faq_adapter
       Samples.manual_adapter (PStr (u "会議室")) 2 None
     = [Samples.hit "manual-a" 0.95; Samples.hit "faq-a" 0.9].
Proof.
  assert (H : 0 <= 2) by lia.
  split; [exact H|].
  destruct (search_ranked_spec Samples.faq_adapter Samples.manual_adapter
              (PStr (u "会議室")) 2 None H)
    as (_ & _ & _ & _ & _ & Hranked & _).
  rewrite Hranked. vm_compute. reflexivity.
Defined.

(** C4 as stated fails for a negative bound: with
    [max_total_results = -1] the slice drops the last of the six sorted
    results and five are returned, which is not "at most -1". *)
Lemma search_ranked_negative_bound :
  let ranked :=
    UnifiedSearchEngine.search_ranked Samples.faq_adapter
      Samples.manual_adapter (PStr (u "会議室")) (-1) None in
  len ranked = 5 /\ ~ (len ranked <= -1).
Proof.
  assert (E : len (UnifiedSearchEngine.search_ranked Samples.faq_adapter
                     Samples.manual_adapter (PStr (u "会議室")) (-1) None) = 5)
    by (vm_compute; reflexivity).
  cbv zeta. rewrite E. split; [reflexivity|lia].
Qed.

Lemma smart_search_spec_witness :
  UnifiedSearchEngine.smart_search ascii_lower Samples.faq_adapter
    Samples.manual_adapter (PStr (u "ログインできません")) None
  = ([Samples.hit "faq-a" 0.9; Samples.hit "faq-b" 0.8;
      Samples.hit "faq-c" 0.7; Samples.hit "manual-a" 0.95;
      Samples.hit "manual-b" 0.8], "faq_focus"%string)
  /\ UnifiedSearchEngine.smart_search ascii_lower Samples.faq_adapter
       Samples.manual_adapter PNone None
     = ([], "error"%string).
Proof.
  split.
  - destruct (smart_search_spec ascii_lower Samples.faq_adapter
                Samples.manual_adapter (PStr (u "ログインできません")) None)
      as (Hfaq & _).
    rewrite Hfaq; [reflexivity|]. vm_compute. reflexivity.
  - destruct (smart_search_spec ascii_lower Samples.faq_adapter
                Samples.manual_adapter PNone None)
      as (_ & _ & _ & _ & Herror & _).
    apply Herror. reflexivity.
Defined.

Lemma adapter_results_scored_witness :
  let search :=
    FAQSearchEngine.search_faq F64.round (default_config F64.round)
      Samples.encode Samples.collection_query_f64 Samples.format_value
      (PStr (u "テスト")) None in
  Spec.answers_rows F64.round (F64.round 0.7)
    (Spec.rows Samples.response_f64) (snd (search None))
  /\ List.map score (snd (search None)) = [F64.round 0.9; F64.round 0.8]
  /\ Forall (fun r => (F64.round 0.85 <= score r)%Q)
       (snd (search (Some (F64.round 0.85))))
  /\ List.map score (snd (search (Some (F64.round 0.85))))
     = [F64.round 0.9].
Proof.
  split; [|split; [vm_compute; reflexivity|split; [|vm_compute; reflexivity]]].
  - destruct (adapter_results_scored F64.round (default_config F64.round)
                Samples.encode Samples.collection_query_f64
                Samples.format_value Samples.path_name
                (PStr (u "テスト")) None None) as (_ & _ & _ & Hfaq & _).
    apply (Hfaq (u "テスト") [1%Q; 0%Q] [] Samples.response_f64).
    + reflexivity.
    + vm_compute. discriminate.
    + reflexivity.
    + reflexivity.
    + exact round_faithful.
    + reflexivity.
    + reflexivity.
    + repeat constructor; vm_compute; discriminate.
  - destruct (adapter_results_scored F64.round (default_config F64.round)
                Samples.encode Samples.collection_query_f64
                Samples.format_value Samples.path_name
                (PStr (u "テスト")) None (Some (F64.round 0.85)))
      as (_ & _ & Hfloor & _).
    destruct (Hfloor (F64.round 0.85)) as [Hfaq _].
    + reflexivity.
    + vm_compute. discriminate.
    + exact Hfaq.
Defined.

(** Rows at the threshold.  At distance 0.1 the doubles give the
    similarity 0.9, and a search with [min_score = 0.9] returns the row;
    at distance 2^-60 they give the similarity 1.0, and a search with
    [min_score = 1.0] returns the row.  Without rounding both differences
    lie below the threshold and the rows are dropped. *)
Lemma rows_at_the_threshold :
  let search rnd response min_score :=
    snd (FAQSearchEngine.search_faq rnd (default_config rnd) Samples.encode
           (fun _ _ _ => Ok response) Samples.format_value
           (PStr (u "テスト")) None (Some min_score)) in
  let near :=
    {| documents := [[u "one"]];
       metadatas := [[ {["question" := PStr (u "q1")]} ]];
       distances := [[(1 # 1152921504606846976)%Q]] |} in
  List.map score (search F64.round Samples.response_f64 (F64.round 0.9))
  = [F64.round 0.9]
  /\ search F64.exact Samples.response_f64 (F64.round 0.9) = []
  /\ List.map score (search F64.round near 1%Q) = [1%Q]
  /\ search F64.exact near 1%Q = [].
Proof.
  repeat split; vm_compute; reflexivity.
Qed.

Lemma blank_query_returns_empty_witness :
  FAQSearchEngine.search_faq F64.exact (default_config F64.exact) Samples.encode
    Samples.collection_query Samples.format_value (PStr (u " 　")) None None
  = ([], [])
  /\ ManualSearchEngine.search_manual F64.exact (default_config F64.exact)
      Samples.encode
       Samples.collection_query Samples.format_value Samples.path_name
       (PStr (u " 　")) None None
     = ([], []).
Proof.
  assert (H : forallb isspace (u " 　") = true) by (vm_compute; reflexivity).
  destruct (blank_query_returns_empty F64.exact (default_config F64.exact)
      Samples.encode
              Samples.collection_query Samples.format_value Samples.path_name
              (u " 　") None None H) as (_ & Hfaq & _ & Hmanual).
  split; assumption.
Defined.

Lemma zero_arguments_fall_back_witness :
  let search :=
    FAQSearchEngine.search_faq F64.round (default_config F64.round)
      Samples.encode Samples.collection_query_f64 Samples.format_value
      (PStr (u "テスト")) in
  search (Some 0) (Some 0.0%Q) = search None None
  /\ fst (search (Some 0) (Some 0.0%Q))
     = [Encode [u "テスト"]; Query [[1%Q; 0%Q]] 5 "faq"]
  /\ List.map score (snd (search (Some 0) (Some 0.0%Q)))
     = [F64.round 0.9; F64.round 0.8].
Proof.
  assert (H : (0.0 == 0)%Q) by reflexivity.
  destruct (zero_arguments_fall_back F64.round (default_config F64.round)
              Samples.encode Samples.collection_query_f64
              Samples.format_value Samples.path_name
              (PStr (u "テスト")) (Some 0) (Some 0.0%Q) 0.0%Q H)
    as (_ & Hscore & _ & _ & Hcalls & _).
  destruct (zero_arguments_fall_back F64.round (default_config F64.round)
              Samples.encode Samples.collection_query_f64
              Samples.format_value Samples.path_name
              (PStr (u "テスト")) None None 0.0%Q H)
    as (Hmax & _).
  split; [|split].
  - cbv zeta. rewrite Hscore. exact Hmax.
  - destruct (Hcalls (u "テスト") [1%Q; 0%Q] []) as [Hfaq _].
    + reflexivity.
    + vm_compute. discriminate.
    + reflexivity.
    + exact Hfaq.
  - vm_compute. reflexivity.
Defined.

Lemma no_results_confidence_witness :
  SupportAgent.process_question F64.exact (default_config F64.exact)
      Samples.empty_search
    Samples.chat_answers Samples.no_prompt Samples.no_prompt
    Samples.no_multi_prompt 1.5%Q (mkQuestionRequest (u "有給") None)
  = mkAnswerResponse (u "担当者にお問い合わせください。") 0.1%Q [] (Some 1.5%Q).
Proof.
  destruct (no_results_confidence F64.exact (default_config F64.exact)
      Samples.empty_search
              Samples.chat_answers Samples.no_prompt Samples.no_prompt
              Samples.no_multi_prompt 1.5%Q (mkQuestionRequest (u "有給") None))
    as (Hanswer & _).
  - reflexivity.
  - apply Hanswer. vm_compute. reflexivity.
Defined.

(** * Further properties of the code *)

(** ** Bounds on the confidence *)

Lemma maximum_le (l : list Q) (b : Q) :
  (0 <= b)%Q -> Forall (fun y => (y <= b)%Q) l -> (Spec.maximum l <= b)%Q.
Proof.
  intros Hb H. destruct H as [|x l Hx Hl]; [exact Hb|].
  unfold Spec.maximum.
  induction Hl as [|y l Hy Hl IH]; simpl; [exact Hx|].
  apply Q.max_lub; assumption.
Qed.

Lemma sum_bounds (l : list Q) :
  Forall (fun y => (0 <= y <= 1)%Q) l ->
  (0 <= fold_right Qplus 0 l <= inject_Z (Z.of_nat (List.length l)))%Q.
Proof.
  induction 1 as [|y l [Hy0 Hy1] _ [IH0 IH1]].
  - split; apply Qle_refl.
  - cbn [fold_right List.length]. rewrite Nat2Z.inj_succ.
    unfold Z.succ. rewrite inject_Z_plus.
    change (inject_Z 1) with 1%Q. split; lra.
Qed.

Lemma mean_bounds (x : Q) (l : list Q) :
  Forall (fun y => (0 <= y <= 1)%Q) (x :: l) ->
  (0 <= Spec.mean (x :: l) <= 1)%Q.
Proof.
  intros H. destruct (sum_bounds _ H) as [H0 H1].
  unfold Spec.mean.
  set (s := fold_right Qplus 0%Q (x :: l)) in *.
  set (n := inject_Z (Z.of_nat (List.length (x :: l)))) in *.
  assert (Hn : (0 < n)%Q).
  { subst n. change 0%Q with (inject_Z 0). rewrite <- Zlt_Qlt.
    cbn [List.length]. lia. }
  split.
  - apply Qle_shift_div_l; [exact Hn|]. lra.
  - apply Qle_shift_div_r; [exact Hn|]. lra.
Qed.

Lemma strategy_factor_le (tag : string) : (Spec.strategy_factor tag <= 0.9)%Q.
Proof.
  unfold Spec.strategy_factor.
  repeat match goal with |- context [String.eqb ?a ?b] =>
    destruct (String.eqb a b) end; vm_compute; discriminate.
Qed.

Lemma clamp_le (x b : Q) :
  (0 <= b)%Q -> (x <= b)%Q -> (Spec.clamp x 0.0 1.0 <= b)%Q.
Proof.
  intros Hb Hx. unfold Spec.clamp.
  apply Q.max_lub; [lra|].
  eapply Qle_trans; [apply Q.le_min_r|exact Hx].
Qed.

Lemma calculate_confidence_range (rnd : Q -> Q) (rs : list SearchResult)
    (tag : string) :
  (0 <= SupportAgent._calculate_confidence rnd rs tag <= 1)%Q.
Proof.
  destruct rs as [|first rest]; [split; vm_compute; discriminate|].
  rewrite calculate_confidence_f64. apply clamp_range.
Qed.

Lemma factors_range (n : nat) (tag : string) :
  (0 <= Spec.count_factor n * Spec.strategy_factor tag <= 0.9)%Q.
Proof.
  assert (Hcf := count_factor_range n).
  assert (Hsf := strategy_factor_positive tag).
  assert (Hsf' := strategy_factor_le tag).
  split; [apply Qmult_le_0_compat; lra|].
  apply Qle_trans with (1 * Spec.strategy_factor tag)%Q; [|lra].
  apply Qmult_le_compat_r; lra.
Qed.

Lemma calculate_confidence_le_factors (rs : list SearchResult) (tag : string) :
  Forall (fun r => (0 <= score r <= 1)%Q) rs ->
  (SupportAgent._calculate_confidence F64.exact rs tag
   <= Spec.count_factor (List.length rs) * Spec.strategy_factor tag)%Q.
Proof.
  intros Hrange.
  assert (Hcf := count_factor_range (List.length rs)).
  assert (Hsf := strategy_factor_positive tag).
  assert (Hprod := factors_range (List.length rs) tag).
  rewrite calculate_confidence_spec.
  destruct rs as [|r rs].
  { change (Spec.confidence (List.map score []) tag) with 0.0%Q.
    cbn [List.length] in *. lra. }
  cbn [List.map Spec.confidence].
  assert (Hs : Forall (fun y => (0 <= y <= 1)%Q) (List.map score (r :: rs))).
  { apply List.Forall_forall. intros y Hy.
    apply List.in_map_iff in Hy as (r' & <- & Hr').
    rewrite List.Forall_forall in Hrange. now apply Hrange. }
  assert (Hmax : (Spec.maximum (List.map score (r :: rs)) <= 1)%Q).
  { apply maximum_le; [lra|].
    eapply Forall_impl; [exact Hs|]. intros y Hy. cbn beta in Hy. lra. }
  assert (Hmean : (0 <= Spec.mean (List.map score (r :: rs)) <= 1)%Q)
    by (apply (mean_bounds (score r) (List.map score rs)); exact Hs).
  change (score r :: List.map score rs) with (List.map score (r :: rs)).
  rewrite (length_map score (r :: rs)) in *.
  apply clamp_le; [lra|].
  set (base := (0.6 * Spec.maximum (List.map score (r :: rs))
                + 0.4 * Spec.mean (List.map score (r :: rs)))%Q).
  assert (Hbase : (base <= 1)%Q) by (subst base; lra).
  set (c := Spec.count_factor (List.length (r :: rs))) in *.
  set (s := Spec.strategy_factor tag) in *.
  assert (H1 : (0 <= (1 - base) * c)%Q) by (apply Qmult_le_0_compat; lra).
  assert (H2 : (0 <= (1 - base) * c * s)%Q)
    by (apply Qmult_le_0_compat; lra).
  lra.
Qed.

(** *** In doubles *)

Lemma round_keeps_Z (k : Z) :
  0 <= k < 2 ^ 53 -> (F64.round (inject_Z k) == inject_Z k)%Q.
Proof.
  intros [H0 H53].
  destruct (Z.eq_dec k 0) as [->|Hk]; [reflexivity|].
  assert (Hpos : (0 < inject_Z k)%Q).
  { change 0%Q with (inject_Z 0). rewrite <- Zlt_Qlt. lia. }
  destruct (round_cases (inject_Z k)) as [[X _]|[[_ ->]|[X _]]];
    [exfalso; lra| |exfalso; lra].
  rewrite round_positive_unreduced.
  destruct (binade_spec (inject_Z k) Hpos) as [B1 B2].
  set (e := F64.binade (inject_Z k)) in *.
  assert (He0 : 0 <= e).
  { assert (H : (2 ^ 0 < 2 ^ (e + 1))%Q).
    { apply Qle_lt_trans with (inject_Z k); [|exact B2].
      change (2 ^ 0)%Q with (inject_Z 1). rewrite <- Zle_Qle. lia. }
    apply pow2_lt_inv in H. lia. }
  assert (He : e <= 52).
  { assert (H : (2 ^ e < 2 ^ 53)%Q).
    { apply Qle_lt_trans with (inject_Z k); [exact B1|].
      rewrite <- pow2_inject by lia. now rewrite <- Zlt_Qlt. }
    apply pow2_lt_inv in H. lia. }
  unfold F64.ulp_exponent. fold e.
  replace (Z.max e (-1022)) with e by lia.
  unfold F64.round_at.
  assert (E : (inject_Z k * 2 ^ (- (e - 52))
               == inject_Z (k * 2 ^ (52 - e)))%Q).
  { rewrite inject_Z_mult, pow2_inject by lia.
    now replace (- (e - 52)) with (52 - e) by lia. }
  rewrite (nearest_even_eq _ _ E).
  rewrite inject_Z_mult, pow2_inject by lia.
  rewrite <- Qmult_assoc, <- pow2_plus.
  replace (52 - e + (e - 52)) with 0 by lia.
  change (2 ^ 0)%Q with 1%Q. ring.
Qed.

Section RoundedBounds.

Variable rnd : Q -> Q.
Hypothesis rnd_faithful : F64.faithful rnd.

Lemma sum_f64_acc (l : list Q) (acc : Q) (j : nat) :
  Forall (fun s => (0 <= s <= 1)%Q) l ->
  F64.keeps_counts rnd (j + List.length l) ->
  (0 <= acc <= inject_Z (Z.of_nat j))%Q ->
  (0 <= fold_left (F64.add rnd) l acc
   <= inject_Z (Z.of_nat (j + List.length l)))%Q.
Proof using rnd_faithful.
  intros Hl. revert acc j.
  induction Hl as [|s l [Hs0 Hs1] _ IH]; intros acc j Hk [Ha0 Ha1].
  - cbn [fold_left List.length]. rewrite Nat.add_0_r. split; assumption.
  - cbn [fold_left List.length] in *.
    replace (j + S (List.length l))%nat with (S j + List.length l)%nat
      in * by lia.
    apply IH; [exact Hk|]. unfold F64.add. split.
    + apply (rnd_nonneg rnd rnd_faithful). lra.
    + rewrite <- (Hk (S j)) by lia.
      apply (rnd_le rnd rnd_faithful).
      rewrite Nat2Z.inj_succ. unfold Z.succ. rewrite inject_Z_plus.
      change (inject_Z 1) with 1%Q. lra.
Qed.

Lemma mean_f64_bounds (x : Q) (l : list Q) :
  Forall (fun s => (0 <= s <= 1)%Q) (x :: l) ->
  F64.keeps_counts rnd (List.length (x :: l)) ->
  (0 <= Spec.mean_f64 rnd (x :: l) <= 1)%Q.
Proof using rnd_faithful.
  intros Hl Hk.
  destruct (sum_f64_acc (x :: l) 0%Q 0%nat Hl Hk) as [H0 H1];
    [split; apply Qle_refl|].
  cbn [Nat.add] in H1. unfold Spec.mean_f64, F64.sum, F64.div.
  set (s := fold_left (F64.add rnd) (x :: l) 0%Q) in *.
  set (n := inject_Z (Z.of_nat (List.length (x :: l)))) in *.
  assert (Hn : (0 < n)%Q).
  { subst n. change 0%Q with (inject_Z 0). rewrite <- Zlt_Qlt.
    cbn [List.length]. lia. }
  split.
  - apply (rnd_nonneg rnd rnd_faithful).
    apply Qle_shift_div_l; [exact Hn|]. lra.
  - apply (rnd_le_1 rnd rnd_faithful).
    apply Qle_shift_div_r; [exact Hn|]. lra.
Qed.

Lemma base_f64_le_both (m1 m2 a1 a2 : Q) :
  (m1 <= m2)%Q -> (a1 <= a2)%Q ->
  (Spec.base_f64 rnd m1 a1 <= Spec.base_f64 rnd m2 a2)%Q.
Proof using rnd_faithful.
  intros Hm Ha. unfold Spec.base_f64, F64.add.
  apply (rnd_le rnd rnd_faithful).
  apply Qplus_le_compat; apply (mul_le_l rnd rnd_faithful); trivial;
    apply (rnd_nonneg rnd rnd_faithful); discriminate.
Qed.

(** With scores between 0 and 1 the confidence is at most that of as
    many results of score 1. *)
Lemma calculate_confidence_le_perfect (rs : list SearchResult)
    (tag : string) :
  Forall (fun r => (0 <= score r <= 1)%Q) rs ->
  F64.keeps_counts rnd (List.length rs) ->
  (SupportAgent._calculate_confidence rnd rs tag
   <= Spec.confidence_f64 rnd 1 1 (List.length rs) tag)%Q.
Proof using rnd_faithful.
  intros Hrange Hk.
  destruct rs as [|r rs].
  { apply Qle_trans with 0%Q; [apply Qle_lteq; right; reflexivity|].
    apply clamp_range. }
  rewrite calculate_confidence_f64. rewrite length_map.
  assert (Hs : Forall (fun y => (0 <= y <= 1)%Q) (List.map score (r :: rs))).
  { apply List.Forall_forall. intros y Hy.
    apply List.in_map_iff in Hy as (r' & <- & Hr').
    rewrite List.Forall_forall in Hrange. now apply Hrange. }
  assert (Hmax : (max_of (score r) (List.map score rs) <= 1)%Q).
  { destruct (max_of_In (score r) (List.map score rs)) as [E|Hin].
    - rewrite <- E. inversion Hs as [|? ? [_ H] _]. exact H.
    - rewrite List.Forall_forall in Hs.
      apply (Hs (max_of (score r) (List.map score rs))). now right. }
  assert (Hmean : (0 <= Spec.mean_f64 rnd (List.map score (r :: rs)) <= 1)%Q).
  { apply (mean_f64_bounds (score r) (List.map score rs)); [exact Hs|].
    cbn [List.length]. rewrite length_map. exact Hk. }
  unfold Spec.confidence_f64.
  apply (scaled_f64_le rnd rnd_faithful).
  - apply base_f64_le_both; [exact Hmax | apply Hmean].
  - split; [apply (count_factor_f64_range rnd rnd_faithful) | apply Qle_refl].
  - apply (strategy_factor_f64_nonneg rnd rnd_faithful).
Qed.

End RoundedBounds.

Lemma round_keeps_counts (n : nat) :
  Z.of_nat n < 2 ^ 53 -> F64.keeps_counts F64.round n.
Proof.
  intros Hn k Hk. apply round_keeps_Z. lia.
Qed.

(** In doubles the confidence of results of score 1 is at most the
    double 0.9. *)
Lemma perfect_confidence_le (n : nat) (tag : string) :
  (Spec.confidence_f64 F64.round 1 1 n tag <= F64.round 0.9)%Q.
Proof.
  unfold Spec.confidence_f64.
  apply clamp_le; [vm_compute; discriminate|].
  assert (Hb : (Spec.base_f64 F64.round 1 1 == 1)%Q)
    by (vm_compute; reflexivity).
  destruct (count_factor_f64_range F64.round round_faithful n) as [C0 C1].
  set (c := Spec.count_factor_f64 F64.round n) in *.
  assert (Hp : (F64.mul F64.round (Spec.base_f64 F64.round 1 1) c <= 1)%Q).
  { unfold F64.mul. apply (rnd_le_1 F64.round round_faithful).
    rewrite Hb. lra. }
  assert (Hp0 : (0 <= F64.mul F64.round (Spec.base_f64 F64.round 1 1) c)%Q).
  { unfold F64.mul. apply (rnd_nonneg F64.round round_faithful).
    rewrite Hb. lra. }
  set (p := F64.mul F64.round (Spec.base_f64 F64.round 1 1) c) in *.
  assert (Hs : (0 <= Spec.strategy_factor_f64 F64.round tag)%Q
               /\ (F64.round (Spec.strategy_factor_f64 F64.round tag)
                   <= F64.round 0.9)%Q).
  { unfold Spec.strategy_factor_f64.
    repeat match goal with |- context [String.eqb ?a ?b] =>
      destruct (String.eqb a b) end; split; vm_compute; discriminate. }
  destruct Hs as [Hs0 Hs1].
  eapply Qle_trans; [|exact Hs1].
  unfold F64.mul. apply round_le.
  apply Qle_trans with (1 * Spec.strategy_factor_f64 F64.round tag)%Q; [|lra].
  apply Qmult_le_compat_r; assumption.
Qed.

(** X1.  The confidence lies between 0 and 1 whatever the scores and
    the rounding are.  When the scores lie between 0 and 1 the formula,
    evaluated without rounding, does not exceed
    min(len / 3.0, 1.0) * strategy_factor, and so never exceeds 0.9; in
    doubles the confidence of fewer than 2^53 such results does not
    exceed that of as many results of score 1, and so never exceeds the
    double 0.9. *)
Theorem confidence_bounded (rnd : Q -> Q) (rs : list SearchResult)
    (tag : string) :
  (0 <= SupportAgent._calculate_confidence rnd rs tag <= 1)%Q
  /\ (Forall (fun r => (0 <= score r <= 1)%Q) rs ->
      (SupportAgent._calculate_confidence F64.exact rs tag
       <= Spec.count_factor (List.length rs) * Spec.strategy_factor tag)%Q
      /\ (SupportAgent._calculate_confidence F64.exact rs tag <= 0.9)%Q
      /\ (Z.of_nat (List.length rs) < 2 ^ 53 ->
          (SupportAgent._calculate_confidence F64.round rs tag
           <= Spec.confidence_f64 F64.round 1 1 (List.length rs) tag)%Q
          /\ (SupportAgent._calculate_confidence F64.round rs tag
              <= F64.round 0.9)%Q)).
Proof.
  split; [apply calculate_confidence_range|].
  intros Hrange.
  assert (Hmain := calculate_confidence_le_factors rs tag Hrange).
  assert (Hprod := factors_range (List.length rs) tag).
  split; [exact Hmain|]. split; [lra|].
  intros Hlen.
  assert (H := calculate_confidence_le_perfect F64.round round_faithful rs tag
                 Hrange (round_keeps_counts _ Hlen)).
  split; [exact H|].
  eapply Qle_trans; [exact H | apply perfect_confidence_le].
Qed.

(** ** The request flow of the agent *)

Lemma of_type_typed (F M : list SearchResult) :
  Forall (Spec.typed (u "faq")) F ->
  Forall (Spec.typed (u "manual")) M ->
  SupportAgent.of_type (u "faq") (F ++ M) = Ok F
  /\ SupportAgent.of_type (u "manual") (F ++ M) = Ok M.
Proof.
  intros HF HM.
  assert (HMf : SupportAgent.of_type (u "faq") M = Ok []
                /\ SupportAgent.of_type (u "manual") M = Ok M).
  { induction HM as [|r M (m & Hm & Ht) _ [IH1 IH2]]; [split; reflexivity|].
    cbn [SupportAgent.of_type]. rewrite Hm, IH1, IH2. cbn [Py.bind].
    unfold dict_get. rewrite Ht. split; reflexivity. }
  destruct HMf as [HM1 HM2].
  induction HF as [|r F (m & Hm & Ht) _ [IH1 IH2]]; [split; assumption|].
  cbn [app SupportAgent.of_type]. rewrite Hm, IH1, IH2. cbn [Py.bind].
  unfold dict_get. rewrite Ht. split; reflexivity.
Qed.

Section AgentFlow.

Variable rnd : Q -> Q.

Variable config : Config.
Variable smart_search : pyobj -> pydict -> result (list SearchResult * string).
Variable chat_completions_create :
  pystr -> pystr -> pystr -> Q -> Z -> result (list (option pystr)).
Variable generate_faq_prompt : pystr -> list SearchResult -> pystr.
Variable generate_manual_prompt : pystr -> list SearchResult -> pystr.
Variable generate_multi_source_prompt :
  pystr -> list SearchResult -> list SearchResult -> pystr.
Variable elapsed : Q.

Abbreviation process_question :=
  (SupportAgent.process_question rnd config smart_search chat_completions_create
     generate_faq_prompt generate_manual_prompt generate_multi_source_prompt
     elapsed).
Abbreviation _search_knowledge_base :=
  (SupportAgent._search_knowledge_base smart_search).
Abbreviation _generate_answer_with_sources :=
  (SupportAgent._generate_answer_with_sources rnd config chat_completions_create
     generate_faq_prompt generate_manual_prompt generate_multi_source_prompt).
Abbreviation _generate_no_results_answer :=
  (SupportAgent._generate_no_results_answer config chat_completions_create).

Lemma answer_with_sources_confidence (q : pystr) (rs : list SearchResult)
    (tag : string) :
  snd (_generate_answer_with_sources q rs tag)
  = SupportAgent._calculate_confidence rnd rs tag
  \/ snd (_generate_answer_with_sources q rs tag) = 0.0%Q.
Proof.
  unfold SupportAgent._generate_answer_with_sources.
  destruct (SupportAgent.of_type (u "faq") rs) as [fs|e]; [|now right].
  destruct (SupportAgent.of_type (u "manual") rs) as [ms|e]; [|now right].
  cbn [Py.bind].
  destruct (chat_completions_create _ _ _ _ _) as [choices|e]; [|now right].
  cbn [Py.bind].
  destruct (SupportAgent.first_content choices) as [text|e]; [|now right].
  now left.
Qed.

Lemma no_results_answer_confidence (q : pystr) :
  snd (_generate_no_results_answer q) = 0.1%Q
  \/ snd (_generate_no_results_answer q) = 0.0%Q.
Proof.
  unfold SupportAgent._generate_no_results_answer.
  destruct (chat_completions_create _ _ _ _ _) as [choices|e]; [|now right].
  cbn [Py.bind].
  destruct (SupportAgent.first_content choices) as [text|e]; [|now right].
  now left.
Qed.

Lemma answer_response_valid (a : pystr) (c : Q) (rs : list SearchResult)
    (t : option Q) (fallback : AnswerResponse) :
  (0 <= c <= 1)%Q ->
  try_except (AnswerResponse_new a c rs t) fallback
  = mkAnswerResponse a c rs t.
Proof.
  intros [H0 H1]. unfold AnswerResponse_new.
  apply Qle_bool_iff in H0, H1. now rewrite H0, H1.
Qed.

Lemma process_question_unfold (request : QuestionRequest) :
  let q := question request in
  let ctx := match context request with Some c => c | None => ∅ end in
  let found := _search_knowledge_base q ctx in
  exists (a : pystr) (c : Q),
    process_question request
    = mkAnswerResponse a c (fst found) (Some elapsed)
    /\ match fst found with
       | [] => c = 0.1%Q \/ c = 0.0%Q
       | _ :: _ =>
           c = SupportAgent._calculate_confidence rnd (fst found) (snd found)
           \/ c = 0.0%Q
       end.
Proof.
  intros q ctx found.
  unfold SupportAgent.process_question. fold q ctx found.
  destruct found as [[|r rs] tag]; cbn [fst snd].
  - destruct (_generate_no_results_answer q) as [a c] eqn:E.
    assert (Hc := no_results_answer_confidence q). rewrite E in Hc.
    cbn [snd] in Hc. exists a, c. split; [|exact Hc].
    apply answer_response_valid.
    destruct Hc as [-> | ->]; split; vm_compute; discriminate.
  - destruct (_generate_answer_with_sources q (r :: rs) tag) as [a c] eqn:E.
    assert (Hc := answer_with_sources_confidence q (r :: rs) tag).
    rewrite E in Hc. cbn [snd] in Hc. exists a, c. split; [|exact Hc].
    apply answer_response_valid.
    destruct Hc as [-> | ->]; [apply calculate_confidence_range|].
    split; vm_compute; discriminate.
Qed.

(** X2.  Whatever the search engine and the generation service do, the
    response of [process_question] has a confidence between 0 and 1,
    lists exactly the results that the search produced (none when the
    search failed) and carries the measured time: the validation of the
    response never fails, so the system-error answer of the outer handler
    is never needed.  With results the confidence is the estimator's
    value or 0.0; without results it is 0.1 or 0.0. *)
Theorem process_question_response (request : QuestionRequest) :
  let q := question request in
  let ctx := match context request with Some c => c | None => ∅ end in
  let found := _search_knowledge_base q ctx in
  let response := process_question request in
  (0 <= confidence response <= 1)%Q
  /\ sources response = fst found
  /\ processing_time response = Some elapsed
  /\ match fst found with
     | [] => confidence response = 0.1%Q \/ confidence response = 0.0%Q
     | _ :: _ =>
         confidence response
         = SupportAgent._calculate_confidence rnd (fst found) (snd found)
         \/ confidence response = 0.0%Q
     end.
Proof.
  intros q ctx found response. subst response.
  destruct (process_question_unfold request) as (a & c & -> & Hc).
  fold q ctx found in Hc. cbn [confidence sources processing_time].
  split; [|repeat split; exact Hc].
  destruct (fst found) as [|r rs].
  - destruct Hc as [-> | ->]; split; vm_compute; discriminate.
  - destruct Hc as [-> | ->]; [apply calculate_confidence_range|].
    split; vm_compute; discriminate.
Qed.

(** X3.  For a result set made of results typed 'faq' followed by results
    typed 'manual', as the adapters produce them, the agent sends the
    multi-source prompt when both parts are non-empty, the FAQ prompt
    when there are only FAQ results and the Manual prompt when there are
    only Manual results, each built from exactly its part; the strategy
    tag plays no part in that choice.  A returned text gives the
    estimator's confidence, a failed call the fixed error text with
    0.0. *)
Theorem answer_prompt_by_source (q : pystr) (F M : list SearchResult)
    (tag : string) :
  Forall (Spec.typed (u "faq")) F ->
  Forall (Spec.typed (u "manual")) M ->
  F ++ M <> [] ->
  let prompt :=
    match F, M with
    | _ :: _, _ :: _ => generate_multi_source_prompt q F M
    | _ :: _, [] => generate_faq_prompt q F
    | [], _ => generate_manual_prompt q M
    end in
  _generate_answer_with_sources q (F ++ M) tag
  = match Py.bind
            (chat_completions_create (OPENAI_MODEL config) Prompts.SYSTEM_ROLE
               prompt 0.3%Q 800)
            SupportAgent.first_content with
    | Ok text => (text, SupportAgent._calculate_confidence rnd (F ++ M) tag)
    | Raise _ => (u "回答の生成中にエラーが発生しました。", 0.0%Q)
    end.
Proof.
  intros HF HM Hne prompt.
  unfold SupportAgent._generate_answer_with_sources.
  destruct (of_type_typed F M HF HM) as [-> ->]. cbn [Py.bind].
  assert (E : match F, M with
              | _ :: _, _ :: _ => generate_multi_source_prompt q F M
              | _ :: _, [] => generate_faq_prompt q F
              | [], _ :: _ => generate_manual_prompt q M
              | [], [] => Prompts.generate_no_results_prompt q
              end = prompt).
  { subst prompt. destruct F, M; try reflexivity. now contradiction Hne. }
  rewrite E.
  destruct (chat_completions_create _ _ _ _ _) as [choices|e];
    cbn [Py.bind try_except]; [|reflexivity].
  destruct (SupportAgent.first_content choices); reflexivity.
Qed.

End AgentFlow.

(** ** The type stamp of the adapters *)

Section TypeStamp.

Variable rnd : Q -> Q.

Variable config : Config.
Variable encode : list pystr -> result (list embedding).
Variable collection_query : list embedding -> Z -> string -> result QueryResult.
Variable format_value : pyobj -> pystr.
Variable path_name : pyobj -> result pystr.

Lemma faq_collect_typed (min_score : Q) (rows : list (pystr * pydict * Q))
    (rs : list SearchResult) :
  FAQSearchEngine.collect rnd format_value min_score rows = Ok rs ->
  Forall (Spec.typed (u "faq")) rs.
Proof.
  revert rs. induction rows as [|[[doc meta] distance] rows IH]; intros rs.
  - intros [= <-]. constructor.
  - cbn [FAQSearchEngine.collect].
    destruct (Qle_bool min_score (max2 0 (F64.sub rnd 1 distance))); [|apply
        IH].
    unfold FAQSearchEngine.make_result, SearchResult_new.
    destruct (Qle_bool 0 (max2 0 (F64.sub rnd 1 distance))
              && Qle_bool (max2 0 (F64.sub rnd 1 distance)) 1); [|discriminate].
    cbn [Py.bind].
    destruct (FAQSearchEngine.collect rnd format_value min_score rows) as
        [rs'|e];
      [|discriminate].
    cbn [Py.bind]. intros [= <-]. constructor; [|now apply IH].
    eexists. split; [reflexivity|]. now simplify_map_eq.
Qed.

Lemma manual_collect_typed (min_score : Q) (rows : list (pystr * pydict * Q))
    (rs : list SearchResult) :
  ManualSearchEngine.collect rnd format_value path_name min_score rows = Ok rs
      ->
  Forall (Spec.typed (u "manual")) rs.
Proof.
  revert rs. induction rows as [|[[doc meta] distance] rows IH]; intros rs.
  - intros [= <-]. constructor.
  - cbn [ManualSearchEngine.collect].
    destruct (Qle_bool min_score (max2 0 (F64.sub rnd 1 distance))); [|apply
        IH].
    unfold ManualSearchEngine.make_result, SearchResult_new.
    destruct (ManualSearchEngine._format_source_info format_value path_name
                meta) as [src|e]; [|discriminate].
    cbn [Py.bind].
    destruct (Qle_bool 0 (max2 0 (F64.sub rnd 1 distance))
              && Qle_bool (max2 0 (F64.sub rnd 1 distance)) 1); [|discriminate].
    cbn [Py.bind].
    destruct (ManualSearchEngine.collect rnd format_value path_name min_score
        rows)
      as [rs'|e]; [|discriminate].
    cbn [Py.bind]. intros [= <-]. constructor; [|now apply IH].
    eexists. split; [reflexivity|]. now simplify_map_eq.
Qed.

Lemma faq_process_typed (raw : QueryResult) (min_score : Q)
    (rs : list SearchResult) :
  FAQSearchEngine._process_search_results rnd format_value raw min_score = Ok rs
      ->
  Forall (Spec.typed (u "faq")) rs.
Proof.
  unfold FAQSearchEngine._process_search_results.
  destruct (documents raw) as [|[|doc docs] ?];
    try (intros [= <-]; constructor).
  destruct (index0 (metadatas raw)) as [metas|e]; [|discriminate].
  destruct (index0 (distances raw)) as [dists|e]; [|discriminate].
  cbn [Py.bind].
  destruct (FAQSearchEngine.collect rnd format_value min_score _) as [cs|e]
      eqn:C;
    [|discriminate].
  cbn [Py.bind]. intros [= <-].
  apply sorted_Forall. now apply faq_collect_typed in C.
Qed.

Lemma manual_process_typed (raw : QueryResult) (min_score : Q)
    (rs : list SearchResult) :
  ManualSearchEngine._process_search_results rnd format_value path_name raw
    min_score = Ok rs ->
  Forall (Spec.typed (u "manual")) rs.
Proof.
  unfold ManualSearchEngine._process_search_results.
  destruct (documents raw) as [|[|doc docs] ?];
    try (intros [= <-]; constructor).
  destruct (index0 (metadatas raw)) as [metas|e]; [|discriminate].
  destruct (index0 (distances raw)) as [dists|e]; [|discriminate].
  cbn [Py.bind].
  destruct (ManualSearchEngine.collect rnd format_value path_name min_score _)
    as [cs|e] eqn:C; [|discriminate].
  cbn [Py.bind]. intros [= <-].
  apply sorted_Forall. now apply manual_collect_typed in C.
Qed.

(** X4.  Every result of the FAQ adapter is stamped ['type': 'faq'] and
    every result of the Manual adapter ['type': 'manual'], whatever the
    index stored under that key; so when the agent splits the first FAQ
    results followed by the first Manual results by type, it gets back
    exactly those two parts. *)
Theorem adapter_results_typed (query : pyobj) (max_results : option Z)
    (min_score : option Q) (a b : nat) :
  let faq_results :=
    snd (FAQSearchEngine.search_faq rnd config encode collection_query
           format_value query max_results min_score) in
  let manual_results :=
    snd (ManualSearchEngine.search_manual rnd config encode collection_query
           format_value path_name query max_results min_score) in
  Forall (Spec.typed (u "faq")) faq_results
  /\ Forall (Spec.typed (u "manual")) manual_results
  /\ SupportAgent.of_type (u "faq")
       (firstn a faq_results ++ firstn b manual_results)
     = Ok (firstn a faq_results)
  /\ SupportAgent.of_type (u "manual")
       (firstn a faq_results ++ firstn b manual_results)
     = Ok (firstn b manual_results).
Proof.
  intros faq_results manual_results.
  assert (HF : Forall (Spec.typed (u "faq")) faq_results).
  { subst faq_results.
    destruct (search_faq_outcome rnd config encode collection_query format_value
                query max_results min_score) as [->|[raw Hraw]];
      [constructor|].
    now apply faq_process_typed in Hraw. }
  assert (HM : Forall (Spec.typed (u "manual")) manual_results).
  { subst manual_results.
    destruct (search_manual_outcome rnd config encode collection_query
        format_value
                path_name query max_results min_score) as [->|[raw Hraw]];
      [constructor|].
    now apply manual_process_typed in Hraw. }
  split; [exact HF|]. split; [exact HM|].
  apply of_type_typed.
  - apply List.Forall_forall. intros r Hr.
    rewrite List.Forall_forall in HF. apply HF.
    rewrite <- (firstn_skipn a faq_results). apply in_or_app. now left.
  - apply List.Forall_forall. intros r Hr.
    rewrite List.Forall_forall in HM. apply HM.
    rewrite <- (firstn_skipn b manual_results). apply in_or_app. now left.
Qed.

End TypeStamp.

(** ** More on the fusion engine *)

Lemma sort_reverse_sorted_id {A : Type} (key : A -> Q) (l : list A) :
  StronglySorted (Spec.desc key) l -> sort_reverse key l = l.
Proof.
  induction 1 as [|x l Hl IH Hx]; [reflexivity|].
  cbn [sort_reverse]. rewrite IH.
  destruct l as [|y l]; [reflexivity|].
  cbn [insert_desc].
  inversion Hx as [|? ? Hy _]; subst. unfold Spec.desc in Hy.
  apply Qltb_false in Hy. now rewrite Hy.
Qed.

Lemma slice_to_app_length {A : Type} (l1 l2 : list A) (a b : Z) :
  0 <= a -> 0 <= b -> len (slice_to l1 a ++ slice_to l2 b) <= a + b.
Proof.
  intros Ha Hb. unfold len. rewrite length_app, Nat2Z.inj_add.
  pose proof (slice_to_length l1 a Ha). pose proof (slice_to_length l2 b Hb).
  unfold len in *. lia.
Qed.

Lemma slice_to_In {A : Type} (l : list A) (n : Z) (x : A) :
  In x (slice_to l n) -> In x l.
Proof.
  unfold slice_to. destruct (0 <=? n); intros H.
  - rewrite <- (firstn_skipn (Z.to_nat n) l). apply in_or_app. now left.
  - rewrite <- (firstn_skipn (Z.to_nat (len l + n)) l). apply in_or_app.
    now left.
Qed.

Section FusionMore.

Variable lower : pystr -> pystr.
Variable search_faq : pyobj -> option Z -> option Q -> result (list
    SearchResult).
Variable search_manual : pyobj -> option Z -> option Q -> result (list
    SearchResult).

Abbreviation search_ranked :=
  (UnifiedSearchEngine.search_ranked search_faq search_manual).
Abbreviation smart_search :=
  (UnifiedSearchEngine.smart_search lower search_faq search_manual).

(** X5.  When one source gives nothing (it found nothing or its adapter
    raised) and the other source's results come sorted by score, as
    every adapter search delivers them, [search_ranked] returns the
    first [max_total_results] of those results in their original order:
    sorting again changes nothing. *)
Theorem search_ranked_single_source (query : pyobj) (max_total_results : Z)
    (min_score : option Q) (rs : list SearchResult) :
  0 <= max_total_results ->
  StronglySorted (Spec.desc score) rs ->
  (search_faq query (Some max_total_results) min_score = Ok rs
   /\ try_except (search_manual query (Some max_total_results) min_score) []
      = [])
  \/ (try_except (search_faq query (Some max_total_results) min_score) [] = []
      /\ search_manual query (Some max_total_results) min_score = Ok rs) ->
  search_ranked query max_total_results min_score
  = firstn (Z.to_nat max_total_results) rs.
Proof.
  intros Hn Hs H.
  rewrite search_ranked_eq, slice_to_nonneg by exact Hn.
  destruct H as [[-> ->] | [-> ->]]; cbn [try_except app].
  - now rewrite app_nil_r, sort_reverse_sorted_id.
  - now rewrite sort_reverse_sorted_id.
Qed.

Lemma smart_search_cases (query : pyobj) (context : option pydict) :
  let faq4 := try_except (search_faq query (Some 4) None) [] in
  let manual4 := try_except (search_manual query (Some 4) None) [] in
  let found := fst (smart_search query context) in
  found = []
  \/ found = slice_to faq4 3 ++ slice_to manual4 2
  \/ found = slice_to manual4 3 ++ slice_to faq4 2
  \/ found = search_ranked query 5 None.
Proof.
  intros faq4 manual4 found. subst found.
  unfold UnifiedSearchEngine.smart_search,
    UnifiedSearchEngine.smart_search_body, getitem.
  rewrite (search_all_faq search_faq search_manual),
    (search_all_manual search_faq search_manual). cbn [Py.bind].
  destruct (UnifiedSearchEngine._determine_search_strategy lower query _)
    as [tag|e]; cbn [Py.bind try_except fst]; [|now left].
  destruct (String.eqb tag "faq_focus");
    [|destruct (String.eqb tag "manual_focus")]; cbn [try_except fst]; auto.
Qed.

(** X6.  [smart_search] never returns more than five results, and every
    result it returns was returned by one of the two adapters, called
    with a result cap of 4 or 5 and with no [min_score]: the caller of
    [smart_search] cannot lower the configured similarity threshold. *)
Theorem smart_search_bounded (query : pyobj) (context : option pydict) :
  let found := fst (smart_search query context) in
  len found <= 5
  /\ forall r : SearchResult,
       In r found ->
       exists cap : Z,
         (cap = 4 \/ cap = 5)
         /\ (In r (try_except (search_faq query (Some cap) None) [])
             \/ In r (try_except (search_manual query (Some cap) None) [])).
Proof.
  intros found. subst found.
  destruct (smart_search_cases query context) as [-> | [-> | [-> | ->]]].
  - split; [unfold len; cbn [List.length]; lia|]. intros r [].
  - split; [apply (slice_to_app_length _ _ 3 2); lia|].
    intros r Hr. exists 4. split; [now left|].
    apply in_app_or in Hr as [Hr|Hr]; apply slice_to_In in Hr; auto.
  - split; [apply (slice_to_app_length _ _ 3 2); lia|].
    intros r Hr. exists 4. split; [now left|].
    apply in_app_or in Hr as [Hr|Hr]; apply slice_to_In in Hr; auto.
  - rewrite search_ranked_eq. split; [apply slice_to_length; lia|].
    intros r Hr. exists 5. split; [now right|].
    apply slice_to_In in Hr.
    apply (Permutation_in _ (sort_reverse_perm score _)) in Hr.
    now apply in_app_or in Hr.
Qed.

End FusionMore.

(** ** Health checks *)

(** X7.  The status that the unified engine reports always has the three
    keys.  When no engine's own check raises, each engine entry is that
    engine's answer (false for an engine that is not set) and 'overall'
    is their disjunction.  When the Manual check raises after the FAQ
    check answered, the FAQ entry keeps that answer but 'overall' stays
    false, also for a healthy FAQ engine; when the FAQ check raises,
    every entry is false and the Manual engine is not asked. *)
Theorem unified_health_check_status
    (faq_engine manual_engine : option (result bool)) :
  let status := UnifiedSearchEngine.health_check faq_engine manual_engine in
  dom status = {["faq_engine"; "manual_engine"; "overall"]}
  /\ ((forall e, faq_engine <> Some (Raise e)) ->
      (forall e, manual_engine <> Some (Raise e)) ->
      status !! "faq_engine" = Some (Spec.healthy faq_engine)
      /\ status !! "manual_engine" = Some (Spec.healthy manual_engine)
      /\ status !! "overall"
         = Some (Spec.healthy faq_engine || Spec.healthy manual_engine))
  /\ ((forall e, faq_engine <> Some (Raise e)) ->
      (exists e, manual_engine = Some (Raise e)) ->
      status !! "faq_engine" = Some (Spec.healthy faq_engine)
      /\ status !! "manual_engine" = Some false
      /\ status !! "overall" = Some false)
  /\ ((exists e, faq_engine = Some (Raise e)) ->
      status !! "faq_engine" = Some false
      /\ status !! "manual_engine" = Some false
      /\ status !! "overall" = Some false).
Proof.
  intros status. subst status. unfold UnifiedSearchEngine.health_check.
  destruct faq_engine as [[f|ef]|]; destruct manual_engine as [[m|em]|];
    simplify_map_eq; cbn [Spec.healthy];
    (split; [rewrite ?dom_insert_L, dom_empty_L; set_solver|]);
    (split; [intros Hf Hm; try (now contradiction (Hf ef));
             try (now contradiction (Hm em)); now simplify_map_eq|]);
    (split; [intros Hf [e He]; try (now contradiction (Hf ef));
             try discriminate He; now simplify_map_eq|]);
    intros [e He]; try discriminate He; now simplify_map_eq.
Qed.

Section AdapterHealth.

Variable rnd : Q -> Q.

Variable config : Config.
Variable encode : list pystr -> result (list embedding).
Variable collection_query : list embedding -> Z -> string -> result QueryResult.
Variable format_value : pyobj -> pystr.
Variable path_name : pyobj -> result pystr.
Variable collection_count : result Z.

Abbreviation faq_health_check :=
  (FAQSearchEngine.health_check rnd config encode collection_query format_value
     collection_count).
Abbreviation manual_health_check :=
  (ManualSearchEngine.health_check rnd config encode collection_query
      format_value
     path_name).
Abbreviation _count_manual_documents :=
  (ManualSearchEngine._count_manual_documents encode collection_query).

(** X8.  The FAQ engine is healthy exactly when [collection.count()]
    returns a number other than zero: the test search is issued then, but
    its outcome is not looked at, so a failing embedder or index does not
    make the engine unhealthy.  When the count is zero or fails, no test
    search is issued. *)
Theorem faq_health_check_counts :
  snd faq_health_check
  = match collection_count with
    | Ok count => negb (count =? 0)
    | Raise _ => false
    end
  /\ (snd faq_health_check = true ->
      fst faq_health_check
      = fst (FAQSearchEngine.search_faq rnd config encode collection_query
               format_value (PStr (u "テスト")) (Some 1) None))
  /\ (snd faq_health_check = false -> fst faq_health_check = [])
  /\ ((forall texts, raises (encode texts) = true) ->
      forall count, collection_count = Ok count -> count <> 0 ->
      faq_health_check = ([Encode [u "テスト"]], true)).
Proof.
  unfold FAQSearchEngine.health_check, etry, ebind, lift, eret.
  destruct collection_count as [count|e]; cbn [fst snd try_except].
  - destruct (Z.eqb_spec count 0) as [->|Hne]; cbn [fst snd negb app].
    + repeat split; try discriminate; trivial.
      intros _ c [= <-] Hc. now contradiction Hc.
    + repeat split; try discriminate; trivial.
      intros Henc c _ _.
      unfold FAQSearchEngine.search_faq, FAQSearchEngine.search_faq_body,
        etry, ebind, lift, eret.
      change (strip (u "テスト")) with (u "テスト"). cbn [fst snd].
      specialize (Henc [u "テスト"]).
      destruct (encode [u "テスト"]); [discriminate|reflexivity].
  - repeat split; try discriminate; trivial.
Qed.

(** X9.  The Manual engine counts its documents with a query for at most
    1000 rows, and the count is the number of metadata rows of that
    response, or 0 as soon as the embedder or the index fails.  It is
    healthy exactly when that count is not zero; so, unlike the FAQ
    engine, it is unhealthy whenever the embedder fails. *)
Theorem manual_health_check_counts :
  snd _count_manual_documents
  = match encode [u "dummy"] with
    | Ok (e :: _) =>
        match collection_query [e] 1000 "manual" with
        | Ok raw => len (hd [] (metadatas raw))
        | Raise _ => 0
        end
    | _ => 0
    end
  /\ snd manual_health_check = negb (snd _count_manual_documents =? 0)
  /\ ((forall texts, raises (encode texts) = true) ->
      manual_health_check = ([Encode [u "dummy"]], false)).
Proof.
  split; [|split].
  - unfold ManualSearchEngine._count_manual_documents, etry, ebind, lift, eret.
    destruct (encode [u "dummy"]) as [[|e vs]|err]; cbn [fst snd index0
        try_except];
      try reflexivity.
    destruct (collection_query [e] 1000 "manual") as [raw|err];
      cbn [fst snd try_except]; [|reflexivity].
    destruct (metadatas raw) as [|[|row first] rest]; reflexivity.
  - unfold ManualSearchEngine.health_check.
    destruct (snd _count_manual_documents =? 0); reflexivity.
  - intros Henc. unfold ManualSearchEngine.health_check,
      ManualSearchEngine._count_manual_documents, etry, ebind, lift, eret.
    specialize (Henc [u "dummy"]).
    destruct (encode [u "dummy"]); [discriminate|reflexivity].
Qed.

End AdapterHealth.

(** ** The other searches of the adapters *)

Lemma forallb_isspace_join (keywords : list pystr) :
  Forall (fun k => forallb isspace k = true) keywords ->
  forallb isspace (join (u " ") keywords) = true.
Proof.
  induction 1 as [|k ks Hk Hks IH]; [reflexivity|].
  cbn [join]. destruct ks as [|k' ks]; [exact Hk|].
  rewrite !forallb_app, Hk, IH. reflexivity.
Qed.

Section OtherSearches.

Variable rnd : Q -> Q.

Variable config : Config.
Variable encode : list pystr -> result (list embedding).
Variable collection_query : list embedding -> Z -> string -> result QueryResult.
Variable format_value : pyobj -> pystr.
Variable path_name : pyobj -> result pystr.

Abbreviation search_by_keywords :=
  (FAQSearchEngine.search_by_keywords rnd config encode collection_query
     format_value).
Abbreviation get_random_faqs :=
  (FAQSearchEngine.get_random_faqs rnd encode collection_query format_value).
Abbreviation search_manual :=
  (ManualSearchEngine.search_manual rnd config encode collection_query
      format_value
     path_name).
Abbreviation search_by_page_range :=
  (ManualSearchEngine.search_by_page_range rnd config encode collection_query
     format_value path_name).

(** X10.  A keyword search runs the FAQ search, with the caller's
    [max_results] and no [min_score], on the keywords written one after
    the other with a single space between them; so its results always
    meet the configured similarity threshold, which the caller cannot
    change.  For an empty keyword list, or keywords that are all empty or
    blank, it returns the empty list without calling the embedder or the
    index. *)
Theorem search_by_keywords_blank (keywords : list pystr)
    (max_results : option Z) :
  let text :=
    match keywords with
    | [] => []
    | first :: rest => first ++ List.flat_map (fun k => 32%N :: k) rest
    end in
  search_by_keywords keywords max_results
  = FAQSearchEngine.search_faq rnd config encode collection_query format_value
      (PStr text) max_results None
  /\ Spec.well_scored rnd (SIMILARITY_THRESHOLD config)
       (snd (search_by_keywords keywords max_results))
  /\ (Forall (fun k => forallb isspace k = true) keywords ->
      search_by_keywords keywords max_results = ([], [])).
Proof.
  intros text.
  assert (E : join (u " ") keywords = text).
  { subst text. destruct keywords as [|first rest]; [reflexivity|].
    revert first. induction rest as [|k rest IH]; intros first.
    - cbn [join List.flat_map]. now rewrite app_nil_r.
    - change (join (u " ") (first :: k :: rest))
        with (first ++ u " " ++ join (u " ") (k :: rest)).
      rewrite IH. reflexivity. }
  unfold FAQSearchEngine.search_by_keywords. rewrite E. split; [reflexivity|].
  split.
  - apply (search_faq_well_scored rnd config encode collection_query
             format_value (PStr text) max_results None).
  - intros H. apply forallb_isspace_join in H. rewrite E in H.
    unfold FAQSearchEngine.search_faq.
    now rewrite (search_faq_blank rnd config encode collection_query
                   format_value _ max_results None H).
Qed.

(** X11.  [get_random_faqs] asks the index for exactly [count] rows (a
    count of 0 is passed on as it is) and filters with the threshold 0.0:
    for an aligned response with non-negative distances it returns one
    result per row, those of similarity 0 included, sorted by score.  The
    rounding is any that keeps the order, 0 and 1. *)
Theorem get_random_faqs_unfiltered (count : Z) (e : embedding)
    (vs : list embedding) (raw : QueryResult) :
  F64.faithful rnd ->
  encode [u "サンプル"] = Ok (e :: vs) ->
  collection_query [e] count "faq" = Ok raw ->
  length (metadatas raw) = length (documents raw) ->
  length (distances raw) = length (documents raw) ->
  Forall (fun row => (0 <= snd row)%Q) (Spec.rows raw) ->
  fst (get_random_faqs count)
  = [Encode [u "サンプル"]; Query [e] count "faq"]
  /\ exists collected : list SearchResult,
       Forall2
         (fun r row =>
            (score r == Spec.similarity rnd (snd row))%Q
            /\ original_distance r = Some (snd row))
         collected (Spec.rows raw)
       /\ snd (get_random_faqs count) = sort_reverse score collected
       /\ length (snd (get_random_faqs count)) = length (Spec.rows raw).
Proof.
  intros Hrnd He Hc Hm Hd Hpos.
  unfold FAQSearchEngine.get_random_faqs, etry, ebind, lift, eret.
  cbn [fst snd]. rewrite He. cbn [fst snd index0]. rewrite Hc. cbn [fst snd].
  split; [reflexivity|].
  destruct (faq_process_total rnd format_value raw 0.0%Q Hrnd Hm Hd Hpos)
    as [rs Hrs].
  rewrite Hrs. cbn [try_except].
  destruct (faq_process_sound rnd format_value raw 0.0%Q rs Hrs)
    as [(collected & Hcol & ->) _].
  assert (E : List.filter
                (fun row : pystr * pydict * Q =>
                   Qle_bool 0.0 (Spec.similarity rnd (snd row))) (Spec.rows raw)
              = Spec.rows raw).
  { clear. induction (Spec.rows raw) as [|row rows IH]; [reflexivity|].
    cbn [List.filter].
    assert (H : Qle_bool 0.0 (Spec.similarity rnd (snd row)) = true).
    { apply Qle_bool_iff. unfold Spec.similarity.
      eapply Qle_trans; [|apply Q.le_max_l]. vm_compute. discriminate. }
    now rewrite H, IH. }
  rewrite E in Hcol. exists collected. split; [exact Hcol|]. split;
      [reflexivity|].
  rewrite (Permutation_length (sort_reverse_perm score collected)).
  now apply Forall2_length in Hcol.
Qed.

Lemma filter_pages_spec (start_page end_page limit : Z)
    (all_results filtered out : list SearchResult) :
  ManualSearchEngine.filter_pages start_page end_page limit all_results filtered
  = Ok out ->
  len filtered < Z.max 1 limit ->
  exists added : list SearchResult,
    out = filtered ++ added
    /\ sublist added all_results
    /\ Forall (Spec.page_within start_page end_page) added
    /\ len out <= Z.max 1 limit.
Proof.
  revert filtered.
  induction all_results as [|r rest IH]; intros filtered H Hlen.
  - injection H as <-. exists []. rewrite app_nil_r.
    repeat split; [constructor|constructor|lia].
  - cbn [ManualSearchEngine.filter_pages] in H.
    destruct (metadata r) as [m|] eqn:Hm; [|discriminate].
    cbn [Py.bind] in H.
    destruct (ManualSearchEngine.page_in_range start_page end_page
                (dict_get m "page" (PInt 0))) as [inside|e] eqn:Hp;
      [|discriminate].
    cbn [Py.bind] in H.
    destruct inside.
    + assert (Hr : Spec.page_within start_page end_page r).
      { exists m. split; [exact Hm|].
        unfold ManualSearchEngine.page_in_range in Hp.
        destruct (dict_get m "page" (PInt 0)) as [|s|p|p]; try discriminate.
        - left. exists p. split; [reflexivity|].
          injection Hp as Hp. apply andb_true_iff in Hp as [H1 H2]. lia.
        - right. exists p. split; [reflexivity|].
          injection Hp as Hp. apply andb_true_iff in Hp as [H1 H2].
          apply Qle_bool_iff in H1, H2. now split. }
      assert (Hl : len (filtered ++ [r]) = len filtered + 1).
      { unfold len. rewrite length_app. cbn [List.length]. lia. }
      destruct (Z.geb_spec (len (filtered ++ [r])) limit) as [Hge|Hlt].
      * injection H as <-. exists [r].
        repeat split; [|repeat constructor; exact Hr|lia].
        apply sublist_skip, sublist_nil_l.
      * destruct (IH _ H) as (added & -> & Hsub & Hall & Hout); [lia|].
        exists (r :: added). rewrite <- app_assoc. cbn [app].
        repeat split; [|constructor; assumption|].
        -- now apply sublist_skip.
        -- now rewrite <- app_assoc in Hout.
    + destruct (IH _ H Hlen) as (added & -> & Hsub & Hall & Hout).
      exists added. repeat split; trivial. now apply sublist_cons.
Qed.

(** X12.  [search_by_page_range] called without [max_results] fails on
    [max_results * 2] before any search and returns the empty list, with
    no call to the embedder or the index.  Called with [max_results = n],
    it runs the Manual search with a cap of [2 * n] and returns, in the
    order of that search, only results whose recorded page is a number
    within the bounds, and no more than
    [max(1, n or MAX_SEARCH_RESULTS)] of them. *)
Theorem search_by_page_range_spec (query : pyobj) (start_page end_page : Z)
    (max_results : option Z) :
  let out := search_by_page_range query start_page end_page max_results in
  match max_results with
  | None => out = ([], [])
  | Some n =>
      let searched := search_manual query (Some (n * 2)) None in
      fst out = fst searched
      /\ sublist (snd out) (snd searched)
      /\ Forall (Spec.page_within start_page end_page) (snd out)
      /\ len (snd out) <= Z.max 1 (or_int (Some n) (MAX_SEARCH_RESULTS config))
  end.
Proof.
  intros out. subst out. destruct max_results as [n|]; [|reflexivity].
  unfold ManualSearchEngine.search_by_page_range. cbn [fst snd].
  split; [reflexivity|].
  destruct (ManualSearchEngine.filter_pages start_page end_page _ _ [])
    as [rs|e] eqn:F; cbn [try_except].
  - destruct (filter_pages_spec _ _ _ _ _ _ F) as (added & -> & Hs & Ha & Hl).
    + unfold len. cbn [List.length]. lia.
    + cbn [app] in *. repeat split; assumption.
  - repeat split; [apply sublist_nil_l|constructor|unfold len; cbn; lia].
Qed.

End OtherSearches.

(** ** The text shown for a manual passage *)

Lemma after_first_spec (sep s : pystr) :
  match after_first sep s with
  | Some rest =>
      exists pre : pystr,
        s = pre ++ sep ++ rest
        /\ forall pre' rest' : pystr,
             s = pre' ++ sep ++ rest' -> (length pre <= length pre')%nat
  | None => contains sep s = false
  end.
Proof.
  induction s as [|c s IH].
  - cbn [after_first contains]. destruct (startswith sep []) eqn:E.
    + apply startswith_spec in E as [post E].
      destruct sep; [|discriminate]. cbn [app] in E. subst post.
      exists []. split; [reflexivity|]. intros; cbn; lia.
    + reflexivity.
  - cbn [after_first contains]. destruct (startswith sep (c :: s)) eqn:E.
    + apply startswith_spec in E as [post E]. rewrite E.
      rewrite skipn_app, skipn_all, Nat.sub_diag. cbn [app skipn].
      exists []. split; [reflexivity|]. intros; cbn; lia.
    + cbn [orb]. destruct (after_first sep s) as [rest|].
      * destruct IH as (pre & -> & Hmin).
        exists (c :: pre). split; [reflexivity|].
        intros pre' rest' H. destruct pre' as [|c' pre'].
        -- cbn [app] in H.
           assert (E' : startswith sep (c :: pre ++ sep ++ rest) = true)
             by (apply startswith_spec; now exists rest').
           congruence.
        -- cbn [app] in H. injection H as _ H.
           cbn [List.length]. apply le_n_S. now apply (Hmin pre' rest').
      * exact IH.
Qed.

Section ManualContent.

Variable format_value : pyobj -> pystr.

Abbreviation _format_manual_content :=
  (ManualSearchEngine._format_manual_content format_value).

(** X13.  The text shown for a manual passage is a heading (title, page
    and a line break, which depend on the metadata only) followed by a
    body taken from the document: the whole document when it does not
    contain the marker "内容: ", and otherwise everything after the first
    occurrence of the marker, so that a stored title line before the
    marker is dropped. *)
Theorem manual_content_after_marker (meta : pydict) (document : pystr) :
  exists body : pystr,
    _format_manual_content meta document
    = _format_manual_content meta [] ++ body
    /\ ((contains (u "内容: ") document = false /\ body = document)
        \/ exists pre : pystr,
             document = pre ++ u "内容: " ++ body
             /\ forall pre' rest' : pystr,
                  document = pre' ++ u "内容: " ++ rest' ->
                  (length pre <= length pre')%nat).
Proof.
  unfold ManualSearchEngine._format_manual_content.
  change (contains (u "内容: ") []) with false. cbn iota.
  pose proof (after_first_spec (u "内容: ") document) as H.
  destruct (after_first (u "内容: ") document) as [rest|].
  - destruct H as (pre & Hdoc & Hmin).
    assert (Hc : contains (u "内容: ") document = true)
      by (apply contains_spec; now exists pre, rest).
    rewrite Hc. exists rest. split.
    + now rewrite !app_nil_r, <- !app_assoc.
    + right. now exists pre.
  - rewrite H. exists document. split.
    + now rewrite !app_nil_r, <- !app_assoc.
    + now left.
Qed.

End ManualContent.

(** ** Batches and the endpoints *)

Lemma strip_nonblank (q : pystr) : forallb isspace q = false -> strip q <> [].
Proof.
  intros H Hs. unfold strip, rstrip in Hs.
  assert (Hl : forall s, lstrip s = [] -> forallb isspace s = true).
  { induction s as [|c s IH]; [reflexivity|].
    cbn [lstrip forallb]. destruct (isspace c); [exact IH|discriminate]. }
  assert (Hhead : forall s, match lstrip s with
                            | [] => True
                            | c :: _ => isspace c = false
                            end).
  { induction s as [|c s IH]; [exact I|].
    cbn [lstrip]. destruct (isspace c) eqn:E; [exact IH|exact E]. }
  assert (E : lstrip (rev (lstrip q)) = []).
  { destruct (lstrip (rev (lstrip q))); [reflexivity|].
    apply (f_equal (@List.length N)) in Hs. rewrite length_rev in Hs.
    discriminate. }
  apply Hl in E.
  assert (E' : forallb isspace (lstrip q) = true).
  { apply List.forallb_forall. intros x Hx.
    rewrite List.forallb_forall in E. apply E. now apply List.in_rev in Hx. }
  clear E. rename E' into E.
  specialize (Hhead q).
  destruct (lstrip q) as [|c s] eqn:Eq.
  - apply Hl in Eq. congruence.
  - cbn [forallb] in E. rewrite Hhead in E. discriminate.
Qed.

Section BatchFlow.

Variable rnd : Q -> Q.

Variable config : Config.
Variable smart_search : pyobj -> pydict -> result (list SearchResult * string).
Variable chat_completions_create :
  pystr -> pystr -> pystr -> Q -> Z -> result (list (option pystr)).
Variable generate_faq_prompt : pystr -> list SearchResult -> pystr.
Variable generate_manual_prompt : pystr -> list SearchResult -> pystr.
Variable generate_multi_source_prompt :
  pystr -> list SearchResult -> list SearchResult -> pystr.
Variable elapsed_at : nat -> Q.

Abbreviation process_question_at :=
  (fun i : nat =>
     SupportAgent.process_question rnd config smart_search
         chat_completions_create
       generate_faq_prompt generate_manual_prompt generate_multi_source_prompt
       (elapsed_at i)).
Abbreviation answer_at :=
  (fun (i : nat) (q : pystr) => process_question_at i (mkQuestionRequest q
      None)).
Abbreviation batch_from :=
  (SupportAgent.batch_from rnd config smart_search chat_completions_create
     generate_faq_prompt generate_manual_prompt generate_multi_source_prompt
     elapsed_at).
Abbreviation process_batch_questions :=
  (SupportAgent.process_batch_questions rnd config smart_search
     chat_completions_create generate_faq_prompt generate_manual_prompt
     generate_multi_source_prompt elapsed_at).

Lemma batch_from_answers (i : nat) (questions : list pystr) :
  Forall (fun q => q <> []) questions ->
  batch_from i questions
  = Ok (imap (fun j q => answer_at (i + j)%nat q) questions).
Proof.
  intros H. revert i. induction H as [|q qs Hq _ IH]; intros i.
  - reflexivity.
  - cbn [SupportAgent.batch_from imap].
    destruct q as [|c q]; [congruence|].
    cbn [QuestionRequest_new Py.bind]. rewrite IH. cbn [Py.bind].
    rewrite Nat.add_0_r. do 2 f_equal.
    apply imap_ext. intros j x _. cbn. now rewrite Nat.add_succ_r.
Qed.

Lemma batch_from_empty_question (i : nat) (questions : list pystr) :
  In [] questions -> raises (batch_from i questions) = true.
Proof.
  revert i. induction questions as [|q qs IH]; intros i; [intros []|].
  intros [->|H]; [reflexivity|].
  cbn [SupportAgent.batch_from].
  destruct q as [|c q]; [reflexivity|].
  cbn [QuestionRequest_new Py.bind].
  specialize (IH (S i) H). destruct (batch_from (S i) qs); [discriminate|].
  reflexivity.
Qed.

(** X14.  A batch of non-empty questions is answered one by one, in
    order, each as [process_question] answers it.  One empty string among
    the questions fails the validation of its request, and then the whole
    batch returns the empty list, the answers already produced
    included. *)
Theorem process_batch_questions_all_or_nothing (questions : list pystr) :
  (Forall (fun q => q <> []) questions ->
   process_batch_questions questions = imap answer_at questions
   /\ length (process_batch_questions questions) = length questions)
  /\ (In [] questions -> process_batch_questions questions = []).
Proof.
  unfold SupportAgent.process_batch_questions. split.
  - intros H. rewrite (batch_from_answers 0%nat questions H). cbn [try_except].
    split; [reflexivity|apply length_imap].
  - intros H. apply (batch_from_empty_question 0%nat) in H.
    destruct (batch_from 0%nat questions); [discriminate|reflexivity].
Qed.

(** X15.  Through the two endpoints: for a request that passed the
    validation of [QuestionRequest], whose question is therefore not
    empty, [/ask] answers status 400 exactly when the question is blank
    or longer than 1000 characters, and otherwise returns the agent's
    response.  [/batch-ask] rejects an empty list and a list of more than
    ten questions with status 400; a list of one to ten non-empty
    questions gets as many responses, and no check is made on the single
    questions: a blank question that [/ask] rejects is answered in a
    batch, and an empty string in the batch makes the endpoint return an
    empty list. *)
Theorem endpoints_validation (request : QuestionRequest)
    (questions : list pystr) :
  let ask :=
    Api.ask_question (fun r => Ok (process_question_at 0%nat r)) request in
  let batch :=
    Api.batch_ask_questions (fun qs => Ok (process_batch_questions qs))
      questions in
  (QuestionRequest_new (question request) (context request) = Ok request ->
   (ask = Api.HTTPException 400 <->
    forallb isspace (question request) = true
    \/ 1000 < len (question request))
   /\ (ask <> Api.HTTPException 400 ->
       ask = Api.Respond (process_question_at 0%nat request)))
  /\ (batch = Api.HTTPException 400 <->
      questions = [] \/ 10 < len questions)
  /\ (questions <> [] -> len questions <= 10 ->
      Forall (fun q => q <> []) questions ->
      batch = Api.Respond (imap answer_at questions))
  /\ (questions <> [] -> len questions <= 10 ->
      In [] questions -> batch = Api.Respond []).
Proof.
  intros ask batch. subst ask batch.
  unfold Api.ask_question, Api.batch_ask_questions.
  split; [|split; [|split]].
  - intros _. split.
    + destruct (forallb isspace (question request)) eqn:B.
      * rewrite (strip_blank _ B). split; auto.
      * pose proof (strip_nonblank _ B) as Hs.
        destruct (strip (question request)) as [|c s]; [congruence|].
        destruct (Z.gtb_spec (len (question request)) 1000).
        -- split; auto.
        -- split; [discriminate|]. intros [H'|H']; [discriminate|lia].
    + destruct (strip (question request)) as [|c s]; [congruence|].
      destruct (len (question request) >? 1000); [congruence|].
      intros _. reflexivity.
  - destruct questions as [|q qs]; [split; auto|].
    destruct (Z.gtb_spec (len (q :: qs)) 10).
    + split; auto.
    + split; [discriminate|]. intros [H'|H']; [discriminate|lia].
  - intros Hne Hlen Hall. destruct questions as [|q qs]; [congruence|].
    destruct (Z.gtb_spec (len (q :: qs)) 10); [lia|].
    f_equal. unfold SupportAgent.process_batch_questions.
    now rewrite (batch_from_answers 0%nat (q :: qs) Hall).
  - intros Hne Hlen Hin. destruct questions as [|q qs]; [congruence|].
    destruct (Z.gtb_spec (len (q :: qs)) 10); [lia|].
    f_equal. unfold SupportAgent.process_batch_questions.
    apply (batch_from_empty_question 0%nat) in Hin.
    destruct (batch_from 0%nat (q :: qs)); [discriminate|reflexivity].
Qed.

End BatchFlow.

(** ** Configuration updates *)

Section ConfigFlow.

Variable rnd : Q -> Q.

Variable config : Config.
Variable encode : list pystr -> result (list embedding).
Variable collection_query : list embedding -> Z -> string -> result QueryResult.
Variable format_value : pyobj -> pystr.

(** X16.  A configuration update that passes validation and carries a
    result cap [m] leaves the threshold and the model as they were; after
    it, [1 <= m <= 20] and an FAQ search whose [max_results] is unset or
    0 asks the index for exactly [m] rows. *)
Theorem update_config_sets_cap (m : Z) (config_update : ConfigUpdate)
    (max_results : option Z) (min_score : option Q) (q : pystr)
    (e : embedding) (vs : list embedding) :
  ConfigUpdate_new (Some m) None None = Ok config_update ->
  max_results = None \/ max_results = Some 0 ->
  strip q <> [] ->
  encode [q] = Ok (e :: vs) ->
  let config' := Api.update_config config config_update in
  1 <= m <= 20
  /\ MAX_SEARCH_RESULTS config' = m
  /\ SIMILARITY_THRESHOLD config' = SIMILARITY_THRESHOLD config
  /\ OPENAI_MODEL config' = OPENAI_MODEL config
  /\ fst (FAQSearchEngine.search_faq rnd config' encode collection_query
            format_value (PStr q) max_results min_score)
     = [Encode [q]; Query [e] m "faq"].
Proof.
  intros Hnew Hmr Hq He config'. subst config'.
  unfold ConfigUpdate_new in Hnew.
  destruct ((1 <=? m) && (m <=? 20)) eqn:B; [|discriminate].
  cbn [andb] in Hnew. injection Hnew as <-.
  apply andb_true_iff in B as [B1 B2].
  unfold Api.update_config.
  cbn [max_search_results similarity_threshold openai_model
       MAX_SEARCH_RESULTS SIMILARITY_THRESHOLD OPENAI_MODEL].
  repeat split; try lia.
  unfold FAQSearchEngine.search_faq, FAQSearchEngine.search_faq_body.
  destruct (strip q) as [|c s]; [congruence|].
  unfold etry, ebind, lift, eret. cbn [fst snd]. rewrite He.
  cbn [fst snd index0 MAX_SEARCH_RESULTS].
  assert (E : or_int max_results m = m)
    by (destruct Hmr as [-> | ->]; reflexivity).
  rewrite E.
  destruct (collection_query [e] m "faq") as [raw|err]; cbn [fst snd];
    [|reflexivity].
  destruct (FAQSearchEngine._process_search_results rnd format_value raw _);
    reflexivity.
Qed.

End ConfigFlow.

(** ** The agent on its own engines *)

Section SystemFlow.

Variable rnd : Q -> Q.

Variable config : Config.
Variable lower : pystr -> pystr.
Variable encode : list pystr -> result (list embedding).
Variable collection_query : list embedding -> Z -> string -> result QueryResult.
Variable format_value : pyobj -> pystr.
Variable path_name : pyobj -> result pystr.
Variable chat_completions_create :
  pystr -> pystr -> pystr -> Q -> Z -> result (list (option pystr)).
Variable generate_faq_prompt : pystr -> list SearchResult -> pystr.
Variable generate_manual_prompt : pystr -> list SearchResult -> pystr.
Variable generate_multi_source_prompt :
  pystr -> list SearchResult -> list SearchResult -> pystr.
Variable elapsed : Q.

Abbreviation faq_engine :=
  (System.faq_engine rnd config encode collection_query format_value).
Abbreviation manual_engine :=
  (System.manual_engine rnd config encode collection_query format_value
      path_name).
Abbreviation search_engine :=
  (System.search_engine rnd config lower encode collection_query format_value
     path_name).
Abbreviation system_process_question :=
  (System.process_question rnd config lower encode collection_query format_value
     path_name chat_completions_create generate_faq_prompt
     generate_manual_prompt generate_multi_source_prompt elapsed).

Lemma engine_results_scored (query : pyobj) (context : option pydict) :
  let found :=
    fst (UnifiedSearchEngine.smart_search lower faq_engine manual_engine query
           context) in
  len found <= 5
  /\ Forall
       (fun r => (SIMILARITY_THRESHOLD config <= score r)%Q
                 /\ (0 <= score r <= 1)%Q)
       found.
Proof.
  intros found.
  assert (Hf : forall cap r,
             In r (try_except (faq_engine query (Some cap) None) []) ->
             (SIMILARITY_THRESHOLD config <= score r)%Q
             /\ (0 <= score r <= 1)%Q).
  { intros cap r Hr. unfold System.faq_engine in Hr. cbn [try_except] in Hr.
    destruct (search_faq_well_scored rnd config encode collection_query
                format_value query (Some cap) None) as [Hall _].
    rewrite List.Forall_forall in Hall.
    destruct (Hall r Hr) as (_ & H1 & H2). cbn [or_float] in H2. tauto. }
  assert (Hm : forall cap r,
             In r (try_except (manual_engine query (Some cap) None) []) ->
             (SIMILARITY_THRESHOLD config <= score r)%Q
             /\ (0 <= score r <= 1)%Q).
  { intros cap r Hr. unfold System.manual_engine in Hr. cbn [try_except] in Hr.
    destruct (search_manual_well_scored rnd config encode collection_query
                format_value path_name query (Some cap) None) as [Hall _].
    rewrite List.Forall_forall in Hall.
    destruct (Hall r Hr) as (_ & H1 & H2). cbn [or_float] in H2. tauto. }
  subst found.
  destruct (smart_search_cases lower faq_engine manual_engine query context)
    as [-> | [-> | [-> | ->]]].
  - split; [unfold len; cbn [List.length]; lia|constructor].
  - split; [apply (slice_to_app_length _ _ 3 2); lia|].
    apply List.Forall_forall. intros r Hr.
    apply in_app_or in Hr as [Hr|Hr]; apply slice_to_In in Hr; eauto.
  - split; [apply (slice_to_app_length _ _ 3 2); lia|].
    apply List.Forall_forall. intros r Hr.
    apply in_app_or in Hr as [Hr|Hr]; apply slice_to_In in Hr; eauto.
  - rewrite search_ranked_eq. split; [apply slice_to_length; lia|].
    apply List.Forall_forall. intros r Hr. apply slice_to_In in Hr.
    apply (Permutation_in _ (sort_reverse_perm score _)) in Hr.
    apply in_app_or in Hr as [Hr|Hr]; eauto.
Qed.

Lemma system_response_shape (request : QuestionRequest) :
  let response := system_process_question request in
  len (sources response) <= 5
  /\ Forall
       (fun r => (SIMILARITY_THRESHOLD config <= score r)%Q
                 /\ (0 <= score r <= 1)%Q)
       (sources response)
  /\ (confidence response = 0.1%Q \/ confidence response = 0.0%Q
      \/ exists tag : string,
           confidence response
           = SupportAgent._calculate_confidence rnd (sources response) tag).
Proof.
  intros response. subst response. unfold System.process_question.
  destruct (process_question_unfold rnd config search_engine
              chat_completions_create generate_faq_prompt
              generate_manual_prompt generate_multi_source_prompt elapsed
              request) as (a & c & -> & Hc).
  cbn [sources confidence].
  unfold SupportAgent._search_knowledge_base, System.search_engine in *.
  cbn [try_except] in *.
  destruct (engine_results_scored (PStr (question request))
              (Some match context request with Some c0 => c0 | None => ∅ end))
    as [Hlen Hall].
  split; [exact Hlen|]. split; [exact Hall|].
  destruct (fst (UnifiedSearchEngine.smart_search lower faq_engine
                   manual_engine (PStr (question request)) _)) as [|r rs] eqn:E.
  - destruct Hc as [-> | ->]; [now left | now right; left].
  - destruct Hc as [-> | ->]; [|now right; left].
    right. right. eexists. reflexivity.
Qed.

(** X18.  For the agent on its own engines, a question made only of
    white space reaches no source: the response lists no sources, and its
    confidence is 0.1 with the text of the generation service when that
    service answers the no-results prompt, and 0.0 otherwise. *)
Theorem system_blank_question (request : QuestionRequest) :
  forallb isspace (question request) = true ->
  let response := system_process_question request in
  let synthesis :=
    Py.bind
      (chat_completions_create (OPENAI_MODEL config) Prompts.SYSTEM_ROLE
         (Prompts.generate_no_results_prompt (question request)) 0.3%Q 400)
      SupportAgent.first_content in
  sources response = []
  /\ (forall text : pystr,
        synthesis = Ok text ->
        response = mkAnswerResponse text 0.1%Q [] (Some elapsed))
  /\ (raises synthesis = true -> confidence response = 0.0%Q).
Proof.
  intros Hblank response synthesis.
  assert (Hfaq : forall cap,
             try_except (faq_engine (PStr (question request)) (Some cap) None)
                 []
             = []).
  { intros cap. unfold System.faq_engine, FAQSearchEngine.search_faq.
    now rewrite (search_faq_blank rnd config encode collection_query
        format_value
                   _ (Some cap) None Hblank). }
  assert (Hman : forall cap,
             try_except (manual_engine (PStr (question request)) (Some cap)
                 None)
               [] = []).
  { intros cap. unfold System.manual_engine, ManualSearchEngine.search_manual.
    now rewrite (search_manual_blank rnd config encode collection_query
                   format_value path_name _ (Some cap) None Hblank). }
  assert (Hfound :
            fst (SupportAgent._search_knowledge_base search_engine
                   (question request)
                   match context request with Some c => c | None => ∅ end)
            = []).
  { unfold SupportAgent._search_knowledge_base, System.search_engine.
    cbn [try_except].
    destruct (smart_search_cases lower faq_engine manual_engine
                (PStr (question request))
                (Some match context request with Some c => c | None => ∅ end))
      as [-> | [-> | [-> | ->]]]; rewrite ?search_ranked_eq, ?Hfaq, ?Hman;
      reflexivity. }
  subst response. unfold System.process_question, SupportAgent.process_question.
  destruct (SupportAgent._search_knowledge_base search_engine _ _)
    as [rs tag]. cbn [fst] in Hfound. subst rs.
  unfold SupportAgent._generate_no_results_answer.
  assert (E : Py.bind
                (chat_completions_create (OPENAI_MODEL config)
                   Prompts.SYSTEM_ROLE
                   (Prompts.generate_no_results_prompt (question request))
                   0.3%Q 400)
                (fun choices =>
                   Py.bind (SupportAgent.first_content choices)
                     (fun answer => Ok (answer, 0.1%Q)))
              = Py.bind synthesis (fun answer => Ok (answer, 0.1%Q))).
  { subst synthesis. now destruct (chat_completions_create _ _ _ _ _). }
  rewrite E. clearbody synthesis.
  destruct synthesis as [text|err]; cbn [Py.bind try_except raises].
  - repeat split; try discriminate. intros t [= <-]. reflexivity.
  - repeat split; discriminate.
Qed.

End SystemFlow.

Section SystemBounds.

Variable rnd : Q -> Q.
Variable config : Config.
Variable lower : pystr -> pystr.
Variable encode : list pystr -> result (list embedding).
Variable collection_query : list embedding -> Z -> string -> result QueryResult.
Variable format_value : pyobj -> pystr.
Variable path_name : pyobj -> result pystr.
Variable chat_completions_create :
  pystr -> pystr -> pystr -> Q -> Z -> result (list (option pystr)).
Variable generate_faq_prompt : pystr -> list SearchResult -> pystr.
Variable generate_manual_prompt : pystr -> list SearchResult -> pystr.
Variable generate_multi_source_prompt :
  pystr -> list SearchResult -> list SearchResult -> pystr.
Variable elapsed : Q.

(** X17.  For the agent on its own engines, whatever the embedder, the
    index and the generation service do: a response lists at most five
    sources, each with a score between the configured similarity
    threshold and 1, and a confidence between 0 and 1; evaluated without
    rounding its confidence never exceeds 0.9, and evaluated in doubles
    it never exceeds the double 0.9. *)
Theorem system_response_bounds (request : QuestionRequest) :
  let system rnd :=
    System.process_question rnd config lower encode collection_query
      format_value path_name chat_completions_create generate_faq_prompt
      generate_manual_prompt generate_multi_source_prompt elapsed in
  let response := system rnd request in
  len (sources response) <= 5
  /\ Forall
       (fun r => (SIMILARITY_THRESHOLD config <= score r)%Q
                 /\ (0 <= score r <= 1)%Q)
       (sources response)
  /\ (0 <= confidence response <= 1)%Q
  /\ (0 <= confidence (system F64.exact request) <= 0.9)%Q
  /\ (0 <= confidence (system F64.round request) <= F64.round 0.9)%Q.
Proof.
  intros system response.
  destruct (system_response_shape rnd config lower encode collection_query
              format_value path_name chat_completions_create
              generate_faq_prompt generate_manual_prompt
              generate_multi_source_prompt elapsed request)
    as (Hlen & Hall & Hc).
  fold (system rnd) in Hlen, Hall, Hc. fold response in Hlen, Hall, Hc.
  split; [exact Hlen|]. split; [exact Hall|]. split; [|split].
  - destruct Hc as [-> | [-> | [tag ->]]];
      [split; vm_compute; discriminate.. | apply calculate_confidence_range].
  - destruct (system_response_shape F64.exact config lower encode
                collection_query format_value path_name
                chat_completions_create generate_faq_prompt
                generate_manual_prompt generate_multi_source_prompt elapsed
                request) as (_ & Hall' & Hc').
    fold (system F64.exact) in Hall', Hc'.
    destruct Hc' as [-> | [-> | [tag ->]]];
      [split; vm_compute; discriminate.. |].
    split; [apply calculate_confidence_range|].
    eapply Qle_trans;
      [apply calculate_confidence_le_factors | apply factors_range].
    eapply Forall_impl; [exact Hall'|]. intros x Hx. cbn beta in Hx. tauto.
  - destruct (system_response_shape F64.round config lower encode
                collection_query format_value path_name
                chat_completions_create generate_faq_prompt
                generate_manual_prompt generate_multi_source_prompt elapsed
                request) as (Hlen' & Hall' & Hc').
    fold (system F64.round) in Hlen', Hall', Hc'.
    destruct Hc' as [-> | [-> | [tag ->]]];
      [split; vm_compute; discriminate.. |].
    split; [apply calculate_confidence_range|].
    assert (Hrange : Forall (fun r => (0 <= score r <= 1)%Q)
                       (sources (system F64.round request))).
    { eapply Forall_impl; [exact Hall'|]. intros x Hx. cbn beta in Hx. tauto. }
    eapply Qle_trans; [|apply perfect_confidence_le].
    apply (calculate_confidence_le_perfect F64.round round_faithful _ tag
             Hrange).
    apply round_keeps_counts. unfold len in Hlen'. lia.
Qed.

End SystemBounds.

(** ** The reported system status *)

Lemma health_check_both_answer (faq_ok manual_ok : bool) :
  UnifiedSearchEngine.health_check (Some (Ok faq_ok)) (Some (Ok manual_ok))
    !! "overall"
  = Some (faq_ok || manual_ok).
Proof. unfold UnifiedSearchEngine.health_check. now simplify_map_eq. Qed.

Lemma faq_health_value (rnd : Q -> Q) (config : Config)
    (encode : list pystr -> result (list embedding))
    (collection_query : list embedding -> Z -> string -> result QueryResult)
    (format_value : pyobj -> pystr) (collection_count : result Z) :
  snd (FAQSearchEngine.health_check rnd config encode collection_query
         format_value collection_count)
  = match collection_count with
    | Ok count => negb (count =? 0)
    | Raise _ => false
    end.
Proof.
  unfold FAQSearchEngine.health_check, etry, ebind, lift, eret.
  destruct collection_count as [count|e]; cbn [fst snd try_except];
    [|reflexivity].
  destruct (count =? 0); reflexivity.
Qed.

Section StatusFlow.

Variable models_list : result unit.
Variable now : string.
Variable uptime : Q.

(** X19.  The [/health] endpoint reports the database as "healthy"
    exactly when the search engine's health check returned a status
    whose 'overall' entry is true, and as "degraded" when that entry is
    false or missing or the check raised; it reports the system as
    "healthy" exactly when, in addition, the call to the generation
    service succeeded, and as "degraded" otherwise.  It never reports
    "error" for a status that the agent built. *)
Theorem health_endpoint_status (engine_health_check : result (gmap string bool))
    :
  let report :=
    Api.health_check
      (SupportAgent.get_system_status models_list engine_health_check now)
      uptime in
  let engine_ok :=
    match engine_health_check with
    | Ok d => match d !! "overall" with Some b => b | None => false end
    | Raise _ => false
    end in
  database_status report = (if engine_ok then "healthy" else "degraded")%string
  /\ status report
     = (if negb (raises models_list) && engine_ok
        then "healthy" else "degraded")%string
  /\ Models.uptime report = uptime.
Proof.
  intros report engine_ok. subst report engine_ok.
  unfold Api.health_check, SupportAgent.get_system_status, getitem.
  destruct models_list as [[]|e1]; destruct engine_health_check as [d|e2];
    cbn [raises negb andb];
    try (destruct (d !! "overall") as [[|]|] eqn:E; cbn [negb]);
    simplify_map_eq; cbn [Py.bind try_except status database_status
                            Models.uptime];
    rewrite ?E; repeat split; try reflexivity;
    now simplify_map_eq.
Qed.

Lemma database_status_of_engine (d : gmap string bool) :
  database_status
    (Api.health_check
       (SupportAgent.get_system_status models_list (Ok d) now) uptime)
  = (if match d !! "overall" with Some b => b | None => false end
     then "healthy" else "degraded")%string.
Proof.
  unfold Api.health_check, SupportAgent.get_system_status, getitem.
  destruct models_list as [[]|e1];
    destruct (d !! "overall") as [[|]|] eqn:E; cbn [negb];
    simplify_map_eq; cbn [Py.bind try_except database_status];
    rewrite ?E; try reflexivity; now simplify_map_eq.
Qed.

Section Wired.

Variable rnd : Q -> Q.

Variable config : Config.
Variable encode : list pystr -> result (list embedding).
Variable collection_query : list embedding -> Z -> string -> result QueryResult.
Variable format_value : pyobj -> pystr.
Variable path_name : pyobj -> result pystr.
Variable collection_count : result Z.

(** X20.  On the agent's own engines the database is reported "healthy"
    exactly when [collection.count()] returns a number other than zero or
    the Manual engine's counting query returns at least one row; whether
    a search would succeed plays no part. *)
Theorem system_health_report :
  let report :=
    Api.health_check
      (SupportAgent.get_system_status models_list
         (Ok (System.engine_health rnd config encode collection_query
             format_value
                path_name collection_count)) now)
      uptime in
  let manual_count :=
    snd (ManualSearchEngine._count_manual_documents encode collection_query) in
  (database_status report = "healthy"%string <->
   (exists count, collection_count = Ok count /\ count <> 0)
   \/ manual_count <> 0)
  /\ (database_status report = "degraded"%string <->
      ~ ((exists count, collection_count = Ok count /\ count <> 0)
         \/ manual_count <> 0)).
Proof.
  intros report manual_count.
  subst report. rewrite database_status_of_engine.
  unfold System.engine_health. rewrite health_check_both_answer.
  rewrite faq_health_value.
  unfold ManualSearchEngine.health_check. fold manual_count.
  assert (Hm : snd (if manual_count =? 0
                    then (fst (ManualSearchEngine._count_manual_documents
                                 encode collection_query), false)
                    else (fst (ManualSearchEngine._count_manual_documents
                                 encode collection_query)
                          ++ fst (ManualSearchEngine.search_manual rnd config
                              encode
                                    collection_query format_value path_name
                                    (PStr (u "テスト")) (Some 1) None), true))
               = negb (manual_count =? 0))
    by (destruct (manual_count =? 0); reflexivity).
  rewrite Hm. clear Hm.
  set (b := match collection_count with
            | Ok count => negb (count =? 0)
            | Raise _ => false
            end || negb (manual_count =? 0)).
  assert (Hb : b = true <->
               (exists count, collection_count = Ok count /\ count <> 0)
               \/ manual_count <> 0).
  { subst b. rewrite orb_true_iff, !negb_true_iff. split.
    - intros [H|H].
      + left. destruct collection_count as [count|e]; [|discriminate].
        rewrite negb_true_iff in H. exists count. split; [reflexivity|].
        now apply Z.eqb_neq.
      + right. now apply Z.eqb_neq.
    - intros [(count & -> & H)|H].
      + left. rewrite negb_true_iff. now apply Z.eqb_neq.
      + right. now apply Z.eqb_neq. }
  destruct b.
  - split; split; try discriminate; try reflexivity.
    + intros _. now apply Hb.
    + intros H. exfalso. apply H. now apply Hb.
  - split; split; try discriminate; try reflexivity.
    + intros H. apply Hb in H. discriminate.
    + intros _ H. apply Hb in H. discriminate.
Qed.

End Wired.

End StatusFlow.

(** ** The further properties on the sample collaborators *)

Lemma confidence_bounded_witness :
  let perfect := [Samples.hit "a" 1; Samples.hit "b" 1; Samples.hit "c" 1] in
  (SupportAgent._calculate_confidence F64.exact perfect "faq_focus" <= 0.9)%Q
  /\ (SupportAgent._calculate_confidence F64.round perfect "faq_focus"
      <= F64.round 0.9)%Q
  /\ (SupportAgent._calculate_confidence F64.round perfect "faq_focus"
      == F64.round 0.9)%Q.
Proof.
  destruct (confidence_bounded F64.round
              [Samples.hit "a" 1; Samples.hit "b" 1; Samples.hit "c" 1]
              "faq_focus") as [_ H].
  destruct H as (_ & Hexact & Hround).
  { repeat constructor; vm_compute; discriminate. }
  split; [exact Hexact|]. split; [|vm_compute; reflexivity].
  apply Hround. vm_compute. reflexivity.
Defined.

Lemma answer_prompt_by_source_witness :
  SupportAgent._generate_answer_with_sources F64.exact (default_config
      F64.exact)
    Samples.chat_answers Samples.no_prompt Samples.no_prompt
    Samples.no_multi_prompt (u "有給")
    ([Samples.typed_hit "f" "faq" 0.9] ++ []) "faq_focus"
  = (u "担当者にお問い合わせください。",
     SupportAgent._calculate_confidence F64.exact
       ([Samples.typed_hit "f" "faq" 0.9] ++ []) "faq_focus").
Proof.
  rewrite (answer_prompt_by_source F64.exact (default_config F64.exact)
      Samples.chat_answers
             Samples.no_prompt Samples.no_prompt Samples.no_multi_prompt
             (u "有給") [Samples.typed_hit "f" "faq" 0.9] [] "faq_focus").
  - reflexivity.
  - repeat constructor. eexists. split; reflexivity.
  - constructor.
  - discriminate.
Defined.

Lemma search_ranked_single_source_witness :
  UnifiedSearchEngine.search_ranked Samples.faq_adapter Samples.broken_adapter
    (PStr (u "会議室")) 2 None
  = [Samples.hit "faq-a" 0.9; Samples.hit "faq-b" 0.8].
Proof.
  rewrite (search_ranked_single_source Samples.faq_adapter
             Samples.broken_adapter (PStr (u "会議室")) 2 None
             [Samples.hit "faq-a" 0.9; Samples.hit "faq-b" 0.8;
              Samples.hit "faq-c" 0.7]).
  - reflexivity.
  - lia.
  - repeat constructor; vm_compute; discriminate.
  - left. split; reflexivity.
Defined.

Lemma smart_search_bounded_witness :
  exists cap : Z,
    (cap = 4 \/ cap = 5)
    /\ (In (Samples.hit "faq-a" 0.9)
          (try_except (Samples.faq_adapter (PStr (u "ログインできません"))
                         (Some cap) None) [])
        \/ In (Samples.hit "faq-a" 0.9)
             (try_except (Samples.manual_adapter (PStr (u "ログインできません"))
                            (Some cap) None) [])).
Proof.
  apply (smart_search_bounded ascii_lower Samples.faq_adapter
           Samples.manual_adapter (PStr (u "ログインできません")) None).
  vm_compute. now left.
Defined.

Lemma unified_health_check_status_witness :
  UnifiedSearchEngine.health_check (Some (Ok true))
    (Some (Raise ExternalError)) !! "overall" = Some false.
Proof.
  destruct (unified_health_check_status (Some (Ok true))
              (Some (Raise ExternalError))) as (_ & _ & Hmanual & _).
  apply Hmanual.
  - intros e. discriminate.
  - now exists ExternalError.
Defined.

Lemma faq_health_check_counts_witness :
  FAQSearchEngine.health_check F64.exact (default_config F64.exact)
      Samples.broken_encode
    Samples.collection_query Samples.format_value (Ok 3)
  = ([Encode [u "テスト"]], true).
Proof.
  apply (faq_health_check_counts F64.exact (default_config F64.exact)
      Samples.broken_encode
           Samples.collection_query Samples.format_value (Ok 3))
    with (count := 3).
  - reflexivity.
  - reflexivity.
  - discriminate.
Defined.

Lemma manual_health_check_counts_witness :
  ManualSearchEngine.health_check F64.exact (default_config F64.exact)
      Samples.broken_encode
    Samples.collection_query Samples.format_value Samples.path_name
  = ([Encode [u "dummy"]], false).
Proof.
  apply (manual_health_check_counts F64.exact (default_config F64.exact)
      Samples.broken_encode
           Samples.collection_query Samples.format_value Samples.path_name).
  reflexivity.
Defined.

Lemma search_by_keywords_blank_witness :
  let search :=
    FAQSearchEngine.search_by_keywords F64.exact (default_config F64.exact)
      Samples.encode Samples.collection_query Samples.format_value in
  search [[]; u " "] None = ([], [])
  /\ search [u "ログイン"; u "エラー"] (Some 3)
     = FAQSearchEngine.search_faq F64.exact (default_config F64.exact)
         Samples.encode Samples.collection_query Samples.format_value
         (PStr (u "ログイン エラー")) (Some 3) None
  /\ fst (search [u "ログイン"; u "エラー"] (Some 3))
     = [Encode [u "ログイン エラー"]; Query [[1%Q; 0%Q]] 3 "faq"]
  /\ List.map score (snd (search [u "ログイン"; u "エラー"] (Some 3)))
     = [0.9%Q; 0.8%Q].
Proof.
  split; [|split; [|split; vm_compute; reflexivity]].
  - apply (search_by_keywords_blank F64.exact (default_config F64.exact)
             Samples.encode Samples.collection_query Samples.format_value
             [[]; u " "] None).
    repeat constructor.
  - apply (search_by_keywords_blank F64.exact (default_config F64.exact)
             Samples.encode Samples.collection_query Samples.format_value
             [u "ログイン"; u "エラー"] (Some 3)).
Defined.

Lemma get_random_faqs_unfiltered_witness :
  length (snd (FAQSearchEngine.get_random_faqs F64.round Samples.encode
                 Samples.far_collection_query Samples.format_value 5))
  = length (Spec.rows Samples.far_response)
  /\ List.map score
       (snd (FAQSearchEngine.get_random_faqs F64.round Samples.encode
               Samples.far_collection_query Samples.format_value 5))
     = [F64.round 0.8; 0%Q].
Proof.
  split; [|vm_compute; reflexivity].
  destruct (get_random_faqs_unfiltered F64.round Samples.encode
              Samples.far_collection_query Samples.format_value 5
              [1%Q; 0%Q] [] Samples.far_response)
    as (_ & collected & _ & _ & Hlen).
  - exact round_faithful.
  - reflexivity.
  - reflexivity.
  - reflexivity.
  - reflexivity.
  - repeat constructor; vm_compute; discriminate.
  - exact Hlen.
Defined.

Lemma manual_content_after_marker_witness :
  exists body : pystr,
    ManualSearchEngine._format_manual_content Samples.format_value
      {["title" := PStr (u "経費")]} (u "タイトル: 経費 内容: 申請は月末まで")
    = ManualSearchEngine._format_manual_content Samples.format_value
        {["title" := PStr (u "経費")]} [] ++ body
    /\ ((contains (u "内容: ") (u "タイトル: 経費 内容: 申請は月末まで") = false
         /\ body = u "タイトル: 経費 内容: 申請は月末まで")
        \/ exists pre : pystr,
             u "タイトル: 経費 内容: 申請は月末まで" = pre ++ u "内容: " ++ body
             /\ forall pre' rest' : pystr,
                  u "タイトル: 経費 内容: 申請は月末まで"
                  = pre' ++ u "内容: " ++ rest' ->
                  (length pre <= length pre')%nat).
Proof.
  exact (manual_content_after_marker Samples.format_value
           {["title" := PStr (u "経費")]} (u "タイトル: 経費 内容: 申請は月末まで")).
Defined.

Lemma process_batch_questions_all_or_nothing_witness :
  SupportAgent.process_batch_questions F64.exact (default_config F64.exact)
      Samples.empty_search
    Samples.chat_answers Samples.no_prompt Samples.no_prompt
    Samples.no_multi_prompt Samples.no_elapsed [u "有給"; []; u "経費"]
  = [].
Proof.
  apply (process_batch_questions_all_or_nothing F64.exact (default_config
      F64.exact)
           Samples.empty_search Samples.chat_answers Samples.no_prompt
           Samples.no_prompt Samples.no_multi_prompt Samples.no_elapsed
           [u "有給"; []; u "経費"]).
  right. now left.
Defined.

Lemma endpoints_validation_witness :
  let agent i :=
    SupportAgent.process_question F64.exact (default_config F64.exact)
      Samples.empty_search Samples.chat_answers Samples.no_prompt
      Samples.no_prompt Samples.no_multi_prompt (Samples.no_elapsed i) in
  let batch :=
    SupportAgent.process_batch_questions F64.exact (default_config F64.exact)
      Samples.empty_search Samples.chat_answers Samples.no_prompt
      Samples.no_prompt Samples.no_multi_prompt Samples.no_elapsed in
  Api.ask_question (fun r => Ok (agent 0%nat r))
    (mkQuestionRequest (u " ") None)
  = Api.HTTPException 400
  /\ Api.batch_ask_questions (fun qs => Ok (batch qs)) [u "有給"; u " "]
     = Api.Respond
         [agent 0%nat (mkQuestionRequest (u "有給") None);
          agent 1%nat (mkQuestionRequest (u " ") None)]
  /\ Api.batch_ask_questions (fun qs => Ok (batch qs)) [u "有給"; []]
     = Api.Respond [].
Proof.
  cbv zeta. split; [|split].
  - destruct (endpoints_validation F64.exact (default_config F64.exact)
                Samples.empty_search Samples.chat_answers Samples.no_prompt
                Samples.no_prompt Samples.no_multi_prompt Samples.no_elapsed
                (mkQuestionRequest (u " ") None) []) as ([Hask _] & _).
    + reflexivity.
    + apply Hask. left. reflexivity.
  - destruct (endpoints_validation F64.exact (default_config F64.exact)
                Samples.empty_search Samples.chat_answers Samples.no_prompt
                Samples.no_prompt Samples.no_multi_prompt Samples.no_elapsed
                (mkQuestionRequest (u " ") None) [u "有給"; u " "])
      as (_ & _ & Hbatch & _).
    apply Hbatch.
    + discriminate.
    + vm_compute. discriminate.
    + repeat constructor; discriminate.
  - destruct (endpoints_validation F64.exact (default_config F64.exact)
                Samples.empty_search Samples.chat_answers Samples.no_prompt
                Samples.no_prompt Samples.no_multi_prompt Samples.no_elapsed
                (mkQuestionRequest (u " ") None) [u "有給"; []])
      as (_ & _ & _ & Hbatch).
    apply Hbatch.
    + discriminate.
    + vm_compute. discriminate.
    + right. now left.
Defined.

Lemma update_config_sets_cap_witness :
  fst (FAQSearchEngine.search_faq F64.exact
         (Api.update_config (default_config F64.exact)
            (mkConfigUpdate (Some 8) None None))
         Samples.encode Samples.collection_query Samples.format_value
         (PStr (u "テスト")) (Some 0) None)
  = [Encode [u "テスト"]; Query [[1%Q; 0%Q]] 8 "faq"].
Proof.
  apply (update_config_sets_cap F64.exact (default_config F64.exact)
      Samples.encode
           Samples.collection_query Samples.format_value 8
           (mkConfigUpdate (Some 8) None None) (Some 0) None (u "テスト")
           [1%Q; 0%Q] []).
  - reflexivity.
  - now right.
  - vm_compute. discriminate.
  - reflexivity.
Defined.

Lemma system_blank_question_witness :
  System.process_question F64.exact (default_config F64.exact) ascii_lower
      Samples.encode
    Samples.collection_query Samples.format_value Samples.path_name
    Samples.chat_answers Samples.no_prompt Samples.no_prompt
    Samples.no_multi_prompt 1.5%Q (mkQuestionRequest (u " 　") None)
  = mkAnswerResponse (u "担当者にお問い合わせください。") 0.1%Q [] (Some 1.5%Q).
Proof.
  apply (system_blank_question F64.exact (default_config F64.exact) ascii_lower
      Samples.encode
           Samples.collection_query Samples.format_value Samples.path_name
           Samples.chat_answers Samples.no_prompt Samples.no_prompt
           Samples.no_multi_prompt 1.5%Q (mkQuestionRequest (u " 　") None)).
  - vm_compute. reflexivity.
  - vm_compute. reflexivity.
Defined.
